(** * click.testing: the in-process test harness for command line programs

    A shallow embedding of [src/click/testing.py] (EchoingStdin,
    make_input_stream, Result, CliRunner) together with the part of the
    Python runtime the module runs on (str and bytes, codecs, BytesIO, the
    text wrapper over a byte stream, exceptions and try/except/finally),
    followed by the properties of the harness. *)

From Stdlib Require Import ZArith NArith Lia.
From Stdlib Require Import Init.Byte Strings.Byte.
From stdpp Require Import gmap strings list pretty.

Local Open Scope N_scope.

(** ** Python values *)

(** A Python [str] is a sequence of code points, [bytes] a sequence of
    octets. *)
Abbreviation str := (list N).
Abbreviation bytes := (list byte).

Definition LF : N := 10.
Definition CR : N := 13.
Definition REPLACEMENT_CHARACTER : N := 0xFFFD.

(** The text of a literal of the source, all of whose characters are ASCII. *)
Definition u (s : string) : str :=
  map (fun b => Byte.to_N b) (String.list_byte_of_string s).

(** The objects the harness handles without looking inside: [None], ints
    (and bools, which are ints in Python), strings, and any other object,
    of which the harness only ever asks for the result of [x != 0] and for
    [str(x)]. *)
Inductive pyval :=
| PyNone
| PyInt (n : Z)
| PyBool (b : bool)
| PyStr (s : str)
| PyObj (cls : string) (ne_zero : bool) (text : str).

(** [isinstance(v, int)] *)
Definition isinstance_int (v : pyval) : bool :=
  match v with
  | PyInt _ | PyBool _ => true
  | _ => false
  end.

(** [v != 0] *)
Definition ne_0 (v : pyval) : bool :=
  match v with
  | PyNone => true
  | PyInt n => negb (n =? 0)%Z
  | PyBool b => b
  | PyStr _ => true
  | PyObj _ nz _ => nz
  end.

(** [str(v)] *)
Definition py_str (v : pyval) : str :=
  match v with
  | PyNone => u "None"
  | PyInt n => u (pretty n)
  | PyBool true => u "True"
  | PyBool false => u "False"
  | PyStr s => s
  | PyObj _ _ t => t
  end.

(** The float [0.0]: not an int, equal to 0, printed as [0.0]. *)
Definition float_zero : pyval := PyObj "float" false (u "0.0").

(** ** Exceptions *)

(** What the handlers of the module distinguish: [SystemExit] with its
    [code], the instances of [Exception], and the exceptions that derive
    from [BaseException] only ([KeyboardInterrupt], [GeneratorExit]). *)
Inductive exn :=
| SystemExit (code : pyval)
| Exc (cls : string) (msg : string)
| BaseExc (cls : string).


Definition is_Exception (e : exn) : bool :=
  match e with Exc _ _ => true | _ => false end.

Definition TypeError := Exc "TypeError".
Definition ValueError := Exc "ValueError".
Definition OSError := Exc "OSError".
Definition UnicodeDecodeError := Exc "UnicodeDecodeError".
Definition UnicodeEncodeError := Exc "UnicodeEncodeError".
Definition UnsupportedOperation := Exc "UnsupportedOperation".

(** [isinstance(e, OSError)]: [OSError] and its subclasses *)
Definition OSError_classes : list string :=
  ["OSError"; "FileNotFoundError"; "FileExistsError"; "PermissionError";
   "NotADirectoryError"; "IsADirectoryError"].

Definition is_OSError (e : exn) : bool :=
  match e with
  | Exc cls _ => existsb (String.eqb cls) OSError_classes
  | _ => false
  end.

(** How a call ends: with a value or with a raised exception. *)
Inductive outcome (A : Type) :=
| Ok (a : A)
| Raised (e : exn).
Arguments Ok {A} a.
Arguments Raised {A} e.

Definition outcome_map {A B} (f : A -> B) (o : outcome A) : outcome B :=
  match o with Ok a => Ok (f a) | Raised e => Raised e end.

Definition outcome_bind {A B} (o : outcome A) (k : A -> outcome B) : outcome B :=
  match o with Ok a => k a | Raised e => Raised e end.

(** ** Statements over the interpreter state

    A statement runs from a state to an outcome and a new state; an
    exception leaves the state as it was when the exception was raised. *)
Definition M (S A : Type) : Type := S -> outcome A * S.

Definition ret {S A} (a : A) : M S A := fun s => (Ok a, s).

Definition raise {S A} (e : exn) : M S A := fun s => (Raised e, s).

Definition bind {S A B} (m : M S A) (k : A -> M S B) : M S B :=
  fun s =>
    match m s with
    | (Ok a, s1) => k a s1
    | (Raised e, s1) => (Raised e, s1)
    end.

Definition gets {S A} (f : S -> A) : M S A := fun s => (Ok (f s), s).

Definition modify {S} (f : S -> S) : M S unit := fun s => (Ok tt, f s).

Definition lift {S A} (o : outcome A) : M S A := fun s => (o, s).

Declare Scope py_scope.
Delimit Scope py_scope with py.
Notation "'let*' x ':=' m 'in' k" := (bind m (fun x => k))
  (at level 10, x name, m at level 100, k at level 200) : py_scope.

(** [try: body finally: fin].  The final block always runs; an exception
    of the final block replaces the outcome of the body. *)
Definition try_finally {S A} (body : M S A) (fin : M S unit) : M S A :=
  fun s =>
    let '(o, s1) := body s in
    match fin s1 with
    | (Ok _, s2) => (o, s2)
    | (Raised e, s2) => (Raised e, s2)
    end.

(** [try: body except ...: handler].  [handler e] is [None] when no except
    clause matches [e], which then propagates. *)
Definition try_except {S A} (body : M S A) (handler : exn -> option (M S A)) : M S A :=
  fun s =>
    match body s with
    | (Ok a, s1) => (Ok a, s1)
    | (Raised e, s1) =>
        match handler e with
        | Some h => h s1
        | None => (Raised e, s1)
        end
    end.

(** ** Dictionaries

    A [dict] keeps its items in insertion order and holds a key once. *)
Abbreviation dict V := (list (string * V)).

Fixpoint dict_get {V} (k : string) (d : dict V) : option V :=
  match d with
  | [] => None
  | (k', v) :: d' => if String.eqb k k' then Some v else dict_get k d'
  end.

(** [d[k] = v] *)
Fixpoint dict_set {V} (k : string) (v : V) (d : dict V) : dict V :=
  match d with
  | [] => [(k, v)]
  | (k', v') :: d' =>
      if String.eqb k k' then (k, v) :: d' else (k', v') :: dict_set k v d'
  end.

(** [del d[k]], for a key that is there *)
Fixpoint dict_del {V} (k : string) (d : dict V) : dict V :=
  match d with
  | [] => []
  | (k', v') :: d' =>
      if String.eqb k k' then d' else (k', v') :: dict_del k d'
  end.

(** [d.update(items)] *)
Definition dict_update {V} (d : dict V) (items : list (string * V)) : dict V :=
  fold_left (fun acc kv => dict_set kv.1 kv.2 acc) items d.

(** [dict(items)] *)
Definition dict_of {V} (items : list (string * V)) : dict V :=
  dict_update [] items.

(** ** Text *)

Definition str_mem (c : N) (chars : str) : bool := existsb (N.eqb c) chars.

(** [s.rstrip(chars)] *)
Fixpoint rstrip (chars : str) (s : str) : str :=
  match s with
  | [] => []
  | c :: t =>
      match rstrip chars t with
      | [] => if str_mem c chars then [] else [c]
      | t' => c :: t'
      end
  end.

(** [s.replace("\r\n", "\n")] *)
Fixpoint replace_crlf (s : str) : str :=
  match s with
  | [] => []
  | c :: t =>
      match t with
      | c' :: t' =>
          if (c =? CR) && (c' =? LF) then LF :: replace_crlf t'
          else c :: replace_crlf t
      | [] => [c]
      end
  end.

(** What a text wrapper opened with the default [newline=None] hands to
    its reader: every ["\r\n"] and every other ["\r"] has become ["\n"]. *)
Fixpoint universal_newlines (s : str) : str :=
  match s with
  | [] => []
  | c :: t =>
      if c =? CR then
        LF :: match t with
              | c' :: t' =>
                  if c' =? LF then universal_newlines t' else universal_newlines t
              | [] => []
              end
      else c :: universal_newlines t
  end.

(** The first line of a text, with its terminator if it has one. *)
Fixpoint first_line (s : str) : str :=
  match s with
  | [] => []
  | c :: t => if c =? LF then [c] else c :: first_line t
  end.

(** ** Codecs

    A codec decodes one character at a time: from the byte at hand and the
    bytes after it, it gives either a character and the number of further
    bytes that belong to it, or the number of further bytes that form an
    ill-formed sequence with it.  What happens at an ill-formed sequence,
    or at a character with no encoding, is decided by the error policy. *)
Inductive errors := Strict | Replace | Backslashreplace.

Inductive decode_step :=
| Decoded (c : N) (extra : nat)
| Malformed (extra : nat).

Record codec := {
  codec_name : string;
  decode_at : byte -> bytes -> decode_step;
  encode_char : N -> option bytes
}.

Definition byte_of_N (n : N) : byte :=
  match Byte.of_N (n mod 256) with
  | Some b => b
  | None => x00
  end.

Definition hex_digit (n : N) : N := if n <? 10 then 48 + n else 87 + n.

(** The last [k] hexadecimal digits of [n]. *)
Fixpoint hex_digits (k : nat) (n : N) : str :=
  match k with
  | O => []
  | S k' => hex_digits k' (n / 16) ++ [hex_digit (n mod 16)]
  end.

(** [\xNN] for an octet that could not be decoded *)
Definition escape_byte (b : byte) : str :=
  u "\x" ++ hex_digits 2 (Byte.to_N b).

(** [\xNN], [\uNNNN] or [\UNNNNNNNN] for a character that could not be
    encoded *)
Definition escape_char (c : N) : str :=
  if c <? 0x100 then u "\x" ++ hex_digits 2 c
  else if c <? 0x10000 then u "\u" ++ hex_digits 4 c
  else u "\U" ++ hex_digits 8 c.

(** [bs.decode(c, e)], from the position [skip] bytes into [bs] *)
Fixpoint decode_from (c : codec) (e : errors) (skip : nat) (bs : bytes) : outcome str :=
  match bs with
  | [] => Ok []
  | b :: rest =>
      match skip with
      | S k => decode_from c e k rest
      | O =>
          match decode_at c b rest with
          | Decoded ch extra => outcome_map (cons ch) (decode_from c e extra rest)
          | Malformed extra =>
              match e with
              | Strict => Raised (UnicodeDecodeError (codec_name c))
              | Replace =>
                  outcome_map (cons REPLACEMENT_CHARACTER) (decode_from c e extra rest)
              | Backslashreplace =>
                  outcome_map (app (flat_map escape_byte (b :: take extra rest)))
                       (decode_from c e extra rest)
              end
          end
      end
  end.

Definition bytes_decode (c : codec) (e : errors) (bs : bytes) : outcome str :=
  decode_from c e 0 bs.

(** [s.encode(c, e)] *)
Fixpoint str_encode (c : codec) (e : errors) (s : str) : outcome bytes :=
  match s with
  | [] => Ok []
  | ch :: t =>
      match encode_char c ch with
      | Some bs => outcome_map (app bs) (str_encode c e t)
      | None =>
          match e with
          | Strict => Raised (UnicodeEncodeError (codec_name c))
          | Replace => outcome_map (cons (byte_of_N 63)) (str_encode c e t)
          | Backslashreplace =>
              outcome_map (app (map byte_of_N (escape_char ch))) (str_encode c e t)
          end
      end
  end.

(** The octet at offset [i] of [rest], as a number, when it lies in
    [lo..hi]. *)
Definition octet_in (lo hi : N) (rest : bytes) (i : nat) : option N :=
  match rest !! i with
  | Some b =>
      let n := Byte.to_N b in
      if (lo <=? n) && (n <=? hi) then Some n else None
  | None => None
  end.

Definition utf8_decode_at (b : byte) (rest : bytes) : decode_step :=
  let n := Byte.to_N b in
  if n <? 0x80 then Decoded n 0
  else if n <? 0xC2 then Malformed 0
  else if n <? 0xE0 then
    match octet_in 0x80 0xBF rest 0 with
    | Some c1 => Decoded ((n - 0xC0) * 64 + (c1 - 0x80)) 1
    | None => Malformed 0
    end
  else if n <? 0xF0 then
    let lo := if n =? 0xE0 then 0xA0 else 0x80 in
    let hi := if n =? 0xED then 0x9F else 0xBF in
    match octet_in lo hi rest 0 with
    | None => Malformed 0
    | Some c1 =>
        match octet_in 0x80 0xBF rest 1 with
        | None => Malformed 1
        | Some c2 =>
            Decoded ((n - 0xE0) * 4096 + (c1 - 0x80) * 64 + (c2 - 0x80)) 2
        end
    end
  else if n <? 0xF5 then
    let lo := if n =? 0xF0 then 0x90 else 0x80 in
    let hi := if n =? 0xF4 then 0x8F else 0xBF in
    match octet_in lo hi rest 0 with
    | None => Malformed 0
    | Some c1 =>
        match octet_in 0x80 0xBF rest 1 with
        | None => Malformed 1
        | Some c2 =>
            match octet_in 0x80 0xBF rest 2 with
            | None => Malformed 2
            | Some c3 =>
                Decoded ((n - 0xF0) * 262144 + (c1 - 0x80) * 4096
                         + (c2 - 0x80) * 64 + (c3 - 0x80)) 3
            end
        end
    end
  else Malformed 0.

Definition utf8_encode_char (c : N) : option bytes :=
  if c <? 0x80 then Some [byte_of_N c]
  else if c <? 0x800 then
    Some [byte_of_N (0xC0 + c / 64); byte_of_N (0x80 + c mod 64)]
  else if c <? 0x10000 then
    if (0xD800 <=? c) && (c <? 0xE000) then None
    else Some [byte_of_N (0xE0 + c / 4096); byte_of_N (0x80 + (c / 64) mod 64);
               byte_of_N (0x80 + c mod 64)]
  else if c <? 0x110000 then
    Some [byte_of_N (0xF0 + c / 262144); byte_of_N (0x80 + (c / 4096) mod 64);
          byte_of_N (0x80 + (c / 64) mod 64); byte_of_N (0x80 + c mod 64)]
  else None.

Definition codec_utf_8 : codec :=
  {| codec_name := "utf-8";
     decode_at := utf8_decode_at;
     encode_char := utf8_encode_char |}.

Definition codec_ascii : codec :=
  {| codec_name := "ascii";
     decode_at := fun b _ =>
       let n := Byte.to_N b in if n <? 0x80 then Decoded n 0 else Malformed 0;
     encode_char := fun c => if c <? 0x80 then Some [byte_of_N c] else None |}.

Definition codec_latin_1 : codec :=
  {| codec_name := "latin-1";
     decode_at := fun b _ => Decoded (Byte.to_N b) 0;
     encode_char := fun c => if c <? 0x100 then Some [byte_of_N c] else None |}.

(** The octets of a literal of the source. *)
Definition octets (s : string) : bytes := String.list_byte_of_string s.

(** ** io.BytesIO

    An in-memory byte stream: its contents and the position of the next
    read or write. *)
Record BytesIO := { buf : bytes; pos : nat }.

(** [io.BytesIO(initial)] *)
Definition BytesIO_of (initial : bytes) : BytesIO := {| buf := initial; pos := 0 |}.

Definition getvalue (s : BytesIO) : bytes := buf s.

Definition remaining (s : BytesIO) : bytes := drop (pos s) (buf s).

Definition advance (s : BytesIO) (rv : bytes) : BytesIO :=
  {| buf := buf s; pos := pos s + length rv |}.

(** A size argument: negative means no limit. *)
Definition limit (n : Z) (bs : bytes) : bytes :=
  if (n <? 0)%Z then bs else take (Z.to_nat n) bs.

Fixpoint first_line_bytes (bs : bytes) : bytes :=
  match bs with
  | [] => []
  | c :: t => if Byte.eqb c x0a then [c] else c :: first_line_bytes t
  end.

Fixpoint lines_of (bs : bytes) : list bytes :=
  match bs with
  | [] => []
  | c :: t =>
      if Byte.eqb c x0a then [c] :: lines_of t
      else match lines_of t with
           | [] => [[c]]
           | l :: ls => (c :: l) :: ls
           end
  end.

Definition BytesIO_read (n : Z) (s : BytesIO) : bytes * BytesIO :=
  let rv := limit n (remaining s) in (rv, advance s rv).

(** A [BytesIO] has nothing to wait for: [read1] is [read]. *)
Definition BytesIO_read1 (n : Z) (s : BytesIO) : bytes * BytesIO :=
  BytesIO_read n s.

Definition BytesIO_readline (n : Z) (s : BytesIO) : bytes * BytesIO :=
  let rv := limit n (first_line_bytes (remaining s)) in (rv, advance s rv).

Definition BytesIO_readlines (s : BytesIO) : list bytes * BytesIO :=
  let rv := lines_of (remaining s) in (rv, advance s (concat rv)).

(** [next(s)]: the next line, [None] for [StopIteration]. *)
Definition BytesIO_next (s : BytesIO) : option bytes * BytesIO :=
  match BytesIO_readline (-1) s with
  | ([], s') => (None, s')
  | (rv, s') => (Some rv, s')
  end.

(** [s.write(data)]: the data goes where the position is, over what is
    there, after zero padding when the position is past the end. *)
Definition BytesIO_write (data : bytes) (s : BytesIO) : BytesIO :=
  match data with
  | [] => s
  | _ =>
      {| buf := take (pos s) (buf s) ++ replicate (pos s - length (buf s)) x00
                ++ data ++ drop (pos s + length data) (buf s);
         pos := pos s + length data |}
  end.

(** ** EchoingStdin *)

Record EchoingStdin := { _input : BytesIO; _output : BytesIO }.

(** A call of a method of [self._input]. *)
Definition on_input {A} (f : BytesIO -> A * BytesIO) : M EchoingStdin A :=
  fun self =>
    let '(a, i) := f (_input self) in
    (Ok a, {| _input := i; _output := _output self |}).

Definition _echo (rv : bytes) : M EchoingStdin bytes :=
  (let* _ := modify (fun self =>
     {| _input := _input self; _output := BytesIO_write rv (_output self) |}) in
   ret rv)%py.

Fixpoint for_each {S A B} (f : A -> M S B) (xs : list A) : M S (list B) :=
  match xs with
  | [] => ret []
  | x :: xs' => (let* y := f x in let* ys := for_each f xs' in ret (y :: ys))%py
  end.

Definition EchoingStdin_read (n : Z) : M EchoingStdin bytes :=
  (let* rv := on_input (BytesIO_read n) in _echo rv)%py.

Definition EchoingStdin_readline (n : Z) : M EchoingStdin bytes :=
  (let* rv := on_input (BytesIO_readline n) in _echo rv)%py.

Definition EchoingStdin_readlines : M EchoingStdin (list bytes) :=
  (let* xs := on_input BytesIO_readlines in for_each _echo xs)%py.

(** One step of the generator that [__iter__] returns: the next line of
    the input is echoed when it is produced; [None] at the end. *)
Definition EchoingStdin_next : M EchoingStdin (option bytes) :=
  (let* x := on_input BytesIO_next in
   match x with
   | Some line => let* rv := _echo line in ret (Some rv)
   | None => ret None
   end)%py.

(** Any other attribute is the attribute of the input ([__getattr__]): a
    [read1] reaches the input directly. *)
Definition EchoingStdin_read1 (n : Z) : M EchoingStdin bytes :=
  on_input (BytesIO_read1 n).

(** ** make_input_stream *)

(** Modelled from the spec: [_find_binary_reader] of [click._compat] is not
    part of the sources at hand.  Of a stream object it gives the
    underlying binary-mode reader, or [None] when there is none; a stream
    is represented by that reader. *)
Record Stream := { binary_reader : option BytesIO }.

Definition _find_binary_reader (s : Stream) : option BytesIO := binary_reader s.

(** What a caller may pass as input: an object with a [read] attribute,
    [None], bytes or text. *)
Inductive input_t :=
| InputStream (s : Stream)
| InputNone
| InputBytes (bs : bytes)
| InputStr (s : str).

Definition make_input_stream (input : input_t) (charset : codec) : outcome BytesIO :=
  match input with
  | InputStream s =>
      match _find_binary_reader s with
      | Some rv => Ok rv
      | None => Raised (TypeError "Could not find binary reader for input stream.")
      end
  | InputNone => Ok (BytesIO_of [])
  | InputBytes bs => Ok (BytesIO_of bs)
  | InputStr s => outcome_map BytesIO_of (str_encode charset Strict s)
  end.

(** ** CliRunner and Result *)

(** The runner.  Its character set, a codec name in the source, is the
    codec of that name; its [env] is a reference to a dict of the store. *)
Record CliRunner := {
  charset : codec;
  env : nat;
  echo_stdin : bool;
  mix_stderr : bool
}.

Record Result := {
  runner : CliRunner;
  stdout_bytes : bytes;
  stderr_bytes : option bytes;
  return_value : pyval;
  exit_code : pyval;
  exception : option exn;
  exc_info : option exn
}.

Definition Result_stdout (self : Result) : outcome str :=
  outcome_map replace_crlf (bytes_decode (charset (runner self)) Replace (stdout_bytes self)).

Definition Result_output (self : Result) : outcome str := Result_stdout self.

Definition Result_stderr (self : Result) : outcome str :=
  match stderr_bytes self with
  | None => Raised (ValueError "stderr not separately captured")
  | Some bs => outcome_map replace_crlf (bytes_decode (charset (runner self)) Replace bs)
  end.

(** [repr(result)], for the [repr] of exceptions that is given; an
    exception object is true. *)
Definition Result_repr (repr : exn -> str) (self : Result) : str :=
  let exc_str := match exception self with
                 | Some e => repr e
                 | None => u "okay"
                 end in
  u "<Result " ++ exc_str ++ u ">".

(** ** The interpreter state the harness works on *)

(** The streams an isolation session creates: the byte stream behind the
    simulated stdin (wrapped in an [EchoingStdin] or not) with the text its
    wrapper has decoded and not yet handed out, and the byte buffers behind
    the simulated stdout and stderr, each with the bytes its wrapper holds
    until the next flush.  There is a buffer behind stderr only when stderr
    is kept apart. *)
Record session := {
  stdin_bytes : BytesIO;
  stdin_echoing : bool;
  stdin_decoded : str;
  bytes_output : BytesIO;
  stdout_pending : bytes;
  bytes_error : option BytesIO;
  stderr_pending : bytes;
  encoding : codec
}.

(** A stream object: one of the host interpreter, or one of the three text
    wrappers of the session. *)
Inductive stream_obj :=
| HostStream (name : string)
| SessionStdin
| SessionStdout
| SessionStderr.

(** A function object: one of the host, or one of the four closures that
    [isolation] defines. *)
Inductive func_obj :=
| HostFunc (name : string)
| Visible_input
| Hidden_input
| Getchar
| Should_strip_ansi (default_color : bool).

(** The module attributes that [isolation] rebinds. *)
Record globals := {
  sys_stdin : stream_obj;
  sys_stdout : stream_obj;
  sys_stderr : stream_obj;
  FORCED_WIDTH : option Z;
  visible_prompt_func : func_obj;
  hidden_prompt_func : func_obj;
  _getchar : func_obj;
  should_strip_ansi : func_obj
}.

Record World := {
  os_environ : gmap string string;
  modules : globals;
  dicts : list (dict (option string));
  streams : session;
  host_output : list (string * str)
}.

Definition set_environ (e : gmap string string) (w : World) : World :=
  {| os_environ := e; modules := modules w; dicts := dicts w;
     streams := streams w; host_output := host_output w |}.

Definition set_modules (g : globals) (w : World) : World :=
  {| os_environ := os_environ w; modules := g; dicts := dicts w;
     streams := streams w; host_output := host_output w |}.

Definition set_dicts (d : list (dict (option string))) (w : World) : World :=
  {| os_environ := os_environ w; modules := modules w; dicts := d;
     streams := streams w; host_output := host_output w |}.

Definition set_streams (s : session) (w : World) : World :=
  {| os_environ := os_environ w; modules := modules w; dicts := dicts w;
     streams := s; host_output := host_output w |}.

Definition set_host_output (h : list (string * str)) (w : World) : World :=
  {| os_environ := os_environ w; modules := modules w; dicts := dicts w;
     streams := streams w; host_output := h |}.

Definition set_sys_stdin (x : stream_obj) (g : globals) : globals :=
  {| sys_stdin := x; sys_stdout := sys_stdout g; sys_stderr := sys_stderr g;
     FORCED_WIDTH := FORCED_WIDTH g;
     visible_prompt_func := visible_prompt_func g;
     hidden_prompt_func := hidden_prompt_func g;
     _getchar := _getchar g; should_strip_ansi := should_strip_ansi g |}.

Definition set_sys_stdout (x : stream_obj) (g : globals) : globals :=
  {| sys_stdin := sys_stdin g; sys_stdout := x; sys_stderr := sys_stderr g;
     FORCED_WIDTH := FORCED_WIDTH g;
     visible_prompt_func := visible_prompt_func g;
     hidden_prompt_func := hidden_prompt_func g;
     _getchar := _getchar g; should_strip_ansi := should_strip_ansi g |}.

Definition set_sys_stderr (x : stream_obj) (g : globals) : globals :=
  {| sys_stdin := sys_stdin g; sys_stdout := sys_stdout g; sys_stderr := x;
     FORCED_WIDTH := FORCED_WIDTH g;
     visible_prompt_func := visible_prompt_func g;
     hidden_prompt_func := hidden_prompt_func g;
     _getchar := _getchar g; should_strip_ansi := should_strip_ansi g |}.

Definition set_FORCED_WIDTH (x : option Z) (g : globals) : globals :=
  {| sys_stdin := sys_stdin g; sys_stdout := sys_stdout g;
     sys_stderr := sys_stderr g; FORCED_WIDTH := x;
     visible_prompt_func := visible_prompt_func g;
     hidden_prompt_func := hidden_prompt_func g;
     _getchar := _getchar g; should_strip_ansi := should_strip_ansi g |}.

Definition set_visible_prompt_func (x : func_obj) (g : globals) : globals :=
  {| sys_stdin := sys_stdin g; sys_stdout := sys_stdout g;
     sys_stderr := sys_stderr g; FORCED_WIDTH := FORCED_WIDTH g;
     visible_prompt_func := x;
     hidden_prompt_func := hidden_prompt_func g;
     _getchar := _getchar g; should_strip_ansi := should_strip_ansi g |}.

Definition set_hidden_prompt_func (x : func_obj) (g : globals) : globals :=
  {| sys_stdin := sys_stdin g; sys_stdout := sys_stdout g;
     sys_stderr := sys_stderr g; FORCED_WIDTH := FORCED_WIDTH g;
     visible_prompt_func := visible_prompt_func g;
     hidden_prompt_func := x;
     _getchar := _getchar g; should_strip_ansi := should_strip_ansi g |}.

Definition set__getchar (x : func_obj) (g : globals) : globals :=
  {| sys_stdin := sys_stdin g; sys_stdout := sys_stdout g;
     sys_stderr := sys_stderr g; FORCED_WIDTH := FORCED_WIDTH g;
     visible_prompt_func := visible_prompt_func g;
     hidden_prompt_func := hidden_prompt_func g;
     _getchar := x; should_strip_ansi := should_strip_ansi g |}.

Definition set_should_strip_ansi (x : func_obj) (g : globals) : globals :=
  {| sys_stdin := sys_stdin g; sys_stdout := sys_stdout g;
     sys_stderr := sys_stderr g; FORCED_WIDTH := FORCED_WIDTH g;
     visible_prompt_func := visible_prompt_func g;
     hidden_prompt_func := hidden_prompt_func g;
     _getchar := _getchar g; should_strip_ansi := x |}.

(** Reading and rebinding a module attribute. *)
Definition global {A} (f : globals -> A) : M World A :=
  gets (fun w => f (modules w)).

Definition rebind {A} (set : A -> globals -> globals) (x : A) : M World unit :=
  modify (fun w => set_modules (set x (modules w)) w).

Definition set_stdin_bytes (x : BytesIO) (s : session) : session :=
  {| stdin_bytes := x; stdin_echoing := stdin_echoing s;
     stdin_decoded := stdin_decoded s; bytes_output := bytes_output s;
     stdout_pending := stdout_pending s; bytes_error := bytes_error s;
     stderr_pending := stderr_pending s; encoding := encoding s |}.

Definition set_stdin_decoded (x : str) (s : session) : session :=
  {| stdin_bytes := stdin_bytes s; stdin_echoing := stdin_echoing s;
     stdin_decoded := x; bytes_output := bytes_output s;
     stdout_pending := stdout_pending s; bytes_error := bytes_error s;
     stderr_pending := stderr_pending s; encoding := encoding s |}.

Definition set_bytes_output (x : BytesIO) (s : session) : session :=
  {| stdin_bytes := stdin_bytes s; stdin_echoing := stdin_echoing s;
     stdin_decoded := stdin_decoded s; bytes_output := x;
     stdout_pending := stdout_pending s; bytes_error := bytes_error s;
     stderr_pending := stderr_pending s; encoding := encoding s |}.

Definition set_stdout_pending (x : bytes) (s : session) : session :=
  {| stdin_bytes := stdin_bytes s; stdin_echoing := stdin_echoing s;
     stdin_decoded := stdin_decoded s; bytes_output := bytes_output s;
     stdout_pending := x; bytes_error := bytes_error s;
     stderr_pending := stderr_pending s; encoding := encoding s |}.

Definition set_bytes_error (x : option BytesIO) (s : session) : session :=
  {| stdin_bytes := stdin_bytes s; stdin_echoing := stdin_echoing s;
     stdin_decoded := stdin_decoded s; bytes_output := bytes_output s;
     stdout_pending := stdout_pending s; bytes_error := x;
     stderr_pending := stderr_pending s; encoding := encoding s |}.

Definition set_stderr_pending (x : bytes) (s : session) : session :=
  {| stdin_bytes := stdin_bytes s; stdin_echoing := stdin_echoing s;
     stdin_decoded := stdin_decoded s; bytes_output := bytes_output s;
     stdout_pending := stdout_pending s; bytes_error := bytes_error s;
     stderr_pending := x; encoding := encoding s |}.

Definition on_streams (f : session -> session) : M World unit :=
  modify (fun w => set_streams (f (streams w)) w).

(** ** The text wrappers of a session

    [_NamedTextIOWrapper] adds a name and a mode to [io.TextIOWrapper];
    the wrappers are used here through the stream objects [SessionStdin],
    [SessionStdout] and [SessionStderr].  A wrapper that is written to
    encodes at once and keeps the bytes until it is flushed (its flush on a
    full buffer is left out; line ends are written as they are, as on
    POSIX).  The wrapper that is read from refills itself through the
    [read1] of its buffer, decodes strictly and translates line ends (it is
    taken to refill with all that is left, not in chunks). *)

(** A method of the [EchoingStdin] of the session, whose [_output] is
    [bytes_output] itself. *)
Definition on_echoing_stdin {A} (m : M EchoingStdin A) : M World A :=
  fun w =>
    let x := streams w in
    let '(o, e) := m {| _input := stdin_bytes x; _output := bytes_output x |} in
    (o, set_streams (set_bytes_output (_output e) (set_stdin_bytes (_input e) x)) w).

Definition on_stdin_bytes {A} (f : BytesIO -> A * BytesIO) : M World A :=
  fun w =>
    let '(a, i) := f (stdin_bytes (streams w)) in
    (Ok a, set_streams (set_stdin_bytes i (streams w)) w).

(** [sys.stdin.buffer.read(n)], [.readline(n)] and [.read1(n)], for the
    stdin of the session *)
Definition buffer_read (n : Z) : M World bytes :=
  (let* echoing := gets (fun w => stdin_echoing (streams w)) in
   if echoing : bool then on_echoing_stdin (EchoingStdin_read n)
   else on_stdin_bytes (BytesIO_read n))%py.

Definition buffer_readline (n : Z) : M World bytes :=
  (let* echoing := gets (fun w => stdin_echoing (streams w)) in
   if echoing : bool then on_echoing_stdin (EchoingStdin_readline n)
   else on_stdin_bytes (BytesIO_readline n))%py.

Definition buffer_read1 (n : Z) : M World bytes :=
  (let* echoing := gets (fun w => stdin_echoing (streams w)) in
   if echoing : bool then on_echoing_stdin (EchoingStdin_read1 n)
   else on_stdin_bytes (BytesIO_read1 n))%py.

Definition stdin_fill : M World unit :=
  (let* chunk := buffer_read1 (-1) in
   let* c := gets (fun w => encoding (streams w)) in
   let* text := lift (bytes_decode c Strict chunk) in
   on_streams (fun x => set_stdin_decoded (stdin_decoded x ++ universal_newlines text) x))%py.

Definition text_readline : M World str :=
  (let* d := gets (fun w => stdin_decoded (streams w)) in
   let* _ := if str_mem LF d then ret tt else stdin_fill in
   let* d := gets (fun w => stdin_decoded (streams w)) in
   let line := first_line d in
   let* _ := on_streams (set_stdin_decoded (drop (length line) d)) in
   ret line)%py.

Definition text_read (n : nat) : M World str :=
  (let* d := gets (fun w => stdin_decoded (streams w)) in
   let* _ := if (length d <? n)%nat then stdin_fill else ret tt in
   let* d := gets (fun w => stdin_decoded (streams w)) in
   let* _ := on_streams (set_stdin_decoded (drop n d)) in
   ret (take n d))%py.

(** [f.write(s)] *)
Definition stream_write (f : stream_obj) (s : str) : M World unit :=
  match f with
  | HostStream name =>
      modify (fun w => set_host_output (host_output w ++ [(name, s)]) w)
  | SessionStdin => raise (UnsupportedOperation "not writable")
  | SessionStdout =>
      (let* c := gets (fun w => encoding (streams w)) in
       let* data := lift (str_encode c Strict s) in
       on_streams (fun x => set_stdout_pending (stdout_pending x ++ data) x))%py
  | SessionStderr =>
      (let* c := gets (fun w => encoding (streams w)) in
       let* data := lift (str_encode c Backslashreplace s) in
       on_streams (fun x => set_stderr_pending (stderr_pending x ++ data) x))%py
  end.

(** [f.flush()] *)
Definition stream_flush (f : stream_obj) : M World unit :=
  match f with
  | SessionStdout =>
      on_streams (fun x =>
        set_stdout_pending []
          (set_bytes_output (BytesIO_write (stdout_pending x) (bytes_output x)) x))
  | SessionStderr =>
      on_streams (fun x =>
        match bytes_error x with
        | Some e =>
            set_stderr_pending []
              (set_bytes_error (Some (BytesIO_write (stderr_pending x) e)) x)
        | None => x
        end)
  | _ => ret tt
  end.

(** [f.readline()] and [f.read(n)]; a stream of the host is not modelled
    and reads as empty. *)
Definition stream_readline (f : stream_obj) : M World str :=
  match f with
  | SessionStdin => text_readline
  | HostStream _ => ret []
  | _ => raise (UnsupportedOperation "not readable")
  end.

Definition stream_read (f : stream_obj) (n : nat) : M World str :=
  match f with
  | SessionStdin => text_read n
  | HostStream _ => ret []
  | _ => raise (UnsupportedOperation "not readable")
  end.

Definition sys_stdout_write (s : str) : M World unit :=
  (let* f := global sys_stdout in stream_write f s)%py.

Definition sys_stdout_flush : M World unit :=
  (let* f := global sys_stdout in stream_flush f)%py.

Definition sys_stderr_write (s : str) : M World unit :=
  (let* f := global sys_stderr in stream_write f s)%py.

Definition sys_stderr_flush : M World unit :=
  (let* f := global sys_stderr in stream_flush f)%py.

(** The [name] and the [mode] of a [_NamedTextIOWrapper] are those it was
    made with: [isolation] makes the three wrappers with the names
    ["<stdin>"], ["<stdout>"], ["<stderr>"] and the modes ["r"], ["w"],
    ["w"].  The mode of a stream of the host is not known. *)
Definition stream_name (f : stream_obj) : string :=
  match f with
  | HostStream n => n
  | SessionStdin => "<stdin>"
  | SessionStdout => "<stdout>"
  | SessionStderr => "<stderr>"
  end.

Definition stream_mode (f : stream_obj) : option string :=
  match f with
  | HostStream _ => None
  | SessionStdin => Some "r"
  | SessionStdout | SessionStderr => Some "w"
  end.

(** ** The closures of [isolation] *)

(** [prompt or ""] *)
Definition or_empty (prompt : option str) : str := default [] prompt.

Definition visible_input (prompt : option str) : M World str :=
  (let* _ := sys_stdout_write (or_empty prompt) in
   let* line := stream_readline SessionStdin in
   let val := rstrip [CR; LF] line in
   let* _ := sys_stdout_write (val ++ [LF]) in
   let* _ := sys_stdout_flush in
   ret val)%py.

Definition hidden_input (prompt : option str) : M World str :=
  (let* _ := sys_stdout_write (or_empty prompt ++ [LF]) in
   let* _ := sys_stdout_flush in
   let* line := stream_readline SessionStdin in
   ret (rstrip [CR; LF] line))%py.

Definition getchar (echo : bool) : M World str :=
  (let* f := global sys_stdin in
   let* char := stream_read f 1 in
   let* _ := if echo
             then (let* _ := sys_stdout_write char in sys_stdout_flush)
             else ret tt in
   ret char)%py.

Definition strip_ansi_decision (default_color : bool) (color : option bool) : bool :=
  match color with
  | None => negb default_color
  | Some c => negb c
  end.

(** ** CliRunner.make_env *)

Definition deref (r : nat) (w : World) : dict (option string) :=
  default [] (dicts w !! r).

Definition new_dict (d : dict (option string)) : M World nat :=
  fun w => (Ok (length (dicts w)), set_dicts (dicts w ++ [d]) w).

Definition change_dict (r : nat) (f : dict (option string) -> dict (option string)) : M World unit :=
  modify (fun w => set_dicts (alter f r (dicts w)) w).

(** [CliRunner(charset, env, echo_stdin, mix_stderr)]: [self.env = env or {}] *)
Definition CliRunner_init (charset : codec) (env : option nat)
    (echo_stdin mix_stderr : bool) : M World CliRunner :=
  (let* r := match env with
             | Some r =>
                 let* d := gets (deref r) in
                 match d with
                 | [] => new_dict []
                 | _ => ret r
                 end
             | None => new_dict []
             end in
   ret {| charset := charset; env := r;
          echo_stdin := echo_stdin; mix_stderr := mix_stderr |})%py.

Definition make_env (self : CliRunner) (overrides : option (dict (option string))) : M World nat :=
  (let* e := gets (deref (env self)) in
   let* rv := new_dict (dict_of e) in
   let* _ := match overrides with
             | Some ((_ :: _) as o) => change_dict rv (fun d => dict_update d o)
             | _ => ret tt
             end in
   ret rv)%py.

(** ** CliRunner.isolation *)

(** Statements of a function body that has local variables [L] next to the
    interpreter state. *)
Definition in_world {L A} (m : M World A) : M (L * World) A :=
  fun s => let '(o, w) := m s.2 in (o, (s.1, w)).

Definition local {L} : M (L * World) L := gets fst.

Definition assign {L} (f : L -> L) : M (L * World) unit :=
  modify (fun s => (f s.1, s.2)).

Definition with_locals {L A} (init : L) (m : M (L * World) A) : M World A :=
  fun w => let '(o, s) := m (init, w) in (o, s.2).

Definition environ_get (key : string) : M World (option string) :=
  gets (fun w => os_environ w !! key).

(** [os.environ[key] = value], for a name and a value that [os.environ]
    takes.  It takes a name that is not empty and has no ["="] (the
    character 61) in it, and neither in a name nor in a value a NUL; for
    anything else the assignment raises [ValueError] or [OSError], which
    is left out here: the statements that depend on it are made for what
    [os.environ] takes. *)
Definition environ_set (key value : string) : M World unit :=
  modify (fun w => set_environ (<[key:=value]> (os_environ w)) w).

Definition has_char (c : Ascii.ascii) (s : string) : bool :=
  existsb (Ascii.eqb c) (String.list_ascii_of_string s).

Definition environ_takes (key value : string) : bool :=
  negb (String.eqb key "") && negb (has_char (Ascii.ascii_of_nat 61) key)
  && negb (has_char Ascii.zero key) && negb (has_char Ascii.zero value).

Definition environ_del (key : string) : M World unit :=
  fun w =>
    match os_environ w !! key with
    | Some _ => (Ok tt, set_environ (delete key (os_environ w)) w)
    | None => (Raised (Exc "KeyError" key), w)
    end.

(** [try: m except Exception: pass] *)
Definition pass_on_Exception {S} (m : M S unit) : M S unit :=
  try_except m (fun e => if is_Exception e then Some (ret tt) else None).

(** [os.environ[key] = value], or its removal when [value] is [None] *)
Definition put_or_del (key : string) (value : option string) : M World unit :=
  match value with
  | None => pass_on_Exception (environ_del key)
  | Some v => environ_set key v
  end.

(** The loop that applies the overrides and fills [old_env]. *)
Definition apply_override (item : string * option string) : M (dict (option string) * World) unit :=
  (let* old := in_world (environ_get item.1) in
   let* _ := assign (dict_set item.1 old) in
   in_world (put_or_del item.1 item.2))%py.

(** The loop over [old_env] of the final block. *)
Definition restore_environ : M (dict (option string) * World) unit :=
  (let* old_env := local in
   let* _ := in_world (for_each (fun item => put_or_del item.1 item.2) old_env) in
   ret tt)%py.

(** [with self.isolation(input, env, color): body].  The generator runs up
    to its [yield], the body of the [with] statement runs in its place, and
    the final block of the generator runs however the body ends; [body]
    reaches the two byte buffers that are yielded through the state. *)
Definition isolation {A} (self : CliRunner) (input : input_t)
    (env : option (dict (option string))) (color : bool)
    (body : M World A) : M World A :=
  (let* input := lift (make_input_stream input (charset self)) in
   let* old_stdin := global sys_stdin in
   let* old_stdout := global sys_stdout in
   let* old_stderr := global sys_stderr in
   let* old_forced_width := global FORCED_WIDTH in
   let* _ := rebind set_FORCED_WIDTH (Some 80%Z) in
   let* env := make_env self env in
   let* _ := modify (set_streams
     {| stdin_bytes := input; stdin_echoing := echo_stdin self;
        stdin_decoded := []; bytes_output := BytesIO_of [];
        stdout_pending := [];
        bytes_error := if mix_stderr self then None else Some (BytesIO_of []);
        stderr_pending := []; encoding := charset self |}) in
   let* _ := rebind set_sys_stdin SessionStdin in
   let* _ := rebind set_sys_stdout SessionStdout in
   let* _ := if mix_stderr self
             then (let* out := global sys_stdout in rebind set_sys_stderr out)
             else rebind set_sys_stderr SessionStderr in
   let* old_visible_prompt_func := global visible_prompt_func in
   let* old_hidden_prompt_func := global hidden_prompt_func in
   let* old__getchar_func := global _getchar in
   let* old_should_strip_ansi := global should_strip_ansi in
   let* _ := rebind set_visible_prompt_func Visible_input in
   let* _ := rebind set_hidden_prompt_func Hidden_input in
   let* _ := rebind set__getchar Getchar in
   let* _ := rebind set_should_strip_ansi (Should_strip_ansi color) in
   let* items := gets (deref env) in
   with_locals []
     (try_finally
        (let* _ := for_each apply_override items in
         in_world body)
        (let* _ := restore_environ in
         in_world
           (let* _ := rebind set_sys_stdout old_stdout in
            let* _ := rebind set_sys_stderr old_stderr in
            let* _ := rebind set_sys_stdin old_stdin in
            let* _ := rebind set_visible_prompt_func old_visible_prompt_func in
            let* _ := rebind set_hidden_prompt_func old_hidden_prompt_func in
            let* _ := rebind set__getchar old__getchar_func in
            let* _ := rebind set_should_strip_ansi old_should_strip_ansi in
            rebind set_FORCED_WIDTH old_forced_width))))%py.

(** ** CliRunner.invoke *)

(** The command that is invoked: its [name] and its [main], which is
    called with the arguments, the program name and the extra keyword
    arguments. *)
Record Command := {
  name : option str;
  main : list str -> pyval -> dict pyval -> M World pyval
}.

Inductive args_t :=
| ArgsNone
| ArgsList (l : list str)
| ArgsStr (s : str).

(** [cli.name or "root"] *)
Definition get_default_prog_name (self : CliRunner) (cli : Command) : pyval :=
  match name cli with
  | Some ((_ :: _) as n) => PyStr n
  | _ => PyStr (u "root")
  end.

(** The local variables of [invoke] that the [try] statement sets. *)
Record locals := {
  l_return_value : pyval;
  l_exception : option exn;
  l_exit_code : pyval;
  l_exc_info : option exn
}.

(** [try: body finally: fin], where the final block leaves values in local
    variables that are read after the statement. *)
Definition try_finally_with {S A B} (body : M S A) (fin : M S B) : M S (A * B) :=
  fun s =>
    let '(o, s1) := body s in
    match fin s1 with
    | (Ok b, s2) => (outcome_map (fun a => (a, b)) o, s2)
    | (Raised e, s2) => (Raised e, s2)
    end.

Section Invoke.

(** [shlex.split] of the standard library. *)
Variable shlex_split : str -> outcome (list str).

(** The clause [except SystemExit as e] *)
Definition on_SystemExit (e : exn) (code : pyval) : M World locals :=
  (let exc_info := Some e in
   let exit_code := match code with PyNone => PyInt 0 | _ => code end in
   let exception := if ne_0 exit_code then Some e else None in
   if negb (isinstance_int exit_code) then
     let* _ := sys_stdout_write (py_str exit_code) in
     let* _ := sys_stdout_write [LF] in
     ret {| l_return_value := PyNone; l_exception := exception;
            l_exit_code := PyInt 1; l_exc_info := exc_info |}
   else
     ret {| l_return_value := PyNone; l_exception := exception;
            l_exit_code := exit_code; l_exc_info := exc_info |})%py.

(** The clause [except Exception as e] *)
Definition on_Exception (catch_exceptions : bool) (e : exn) : M World locals :=
  if negb catch_exceptions then raise e
  else ret {| l_return_value := PyNone; l_exception := Some e;
              l_exit_code := PyInt 1; l_exc_info := Some e |}.

Definition handlers (catch_exceptions : bool) (e : exn) : option (M World locals) :=
  match e with
  | SystemExit code => Some (on_SystemExit e code)
  | Exc _ _ => Some (on_Exception catch_exceptions e)
  | BaseExc _ => None
  end.

(** The final block of the [try] statement: [stdout] and [stderr] *)
Definition collect (self : CliRunner) : M World (bytes * option bytes) :=
  (let* _ := sys_stdout_flush in
   let* stdout := gets (fun w => getvalue (bytes_output (streams w))) in
   let* stderr := if mix_stderr self then ret None
                  else gets (fun w => getvalue <$> bytes_error (streams w)) in
   ret (stdout, stderr))%py.

Definition invoke (self : CliRunner) (cli : Command) (args : args_t)
    (input : input_t) (env : option (dict (option string)))
    (catch_exceptions : bool) (color : bool) (extra : dict pyval) : M World Result :=
  (let* r := isolation self input env color
     (let* args := match args with
                   | ArgsStr s => lift (shlex_split s)
                   | ArgsList l => ret l
                   | ArgsNone => ret []
                   end in
      let '(prog_name, extra) :=
        match dict_get "prog_name" extra with
        | Some p => (p, dict_del "prog_name" extra)
        | None => (get_default_prog_name self cli, extra)
        end in
      try_finally_with
        (try_except
           (let* return_value := main cli args prog_name extra in
            ret {| l_return_value := return_value; l_exception := None;
                   l_exit_code := PyInt 0; l_exc_info := None |})
           (handlers catch_exceptions))
        (collect self)) in
   let '(l, (stdout, stderr)) := r in
   ret {| runner := self;
          stdout_bytes := stdout;
          stderr_bytes := stderr;
          return_value := l_return_value l;
          exit_code := l_exit_code l;
          exception := l_exception l;
          exc_info := l_exc_info l |})%py.

End Invoke.

(** ** CliRunner.isolated_filesystem *)

Abbreviation path := (list string).

(** The calls to the operating system that the scope makes, directly or
    through [tempfile] and [shutil]. *)
Inductive syscall :=
| Getcwd
| Chdir (p : path)
| Mkdir (p : path)
| Rmtree (p : path).

Inductive errno := EPERM | ENOENT | EIO | EACCES | EEXIST | ENOTDIR.

(** The exception that Python raises for an error of the system: a
    subclass of [OSError] where it has one for the error. *)
Definition os_error (e : errno) : exn :=
  match e with
  | EPERM => Exc "PermissionError" "Operation not permitted"
  | ENOENT => Exc "FileNotFoundError" "No such file or directory"
  | EIO => Exc "OSError" "Input/output error"
  | EACCES => Exc "PermissionError" "Permission denied"
  | EEXIST => Exc "FileExistsError" "File exists"
  | ENOTDIR => Exc "NotADirectoryError" "Not a directory"
  end.

(** The file system as far as the scope deals with it: the working
    directory and the paths that exist.  A call fails when the path it
    needs does not exist, and whenever the system refuses it for a reason
    of its own (permissions, a file where a directory is expected, ...):
    [refused] has the error, if any, that the system answers a call with.
    When the system refuses a removal in the middle of [shutil.rmtree],
    the entries that were reached before are gone; the order in which a
    tree is gone through is the system's, and [removed_first] has the
    entries that are reached before the refusal.  [tempdir] is the
    temporary directory that [tempfile.gettempdir] has found, and
    [candidate_names] are the names that the random name sequence of
    [tempfile] gives next. *)
Record FileSystem := {
  cwd : path;
  entries : gset path;
  tempdir : path;
  candidate_names : nat -> string;
  refused : syscall -> option errno;
  removed_first : gset path
}.

Definition set_cwd (p : path) (fs : FileSystem) : FileSystem :=
  {| cwd := p; entries := entries fs; tempdir := tempdir fs;
     candidate_names := candidate_names fs; refused := refused fs;
     removed_first := removed_first fs |}.

Definition set_entries (s : gset path) (fs : FileSystem) : FileSystem :=
  {| cwd := cwd fs; entries := s; tempdir := tempdir fs;
     candidate_names := candidate_names fs; refused := refused fs;
     removed_first := removed_first fs |}.

(** A call that needs [p] to exist. *)
Definition system (c : syscall) (p : path) : M FileSystem unit :=
  fun fs =>
    if decide (p ∈ entries fs) then
      match refused fs c with
      | Some e => (Raised (os_error e), fs)
      | None => (Ok tt, fs)
      end
    else (Raised (os_error ENOENT), fs).

(** [tempfile.gettempdir()] *)
Definition gettempdir : M FileSystem path := gets tempdir.

Definition TMP_MAX : nat := 100 * 100.

(** [os.getcwd()] *)
Definition getcwd : M FileSystem path :=
  (let* c := gets cwd in
   let* _ := system Getcwd c in
   ret c)%py.

(** [os.chdir(p)] *)
Definition chdir (p : path) : M FileSystem unit :=
  (let* _ := system (Chdir p) p in
   modify (set_cwd p))%py.

(** [os.mkdir(dir/name)] *)
Definition mkdir (dir : path) (name : string) : M FileSystem unit :=
  (let* _ := system (Mkdir (dir ++ [name])) dir in
   let* s := gets entries in
   if decide (dir ++ [name] ∈ s) then raise (os_error EEXIST)
   else modify (set_entries ({[dir ++ [name]]} ∪ s)))%py.

Definition is_FileExistsError (e : exn) : bool :=
  match e with
  | Exc cls _ => String.eqb cls "FileExistsError"
  | _ => false
  end.

(** The loop of [tempfile.mkdtemp] over the candidate names, from the
    [k]th on: a name that exists already is passed over, any other error
    of [os.mkdir] ends the loop. *)
Fixpoint mkdtemp_from (attempts k : nat) (dir : path) : M FileSystem path :=
  match attempts with
  | O => raise (Exc "FileExistsError" "No usable temporary directory name found")
  | S a =>
      (let* name := gets (fun fs => candidate_names fs k) in
       try_except
         (let* _ := mkdir dir name in
          ret (dir ++ [name]))
         (fun e => if is_FileExistsError e
                   then Some (mkdtemp_from a (S k) dir) else None))%py
  end.

(** [tempfile.mkdtemp(dir=temp_dir)]: a new directory under [temp_dir], or
    under the temporary directory of the system *)
Definition mkdtemp (temp_dir : option path) : M FileSystem path :=
  (let* dir := match temp_dir with
               | Some d => ret d
               | None => gettempdir
               end in
   mkdtemp_from TMP_MAX 0 dir)%py.

(** The entries at or below [t]. *)
Definition below (t : path) (s : gset path) : gset path :=
  filter (fun p => t `prefix_of` p) s.

(** [shutil.rmtree(t)]: everything at or below [t] goes, [t] itself last.
    When the system refuses, an [OSError] is raised and what was removed
    by then stays removed. *)
Definition rmtree (t : path) : M FileSystem unit :=
  fun fs =>
    let s := entries fs in
    if decide (t ∈ s) then
      match refused fs (Rmtree t) with
      | None => (Ok tt, set_entries (s ∖ below t s) fs)
      | Some e =>
          (Raised (os_error e),
           set_entries (s ∖ ((below t s ∩ removed_first fs) ∖ {[t]})) fs)
      end
    else (Raised (os_error ENOENT), fs).

(** [try: m except OSError: pass] *)
Definition pass_on_OSError {S} (m : M S unit) : M S unit :=
  try_except m (fun e => if is_OSError e then Some (ret tt) else None).

(** [with self.isolated_filesystem(temp_dir) as t: body t] *)
Definition isolated_filesystem {A} (self : CliRunner) (temp_dir : option path)
    (body : path -> M FileSystem A) : M FileSystem A :=
  (let* cwd := getcwd in
   let* t := mkdtemp temp_dir in
   let* _ := chdir t in
   try_finally
     (body t)
     (let* _ := chdir cwd in
      match temp_dir with
      | None => pass_on_OSError (rmtree t)
      | Some _ => ret tt
      end))%py.

(** ** Callers and scenarios

    What the statements below run the harness on: a caller that reads from
    an [EchoingStdin], the interpreter as it is before any session, and a
    few commands. *)

(** The read operations of [EchoingStdin]. *)
Inductive read_op :=
| OpRead (n : Z)
| OpReadline (n : Z)
| OpReadlines
| OpNext.

(** One read operation, with the byte sequences it returns to its caller. *)
Definition echoing_op (op : read_op) : M EchoingStdin (list bytes) :=
  match op with
  | OpRead n => (let* rv := EchoingStdin_read n in ret [rv])%py
  | OpReadline n => (let* rv := EchoingStdin_readline n in ret [rv])%py
  | OpReadlines => EchoingStdin_readlines
  | OpNext => (let* x := EchoingStdin_next in
               ret match x with Some rv => [rv] | None => [] end)%py
  end.

(** The same operation on the input itself. *)
Definition plain_op (op : read_op) (i : BytesIO) : list bytes * BytesIO :=
  match op with
  | OpRead n => let '(rv, i') := BytesIO_read n i in ([rv], i')
  | OpReadline n => let '(rv, i') := BytesIO_readline n i in ([rv], i')
  | OpReadlines => BytesIO_readlines i
  | OpNext =>
      let '(x, i') := BytesIO_next i in
      (match x with Some rv => [rv] | None => [] end, i')
  end.

(** A caller that performs read operations one after the other; the result
    is everything it was handed, in the order it was handed. *)
Fixpoint echoing_ops (ops : list read_op) : M EchoingStdin (list bytes) :=
  match ops with
  | [] => ret []
  | op :: ops' =>
      (let* xs := echoing_op op in
       let* ys := echoing_ops ops' in
       ret (xs ++ ys))%py
  end.

Fixpoint plain_ops (ops : list read_op) (i : BytesIO) : list bytes * BytesIO :=
  match ops with
  | [] => ([], i)
  | op :: ops' =>
      let '(xs, i1) := plain_op op i in
      let '(ys, i2) := plain_ops ops' i1 in
      (xs ++ ys, i2)
  end.

(** A sink whose position is at its end, as that of a buffer that has only
    been written to. *)
Definition sink (out : bytes) : BytesIO := {| buf := out; pos := length out |}.

(** The interpreter before any session: the streams and functions of the
    host, and placeholders for the streams of a session. *)
Definition host_globals : globals :=
  {| sys_stdin := HostStream "<stdin>";
     sys_stdout := HostStream "<stdout>";
     sys_stderr := HostStream "<stderr>";
     FORCED_WIDTH := None;
     visible_prompt_func := HostFunc "input";
     hidden_prompt_func := HostFunc "getpass";
     _getchar := HostFunc "getchar";
     should_strip_ansi := HostFunc "should_strip_ansi" |}.

Definition no_session : session :=
  {| stdin_bytes := BytesIO_of []; stdin_echoing := false;
     stdin_decoded := []; bytes_output := BytesIO_of [];
     stdout_pending := []; bytes_error := None; stderr_pending := [];
     encoding := codec_utf_8 |}.

(** A host with two environment variables and one dict, the [env] of the
    runners below. *)
Definition host_world : World :=
  {| os_environ := {["HOME" := "/root"; "LANG" := "C"]};
     modules := host_globals;
     dicts := [[("LANG", Some "en_US"); ("DEBUG", None)]];
     streams := no_session;
     host_output := [] |}.

Definition a_runner (echo mix : bool) : CliRunner :=
  {| charset := codec_utf_8; env := 0; echo_stdin := echo; mix_stderr := mix |}.

(** A tokenizer that knows of no quoting: one word. *)
Definition one_word (s : str) : outcome (list str) := Ok [s].

(** A tokenizer that takes a quotation mark for an unclosed quotation. *)
Definition unquoted_word (s : str) : outcome (list str) :=
  if str_mem 34%N s then Raised (ValueError "No closing quotation") else Ok [s].

(** A command that raises [e]. *)
Definition raising (e : exn) : Command :=
  {| name := None; main := fun _ _ _ => raise e |}.

(** A command that returns [v]. *)
Definition returning (v : pyval) : Command :=
  {| name := None; main := fun _ _ _ => ret v |}.

(** The prompt layer of the framework: it calls the hook that is bound at
    the time; the hooks of the host are not modelled. *)
Definition prompt_for (text : str) : M World str :=
  (let* f := global visible_prompt_func in
   match f with
   | Visible_input => visible_input (Some text)
   | Hidden_input => hidden_input (Some text)
   | _ => raise (Exc "NotImplementedError" "host prompt")
   end)%py.

(** A command that returns the program name it is called with. *)
Definition tell_prog_name (n : option str) : Command :=
  {| name := n; main := fun _ prog_name _ => ret prog_name |}.

(** A command that writes [a] to stdout, [b] to stderr, which it flushes,
    and [c] to stdout. *)
Definition chatter (a b c : str) : Command :=
  {| name := None;
     main := fun _ _ _ =>
       (let* _ := sys_stdout_write a in
        let* _ := sys_stderr_write b in
        let* _ := sys_stderr_flush in
        let* _ := sys_stdout_write c in
        ret PyNone)%py |}.

(** A command that reads all of stdin through [sys.stdin.buffer]. *)
Definition slurp : Command :=
  {| name := Some (u "slurp");
     main := fun _ _ _ => (let* _ := buffer_read (-1) in ret PyNone)%py |}.

(** A command that prompts with [text] and returns what was entered. *)
Definition ask (text : str) : Command :=
  {| name := Some (u "ask");
     main := fun _ _ _ => (let* v := prompt_for text in ret (PyStr v))%py |}.

(** A command that prompts for a name and returns what was entered. *)
Definition ask_name : Command :=
  {| name := Some (u "ask");
     main := fun _ _ _ =>
       (let* v := prompt_for (u "Name: ") in ret (PyStr v))%py |}.

(** A command that reads a line from [sys.stdin] and returns it. *)
Definition read_a_line : Command :=
  {| name := Some (u "line");
     main := fun _ _ _ =>
       (let* f := global sys_stdin in
        let* line := stream_readline f in
        ret (PyStr line))%py |}.

(** A session body that calls a hook and then looks at what has reached
    the output buffer and at what the next read of a line gives. *)
Definition hook_then_look (hook : M World str) : M World (str * bytes * str) :=
  (let* val := hook in
   let* out := gets (fun w => getvalue (bytes_output (streams w))) in
   let* next := stream_readline SessionStdin in
   ret (val, out, next))%py.

(** ** What the statements speak of *)

(** The dict that [make_env] builds from the dict [e] of the runner and
    the overrides. *)
Definition merged (e : dict (option string)) (overrides : option (dict (option string)))
    : dict (option string) :=
  match overrides with
  | Some ((_ :: _) as o) => dict_update (dict_of e) o
  | _ => dict_of e
  end.

(** The overrides that give a variable a value give it a name and a value
    that [os.environ] takes. *)
Definition environ_takes_all (items : dict (option string)) : bool :=
  forallb (fun kv => match kv.2 with
                     | Some v => environ_takes kv.1 v
                     | None => true
                     end) items.

(** The effect of [put_or_del] on the environment. *)
Definition env_put (key : string) (value : option string) (e : gmap string string)
    : gmap string string :=
  match value with
  | None => delete key e
  | Some v => <[key:=v]> e
  end.

Definition put_all (items : dict (option string)) (e : gmap string string)
    : gmap string string :=
  fold_left (fun acc kv => env_put kv.1 kv.2 acc) items e.

(** The effect of the loop over the overrides on [old_env] and on the
    environment. *)
Fixpoint apply_all (items : dict (option string))
    (st : dict (option string) * gmap string string)
    : dict (option string) * gmap string string :=
  match items with
  | [] => st
  | kv :: rest =>
      apply_all rest (dict_set kv.1 (st.2 !! kv.1) st.1, env_put kv.1 kv.2 st.2)
  end.

(** The streams of a new session and the module attributes while it
    lasts. *)
Definition session_streams (self : CliRunner) (i : BytesIO) : session :=
  {| stdin_bytes := i; stdin_echoing := echo_stdin self;
     stdin_decoded := []; bytes_output := BytesIO_of [];
     stdout_pending := [];
     bytes_error := if mix_stderr self then None else Some (BytesIO_of []);
     stderr_pending := []; encoding := charset self |}.

Definition session_globals (self : CliRunner) (color : bool) : globals :=
  {| sys_stdin := SessionStdin;
     sys_stdout := SessionStdout;
     sys_stderr := if mix_stderr self then SessionStdout else SessionStderr;
     FORCED_WIDTH := Some 80%Z;
     visible_prompt_func := Visible_input;
     hidden_prompt_func := Hidden_input;
     _getchar := Getchar;
     should_strip_ansi := Should_strip_ansi color |}.

(** The state in which the body of [with self.isolation(...)] starts. *)
Definition session_world (self : CliRunner) (i : BytesIO)
    (overrides : option (dict (option string))) (color : bool) (w : World) : World :=
  let items := merged (deref (env self) w) overrides in
  {| os_environ := (apply_all items ([], os_environ w)).2;
     modules := session_globals self color;
     dicts := dicts w ++ [items];
     streams := session_streams self i;
     host_output := host_output w |}.

(** What one refill and one [readline] of the text wrapper of stdin make of
    the byte stream [sb] and the decoded text [sd]. *)
Definition fill_of (enc : codec) (sb : BytesIO) (sd : str) : outcome unit * BytesIO * str :=
  let '(chunk, sb') := BytesIO_read1 (-1) sb in
  match bytes_decode enc Strict chunk with
  | Ok text => (Ok tt, sb', sd ++ universal_newlines text)
  | Raised e => (Raised e, sb', sd)
  end.

Definition readline_of (enc : codec) (sb : BytesIO) (sd : str) : outcome str * BytesIO * str :=
  if str_mem LF sd then (Ok (first_line sd), sb, drop (length (first_line sd)) sd)
  else
    match fill_of enc sb sd with
    | (Ok _, sb', sd') => (Ok (first_line sd'), sb', drop (length (first_line sd')) sd')
    | (Raised e, sb', sd') => (Raised e, sb', sd')
    end.

(** The text that the stdin of a session has yet to hand out: what its
    wrapper has decoded, and what is left of its bytes, decoded and with
    the line ends translated. *)
Definition text_ahead (x : session) : outcome str :=
  outcome_map (fun t => stdin_decoded x ++ universal_newlines t)
    (bytes_decode (encoding x) Strict (remaining (stdin_bytes x))).

(** A line end of the input before [rest]: a newline, a carriage return
    with a newline, or a carriage return that no newline follows. *)
Definition line_end (term rest : str) : Prop :=
  term = [LF] \/ term = [CR; LF] \/ (term = [CR] /\ head rest <> Some LF).

(** The arguments that [invoke] hands to [main]. *)
Definition tokens (shlex_split : str -> outcome (list str)) (args : args_t)
    : outcome (list str) :=
  match args with
  | ArgsStr s => shlex_split s
  | ArgsList l => Ok l
  | ArgsNone => Ok []
  end.

(** The program name and the keyword arguments that [invoke] hands to
    [main], and the [try] statement around the call with its two [except]
    clauses. *)
Definition prog_name_of (self : CliRunner) (cli : Command) (extra : dict pyval) : pyval :=
  match dict_get "prog_name" extra with
  | Some p => p
  | None => get_default_prog_name self cli
  end.

Definition extra_of (extra : dict pyval) : dict pyval :=
  match dict_get "prog_name" extra with
  | Some _ => dict_del "prog_name" extra
  | None => extra
  end.

Definition attempt (self : CliRunner) (cli : Command) (l : list str)
    (catch_exceptions : bool) (extra : dict pyval) : M World locals :=
  try_except
    (let* return_value := main cli l (prog_name_of self cli extra) (extra_of extra) in
     ret {| l_return_value := return_value; l_exception := None;
            l_exit_code := PyInt 0; l_exc_info := None |})%py
    (handlers catch_exceptions).

(** The state after a session, from that in which its body ended. *)
Definition leave (self : CliRunner) (overrides : option (dict (option string)))
    (w w1 : World) : World :=
  set_modules (modules w)
    (set_environ
       (put_all (apply_all (merged (deref (env self) w) overrides) ([], os_environ w)).1
          (os_environ w1)) w1).

(** * Properties *)

Local Open Scope nat_scope.

Ltac run_step :=
  unfold bind, ret, raise, gets, modify, lift, global, rebind, on_streams; simpl.

Ltac setters :=
  cbv beta iota zeta delta
    [set_modules set_environ set_dicts set_streams set_host_output
     set_sys_stdin set_sys_stdout set_sys_stderr set_FORCED_WIDTH
     set_visible_prompt_func set_hidden_prompt_func set__getchar
     set_should_strip_ansi set_stdin_bytes set_stdin_decoded
     set_bytes_output set_stdout_pending set_bytes_error set_stderr_pending
     os_environ modules dicts streams host_output
     sys_stdin sys_stdout sys_stderr FORCED_WIDTH visible_prompt_func
     hidden_prompt_func _getchar should_strip_ansi
     stdin_bytes stdin_echoing stdin_decoded bytes_output stdout_pending
     bytes_error stderr_pending encoding] in *.

(** Running straight-line statements from a state that is a record. *)
Ltac crunch :=
  cbv beta iota zeta delta
    [bind ret raise gets modify lift global rebind on_streams
     with_locals try_finally try_finally_with in_world local assign
     _input _output
     set_modules set_environ set_dicts set_streams set_host_output
     set_sys_stdin set_sys_stdout set_sys_stderr set_FORCED_WIDTH
     set_visible_prompt_func set_hidden_prompt_func set__getchar
     set_should_strip_ansi set_stdin_bytes set_stdin_decoded
     set_bytes_output set_stdout_pending set_bytes_error set_stderr_pending
     os_environ modules dicts streams host_output
     sys_stdin sys_stdout sys_stderr FORCED_WIDTH visible_prompt_func
     hidden_prompt_func _getchar should_strip_ansi
     stdin_bytes stdin_echoing stdin_decoded bytes_output stdout_pending
     bytes_error stderr_pending encoding].

(** The same for the statements that write to the streams of a session. *)
Ltac crunch_io :=
  cbv beta iota zeta delta
    [bind ret raise gets modify lift global rebind on_streams
     sys_stdout_write sys_stderr_write sys_stdout_flush sys_stderr_flush
     stream_write stream_flush collect
     set_modules set_environ set_dicts set_streams set_host_output
     set_stdin_bytes set_stdin_decoded
     set_bytes_output set_stdout_pending set_bytes_error set_stderr_pending
     os_environ modules dicts streams host_output
     sys_stdin sys_stdout sys_stderr
     stdin_bytes stdin_echoing stdin_decoded bytes_output stdout_pending
     bytes_error stderr_pending encoding
     session_world session_globals session_streams].

(** ** Decoding *)

Lemma decode_from_replace_total (c : codec) (bs : bytes) :
  forall skip, exists s, decode_from c Replace skip bs = Ok s.
Proof.
  induction bs as [|x rest IH]; intros skip; simpl.
  - by exists [].
  - destruct skip as [|k]; [|apply IH].
    destruct (decode_at c x rest) as [ch extra|extra];
      destruct (IH extra) as [s ->]; simpl; eauto.
Qed.

Lemma decode_from_backslashreplace_total (c : codec) (bs : bytes) :
  forall skip, exists s, decode_from c Backslashreplace skip bs = Ok s.
Proof.
  induction bs as [|x rest IH]; intros skip; simpl.
  - by exists [].
  - destruct skip as [|k]; [|apply IH].
    destruct (decode_at c x rest) as [ch extra|extra];
      destruct (IH extra) as [s ->]; simpl; eauto.
Qed.

Lemma bytes_decode_replace_total (c : codec) (bs : bytes) :
  exists s, bytes_decode c Replace bs = Ok s.
Proof. apply decode_from_replace_total. Qed.







(** The view of bytes with an ill-formed sequence, two CRLF pairs and two
    carriage returns of their own. *)
Lemma text_view_of_ill_formed_bytes :
  Result_stdout {| runner := a_runner false true;
                   stdout_bytes := octets "a" ++ [xff; x0d; x0a; x0d] ++ octets "b"
                                   ++ [x0d; x0d; x0a];
                   stderr_bytes := None; return_value := PyNone;
                   exit_code := PyInt 0; exception := None; exc_info := None |}
  = Ok (u "a" ++ [REPLACEMENT_CHARACTER; LF; CR] ++ u "b" ++ [CR; LF]).
Proof. reflexivity. Qed.

(** C5: the [stderr] view of a result whose stderr bytes are [None] (stderr
    went into stdout) raises [ValueError]; that of a result with stderr
    bytes of its own returns their decoded text. *)
Theorem stderr_view_needs_separate_capture
    (rn : CliRunner) (out : bytes) (rv code : pyval) (e ei : option exn) :
  Result_stderr {| runner := rn; stdout_bytes := out; stderr_bytes := None;
                   return_value := rv; exit_code := code; exception := e;
                   exc_info := ei |}
    = Raised (ValueError "stderr not separately captured")
  /\ forall err : bytes,
       exists s, bytes_decode (charset rn) Replace err = Ok s
         /\ Result_stderr {| runner := rn; stdout_bytes := out;
                             stderr_bytes := Some err; return_value := rv;
                             exit_code := code; exception := e;
                             exc_info := ei |} = Ok (replace_crlf s).
Proof.
  split; [reflexivity|].
  intros err.
  destruct (bytes_decode_replace_total (charset rn) err) as [s Hs].
  exists s. unfold Result_stderr; simpl. by rewrite Hs.
Qed.

(** ** The byte source *)

Lemma read_all_of_new_stream (bs : bytes) :
  (BytesIO_read (-1) (BytesIO_of bs)).1 = bs.
Proof. reflexivity. Qed.

(** C8: the input given to [make_input_stream] becomes a byte stream: a
    stream object without a binary reader is refused with a [TypeError];
    no input gives a stream over no bytes; text gives a stream over the
    text encoded with the character set (and the error of the encoder when
    the text has no encoding); bytes give a stream over those bytes. *)
Theorem make_input_stream_by_kind (cs : codec) :
  make_input_stream (InputStream {| binary_reader := None |}) cs
    = Raised (TypeError "Could not find binary reader for input stream.")
  /\ make_input_stream InputNone cs = Ok (BytesIO_of [])
  /\ (forall s : str,
        match str_encode cs Strict s with
        | Ok data =>
            exists st, make_input_stream (InputStr s) cs = Ok st
              /\ (BytesIO_read (-1) st).1 = data /\ pos st = 0
        | Raised e => make_input_stream (InputStr s) cs = Raised e
        end)
  /\ (forall data : bytes,
        exists st, make_input_stream (InputBytes data) cs = Ok st
          /\ (BytesIO_read (-1) st).1 = data /\ pos st = 0).
Proof.
  split; [reflexivity|]. split; [reflexivity|]. split.
  - intros s. simpl. destruct (str_encode cs Strict s) as [data|e]; simpl; [|done].
    exists (BytesIO_of data). split; [reflexivity|]. split; reflexivity.
  - intros data. exists (BytesIO_of data). split; [reflexivity|]. split; reflexivity.
Qed.

(** ** EchoingStdin *)

Lemma write_at_end (data out : bytes) :
  BytesIO_write data (sink out) = sink (out ++ data).
Proof.
  destruct data as [|x data]; unfold sink; simpl.
  - by rewrite app_nil_r.
  - rewrite firstn_all, Nat.sub_diag; simpl.
    rewrite drop_ge by lia.
    rewrite app_nil_r. f_equal. rewrite length_app; simpl. lia.
Qed.

Lemma getvalue_first_write (data : bytes) :
  getvalue (BytesIO_write data (BytesIO_of [])) = data.
Proof. apply (f_equal getvalue (write_at_end data [])). Qed.

Lemma echo_at_end (rv : bytes) (i : BytesIO) (out : bytes) :
  _echo rv {| _input := i; _output := sink out |}
  = (Ok rv, {| _input := i; _output := sink (out ++ rv) |}).
Proof. unfold _echo; run_step. by rewrite write_at_end. Qed.

Lemma echo_each_at_end (xs : list bytes) (i : BytesIO) :
  forall out,
    for_each _echo xs {| _input := i; _output := sink out |}
    = (Ok xs, {| _input := i; _output := sink (out ++ concat xs) |}).
Proof.
  induction xs as [|x xs IH]; intros out; simpl.
  - by rewrite app_nil_r.
  - unfold bind at 1. rewrite echo_at_end.
    unfold bind at 1. rewrite IH. unfold ret. by rewrite <- app_assoc.
Qed.

Lemma echoing_op_at_end (op : read_op) (i : BytesIO) (out : bytes) :
  echoing_op op {| _input := i; _output := sink out |}
  = (Ok (plain_op op i).1,
     {| _input := (plain_op op i).2;
        _output := sink (out ++ concat (plain_op op i).1) |}).
Proof.
  destruct op as [n|n| |]; simpl.
  - unfold EchoingStdin_read, bind, on_input; simpl.
    rewrite write_at_end. unfold ret. by rewrite app_nil_r.
  - unfold EchoingStdin_readline, bind, on_input; simpl.
    rewrite write_at_end. unfold ret. by rewrite app_nil_r.
  - unfold EchoingStdin_readlines, bind, on_input.
    cbn [BytesIO_readlines _input _output fst snd].
    by rewrite echo_each_at_end.
  - unfold EchoingStdin_next, bind, on_input.
    cbn [_input _output].
    destruct (BytesIO_next i) as [[rv|] i'] eqn:Hn; cbn [fst snd].
    + rewrite echo_at_end. unfold ret. cbn [concat]. by rewrite app_nil_r.
    + unfold ret. cbn [concat]. by rewrite app_nil_r.
Qed.

(** X23: whatever a caller is handed by [read], [readline], [readlines] or
    by iterating over an [EchoingStdin] is what the input itself gives,
    and has by then been written to the output, unchanged and in the order
    it was handed out: after any run of these read operations on an
    [EchoingStdin] the output holds what it held before followed by all
    that was read. *)
Theorem echoed_reads_reach_the_output (ops : list read_op) :
  forall (i : BytesIO) (out : bytes),
    echoing_ops ops {| _input := i; _output := sink out |}
    = (Ok (plain_ops ops i).1,
       {| _input := (plain_ops ops i).2;
          _output := sink (out ++ concat (plain_ops ops i).1) |}).
Proof.
  induction ops as [|op ops IH]; intros i out; simpl.
  - unfold ret. by rewrite app_nil_r.
  - unfold bind at 1. rewrite echoing_op_at_end.
    unfold bind at 1. rewrite IH. unfold ret.
    destruct (plain_op op i) as [xs i1]; simpl.
    destruct (plain_ops ops i1) as [ys i2]; simpl.
    by rewrite concat_app, app_assoc.
Qed.

(** ** Dictionaries *)

Lemma dict_get_set {V} (k k' : string) (v : V) (d : dict V) :
  dict_get k (dict_set k' v d) = if String.eqb k k' then Some v else dict_get k d.
Proof.
  induction d as [|[k0 v0] d IH]; simpl.
  - by destruct (String.eqb_spec k k').
  - destruct (String.eqb_spec k' k0) as [->|Hne]; simpl.
    + by destruct (String.eqb_spec k k0).
    + destruct (String.eqb_spec k k0) as [->|Hne'].
      * destruct (String.eqb_spec k0 k'); congruence.
      * apply IH.
Qed.

Lemma dict_get_absent {V} (k : string) (d : dict V) :
  k ∉ d.*1 -> dict_get k d = None.
Proof.
  induction d as [|[k0 v0] d IH]; simpl; [done|].
  intros Hk. apply not_elem_of_cons in Hk as [Hne Hk].
  destruct (String.eqb_spec k k0); [done|auto].
Qed.

Lemma dict_get_present {V} (k : string) (d : dict V) :
  k ∈ d.*1 -> is_Some (dict_get k d).
Proof.
  induction d as [|[k0 v0] d IH]; simpl.
  - intros H. by apply elem_of_nil in H.
  - intros H. destruct (String.eqb_spec k k0); [eauto|].
    apply elem_of_cons in H as [?|?]; [done|auto].
Qed.

Lemma dict_get_update {V} (k : string) (items : list (string * V)) :
  NoDup items.*1 ->
  forall d : dict V,
    dict_get k (dict_update d items)
    = match dict_get k items with
      | Some v => Some v
      | None => dict_get k d
      end.
Proof.
  unfold dict_update.
  induction items as [|[k1 v1] items IH]; simpl; [done|].
  intros Hnd d. apply NoDup_cons in Hnd as [Hk1 Hnd].
  rewrite IH by done. simpl. rewrite dict_get_set.
  destruct (String.eqb_spec k k1) as [->|Hne]; [|done].
  by rewrite (dict_get_absent k1 items).
Qed.

Lemma dict_get_of {V} (k : string) (items : list (string * V)) :
  NoDup items.*1 -> dict_get k (dict_of items) = dict_get k items.
Proof.
  intros Hnd. unfold dict_of. rewrite dict_get_update by done.
  simpl. by destruct (dict_get k items).
Qed.

(** The keys of a dict that [dict_set] has filled stay distinct. *)
Lemma dict_set_keys {V} (k : string) (v : V) (d : dict V) :
  forall k', k' ∈ (dict_set k v d).*1 <-> k' = k \/ k' ∈ d.*1.
Proof.
  induction d as [|[k0 v0] d IH]; intros k'; simpl.
  - rewrite list_elem_of_singleton. split; [auto|].
    intros [?|H]; [done|]. by apply elem_of_nil in H.
  - destruct (String.eqb_spec k k0) as [->|Hne]; simpl.
    + rewrite !elem_of_cons. tauto.
    + rewrite !elem_of_cons, IH. tauto.
Qed.

Lemma dict_set_NoDup {V} (k : string) (v : V) (d : dict V) :
  NoDup d.*1 -> NoDup (dict_set k v d).*1.
Proof.
  induction d as [|[k0 v0] d IH]; simpl.
  - intros _. apply NoDup_singleton.
  - intros Hnd. apply NoDup_cons in Hnd as [Hk0 Hnd].
    destruct (String.eqb_spec k k0) as [->|Hne]; simpl.
    + by apply NoDup_cons.
    + apply NoDup_cons. split; [|auto].
      rewrite dict_set_keys. intros [?|?]; [congruence|done].
Qed.

Lemma dict_update_NoDup {V} (items : list (string * V)) :
  forall d : dict V, NoDup d.*1 -> NoDup (dict_update d items).*1.
Proof.
  unfold dict_update.
  induction items as [|[k v] items IH]; simpl; [done|].
  intros d Hd. apply IH. by apply dict_set_NoDup.
Qed.

Lemma dict_of_NoDup {V} (items : list (string * V)) : NoDup (dict_of items).*1.
Proof. apply dict_update_NoDup. simpl. apply NoDup_nil_2. Qed.

(** ** make_env *)

Lemma make_env_runs (self : CliRunner) (overrides : option (dict (option string))) (w : World) :
  make_env self overrides w
  = (Ok (length (dicts w)),
     set_dicts (dicts w ++ [merged (deref (env self) w) overrides]) w).
Proof.
  unfold make_env, merged, new_dict, change_dict. run_step.
  destruct overrides as [[|item o]|]; simpl; try done.
  f_equal. unfold set_dicts; simpl. f_equal.
  rewrite alter_app_r_alt by lia. by rewrite Nat.sub_diag.
Qed.

Lemma merged_NoDup e overrides : NoDup (merged e overrides).*1.
Proof.
  unfold merged. destruct overrides as [[|item o]|]; try apply dict_of_NoDup.
  apply dict_update_NoDup, dict_of_NoDup.
Qed.

Lemma deref_new_raw e g (ds : list (dict (option string))) s h (d : dict (option string)) :
  deref (length ds)
    {| os_environ := e; modules := g; dicts := ds ++ [d]; streams := s;
       host_output := h |} = d.
Proof.
  unfold deref; simpl. rewrite lookup_app_r by lia.
  by rewrite Nat.sub_diag.
Qed.

Lemma deref_new (w : World) (d : dict (option string)) :
  deref (length (dicts w)) (set_dicts (dicts w ++ [d]) w) = d.
Proof.
  unfold deref; simpl. rewrite lookup_app_r by lia.
  by rewrite Nat.sub_diag.
Qed.

(** C10: the overrides in force in a session are the union of the [env] of
    the runner and the overrides of the call, in which the value of the
    call wins on a key that both have; they are held by a dict of their
    own, and the dict of the runner is as it was. *)
Theorem make_env_merges_into_a_copy
    (self : CliRunner) (overrides : option (dict (option string))) (w : World) :
  env self < length (dicts w) ->
  NoDup (deref (env self) w).*1 ->
  NoDup (default [] overrides).*1 ->
  exists rv w',
    make_env self overrides w = (Ok rv, w')
    /\ (forall k,
          dict_get k (deref rv w')
          = match dict_get k (default [] overrides) with
            | Some v => Some v
            | None => dict_get k (deref (env self) w)
            end)
    /\ deref (env self) w' = deref (env self) w
    /\ rv <> env self.
Proof.
  intros Hin He Ho.
  eexists _, _. split; [apply make_env_runs|].
  split; [|split].
  - intros k. rewrite deref_new. unfold merged.
    destruct overrides as [[|item o]|]; cbv beta iota.
    + by apply dict_get_of.
    + change (default [] (Some (item :: o))) with (item :: o) in *.
      rewrite dict_get_update by done.
      destruct (dict_get k (item :: o)); [done|]. by apply dict_get_of.
    + by apply dict_get_of.
  - unfold deref; simpl. by rewrite lookup_app_l.
  - lia.
Qed.

Lemma make_env_merges_into_a_copy_witness :
  let self := a_runner false true in
  let overrides := Some [("LANG", None); ("TERM", Some "dumb")] in
  env self < length (dicts host_world)
  /\ NoDup (deref (env self) host_world).*1
  /\ NoDup (default [] overrides).*1
  /\ exists rv w',
       make_env self overrides host_world = (Ok rv, w')
       /\ (forall k,
             dict_get k (deref rv w')
             = match dict_get k (default [] overrides) with
               | Some v => Some v
               | None => dict_get k (deref (env self) host_world)
               end)
       /\ deref (env self) w' = deref (env self) host_world
       /\ rv <> env self.
Proof.
  intros self overrides.
  assert (H1 : env self < length (dicts host_world)) by (simpl; lia).
  assert (H2 : NoDup (deref (env self) host_world).*1) by compute_done.
  assert (H3 : NoDup (default [] overrides).*1) by compute_done.
  split; [exact H1|]. split; [exact H2|]. split; [exact H3|].
  exact (make_env_merges_into_a_copy self overrides host_world H1 H2 H3).
Defined.

(** ** The isolation session *)

Lemma set_environ_same (w : World) : set_environ (os_environ w) w = w.
Proof. by destruct w. Qed.

Lemma put_or_del_runs (key : string) (value : option string) (w : World) :
  put_or_del key value w
  = (Ok tt, set_environ (env_put key value (os_environ w)) w).
Proof.
  destruct value as [v|]; simpl; [done|].
  unfold pass_on_Exception, try_except, environ_del.
  destruct (os_environ w !! key) eqn:Hk; simpl; [done|].
  unfold ret. by rewrite delete_id, set_environ_same.
Qed.

Lemma restore_loop_runs (items : dict (option string)) :
  forall w : World,
    exists us,
      for_each (fun item => put_or_del item.1 item.2) items w
      = (Ok us, set_environ (put_all items (os_environ w)) w).
Proof.
  induction items as [|[k v] items IH]; intros w; simpl.
  - exists []. unfold ret. by rewrite set_environ_same.
  - unfold bind at 1. rewrite put_or_del_runs. simpl.
    destruct (IH (set_environ (env_put k v (os_environ w)) w)) as [us Hus].
    unfold bind at 1. rewrite Hus. unfold ret. simpl.
    exists (tt :: us). by destruct w.
Qed.

Lemma apply_loop_runs (items : dict (option string)) :
  forall (old : dict (option string)) (w : World),
    exists us,
      for_each apply_override items (old, w)
      = (Ok us,
         ((apply_all items (old, os_environ w)).1,
          set_environ (apply_all items (old, os_environ w)).2 w)).
Proof.
  induction items as [|[k v] items IH]; intros old w; simpl.
  - exists []. unfold ret. by rewrite set_environ_same.
  - unfold bind at 1. unfold apply_override at 1.
    unfold bind, in_world, assign, modify, environ_get, gets. simpl.
    rewrite put_or_del_runs. simpl.
    destruct (IH (dict_set k (os_environ w !! k) old)
                 (set_environ (env_put k v (os_environ w)) w)) as [us Hus].
    rewrite Hus. unfold ret. simpl.
    exists (tt :: us). by destruct w.
Qed.

(** How a session runs: the body starts in [session_world]; when it is
    over, whatever its outcome, the environment variables that were saved
    are put back and the module attributes are those of before. *)
Lemma isolation_runs {A} (self : CliRunner) (input : input_t) (i : BytesIO)
    (overrides : option (dict (option string))) (color : bool)
    (body : M World A) (w : World) :
  make_input_stream input (charset self) = Ok i ->
  isolation self input overrides color body w
  = let start := session_world self i overrides color w in
    let old := (apply_all (merged (deref (env self) w) overrides) ([], os_environ w)).1 in
    let '(o, w1) := body start in
    (o, set_modules (modules w) (set_environ (put_all old (os_environ w1)) w1)).
Proof.
  intros Hi.
  destruct w as [e [g1 g2 g3 g4 g5 g6 g7 g8] d s h].
  unfold isolation. unfold bind at 1. unfold lift at 1. rewrite Hi.
  destruct (mix_stderr self) eqn:Hmix.
  all: crunch.
  all: rewrite make_env_runs.
  all: crunch.
  all: rewrite deref_new_raw.
  all: match goal with
       | |- context [for_each apply_override ?items (?old, ?w0)] =>
           destruct (apply_loop_runs items old w0) as [us ->]
       end.
  all: unfold session_world, session_globals, session_streams; rewrite Hmix.
  all: simpl; unfold deref; crunch.
  all: match goal with
       | |- context [let '(_, _) := ?f ?w0 in _] => destruct (f w0) as [o w1]
       end.
  all: unfold restore_environ; crunch; simpl.
  all: match goal with
       | |- context [for_each ?f ?items ?w0] =>
           destruct (restore_loop_runs items w0) as [us' ->]
       end.
  all: destruct w1; crunch; reflexivity.
Qed.

(** A session that is not entered: the input is refused at once. *)
Lemma isolation_refused {A} (self : CliRunner) (input : input_t)
    (overrides : option (dict (option string))) (color : bool)
    (body : M World A) (w : World) (e : exn) :
  make_input_stream input (charset self) = Raised e ->
  isolation self input overrides color body w = (Raised e, w).
Proof.
  intros Hi. unfold isolation. unfold bind at 1. unfold lift at 1.
  by rewrite Hi.
Qed.

Lemma lookup_env_put_ne (k key : string) (value : option string) (e : gmap string string) :
  k <> key -> env_put key value e !! k = e !! k.
Proof.
  intros Hne. destruct value as [v|]; simpl.
  - by rewrite lookup_insert_ne.
  - by rewrite lookup_delete_ne.
Qed.

Lemma lookup_env_put_eq (key : string) (value : option string) (e : gmap string string) :
  env_put key value e !! key = value.
Proof.
  destruct value as [v|]; simpl.
  - by rewrite lookup_insert_eq.
  - by rewrite lookup_delete_eq.
Qed.

(** A variable that is not overridden is not touched by the loop. *)
Lemma apply_all_other (k : string) (items : dict (option string)) :
  k ∉ items.*1 ->
  forall st,
    (apply_all items st).2 !! k = st.2 !! k
    /\ dict_get k (apply_all items st).1 = dict_get k st.1.
Proof.
  induction items as [|[k1 v1] items IH]; simpl; [done|].
  intros Hk st. apply not_elem_of_cons in Hk as [Hne Hk].
  destruct (IH Hk (dict_set k1 (st.2 !! k1) st.1, env_put k1 v1 st.2)) as [-> ->].
  simpl. rewrite lookup_env_put_ne by done. rewrite dict_get_set.
  by destruct (String.eqb_spec k k1).
Qed.

(** A variable that is overridden has, at the end of the loop, the value
    it is overridden with, and [old_env] has the value it had before. *)
Lemma apply_all_overridden (k : string) (items : dict (option string)) :
  NoDup items.*1 ->
  forall value st,
    dict_get k items = Some value ->
    (apply_all items st).2 !! k = value
    /\ dict_get k (apply_all items st).1 = Some (st.2 !! k).
Proof.
  induction items as [|[k1 v1] items IH]; simpl; [done|].
  intros Hnd value st Hget. apply NoDup_cons in Hnd as [Hk1 Hnd].
  destruct (String.eqb_spec k k1) as [->|Hne].
  - injection Hget as <-.
    destruct (apply_all_other k1 items Hk1
                (dict_set k1 (st.2 !! k1) st.1, env_put k1 v1 st.2)) as [-> ->].
    simpl. rewrite lookup_env_put_eq, dict_get_set.
    by rewrite String.eqb_refl.
  - destruct (IH Hnd value (dict_set k1 (st.2 !! k1) st.1, env_put k1 v1 st.2) Hget)
      as [-> ->].
    simpl. by rewrite lookup_env_put_ne.
Qed.

Lemma apply_all_keys (items : dict (option string)) :
  forall st k,
    k ∈ (apply_all items st).1.*1 <-> k ∈ items.*1 \/ k ∈ st.1.*1.
Proof.
  induction items as [|[k1 v1] items IH]; intros st k; simpl.
  - rewrite elem_of_nil. tauto.
  - rewrite IH. simpl. rewrite dict_set_keys, elem_of_cons. tauto.
Qed.

Lemma apply_all_NoDup (items : dict (option string)) :
  forall st, NoDup st.1.*1 -> NoDup (apply_all items st).1.*1.
Proof.
  induction items as [|[k1 v1] items IH]; intros st Hst; simpl; [done|].
  apply IH. simpl. by apply dict_set_NoDup.
Qed.

(** What the loop of the final block leaves in a variable. *)
Lemma lookup_put_all (k : string) (old : dict (option string)) :
  NoDup old.*1 ->
  forall e : gmap string string,
    put_all old e !! k
    = match dict_get k old with
      | Some value => value
      | None => e !! k
      end.
Proof.
  unfold put_all.
  induction old as [|[k1 v1] old IH]; simpl; [done|].
  intros Hnd e. apply NoDup_cons in Hnd as [Hk1 Hnd].
  rewrite IH by done. simpl.
  destruct (String.eqb_spec k k1) as [->|Hne].
  - rewrite (dict_get_absent k1 old) by done. apply lookup_env_put_eq.
  - destruct (dict_get k old); [done|]. by apply lookup_env_put_ne.
Qed.

Lemma dict_get_None_keys {V} (k : string) (d : dict V) :
  dict_get k d = None <-> k ∉ d.*1.
Proof.
  split; [|apply dict_get_absent].
  intros Hget Hin. apply dict_get_present in Hin as [v Hv]. congruence.
Qed.

(** The environment after a session, from that in which its body ended. *)
Lemma environ_after_session (items : dict (option string))
    (e0 e1 : gmap string string) :
  NoDup items.*1 ->
  (forall k, dict_get k items = None ->
             e1 !! k = (apply_all items ([], e0)).2 !! k) ->
  put_all (apply_all items ([], e0)).1 e1 = e0.
Proof.
  intros Hnd Hframe. apply map_eq. intros k.
  rewrite lookup_put_all by (apply apply_all_NoDup; simpl; apply NoDup_nil_2).
  destruct (dict_get k items) as [value|] eqn:Hget.
  - destruct (apply_all_overridden k items Hnd value ([], e0) Hget) as [_ ->].
    done.
  - assert (Hk : k ∉ items.*1) by by apply dict_get_None_keys.
    destruct (apply_all_other k items Hk ([], e0)) as [He Ho].
    rewrite Ho. simpl. rewrite Hframe by done. exact He.
Qed.

(** What the final block leaves in a variable: its value of before when it
    is overridden, and what the body left when it is not. *)
Lemma lookup_after_session (items : dict (option string))
    (e0 e1 : gmap string string) (k : string) :
  NoDup items.*1 ->
  put_all (apply_all items ([], e0)).1 e1 !! k
  = match dict_get k items with
    | Some _ => e0 !! k
    | None => e1 !! k
    end.
Proof.
  intros Hnd.
  rewrite lookup_put_all by (apply apply_all_NoDup; simpl; apply NoDup_nil_2).
  destruct (dict_get k items) as [value|] eqn:Hget.
  - by destruct (apply_all_overridden k items Hnd value ([], e0) Hget) as [_ ->].
  - assert (Hk : k ∉ items.*1) by by apply dict_get_None_keys.
    by destruct (apply_all_other k items Hk ([], e0)) as [_ ->].
Qed.

(** The amended C2: whatever the overrides (a value of [None] removes the
    variable for the time of the session; the names and values are ones
    that [os.environ] takes) and however the body of the session ends, by
    returning or by raising, every variable that the overrides name has
    after the session the value it had before it, and is gone again if it
    was not there, whatever the body did to it; every other variable is as
    the body left it.  So the environment after the session is the
    environment before it exactly when the body has left the variables
    that the overrides do not name as it found them.  When the input is
    refused there is no session and the environment is as it was. *)
Theorem isolation_restores_the_overridden_variables {A} (self : CliRunner)
    (input : input_t) (overrides : option (dict (option string))) (color : bool)
    (body : M World A) (w : World) :
  let items := merged (deref (env self) w) overrides in
  environ_takes_all items = true ->
  let after := os_environ (isolation self input overrides color body w).2 in
  match make_input_stream input (charset self) with
  | Raised _ => after = os_environ w
  | Ok i =>
      let start := session_world self i overrides color w in
      (forall k,
         after !! k = match dict_get k items with
                      | Some _ => os_environ w !! k
                      | None => os_environ (body start).2 !! k
                      end)
      /\ (after = os_environ w
          <-> forall k, dict_get k items = None ->
                        os_environ (body start).2 !! k = os_environ start !! k)
  end.
Proof.
  intros items _ after. subst after.
  destruct (make_input_stream input (charset self)) as [i|e] eqn:Hi.
  - intros start.
    rewrite (isolation_runs self input i) by done. cbv zeta. fold start.
    destruct (body start) as [o w1]. simpl.
    assert (Hk : forall k,
               put_all (apply_all items ([], os_environ w)).1 (os_environ w1) !! k
               = match dict_get k items with
                 | Some _ => os_environ w !! k
                 | None => os_environ w1 !! k
                 end).
    { intros k. apply lookup_after_session, merged_NoDup. }
    split; [exact Hk|].
    assert (Hstart : forall k, dict_get k items = None ->
                               os_environ start !! k = os_environ w !! k).
    { intros k Hget.
      assert (Hnot : k ∉ items.*1) by by apply dict_get_None_keys.
      by destruct (apply_all_other k items Hnot ([], os_environ w)) as [? _]. }
    split.
    + intros Heq k Hget. rewrite Hstart by done.
      rewrite <- Heq, Hk. by rewrite Hget.
    + intros Hframe. apply map_eq. intros k. rewrite Hk.
      destruct (dict_get k items) eqn:Hget; [done|].
      rewrite Hframe by done. by apply Hstart.
  - by rewrite (isolation_refused self input overrides color body w e).
Qed.

Lemma isolation_restores_the_overridden_variables_witness :
  let self := a_runner false true in
  let overrides := Some [("HOME", None); ("TERM", Some "dumb")] in
  let body : M World unit :=
    (let* _ := environ_set "TERM" "xterm" in
     let* _ := environ_set "HOME" "/tmp" in
     let* _ := environ_set "NEW" "1" in
     raise (Exc "RuntimeError" "boom"))%py in
  let after := os_environ (isolation self InputNone overrides false body host_world).2 in
  environ_takes_all (merged (deref (env self) host_world) overrides) = true
  /\ after !! "TERM" = os_environ host_world !! "TERM"
  /\ after !! "HOME" = os_environ host_world !! "HOME"
  /\ after !! "NEW" = Some "1".
Proof.
  intros self overrides body after.
  assert (H : environ_takes_all (merged (deref (env self) host_world) overrides)
              = true) by reflexivity.
  split; [exact H|].
  destruct (isolation_restores_the_overridden_variables self InputNone overrides
              false body host_world H) as [Hk _].
  fold after in Hk.
  split; [exact (Hk "TERM")|]. split; [exact (Hk "HOME")|].
  rewrite (Hk "NEW"). vm_compute. reflexivity.
Defined.

(** C2 as stated fails: a body that sets a variable that the overrides do
    not name leaves it set; the session has not saved it and does not put
    it back, so the environment after the session is not the environment
    before it. *)
Lemma isolation_keeps_a_new_variable :
  let body : M World unit := environ_set "NEW" "1" in
  let res := isolation (a_runner false true) InputNone
               (Some [("TERM", Some "dumb")]) false body host_world in
  res.1 = Ok tt
  /\ os_environ host_world !! "NEW" = None
  /\ os_environ res.2 !! "NEW" = Some "1"
  /\ os_environ res.2 !! "TERM" = None
  /\ os_environ res.2 <> os_environ host_world.
Proof.
  cbv zeta.
  assert (H : os_environ (isolation (a_runner false true) InputNone
                (Some [("TERM", Some "dumb")]) false (environ_set "NEW" "1")
                host_world).2 !! "NEW" = Some "1") by (vm_compute; reflexivity).
  split; [vm_compute; reflexivity|]. split; [vm_compute; reflexivity|].
  split; [exact H|]. split; [vm_compute; reflexivity|].
  intros Heq. rewrite Heq in H. vm_compute in H. discriminate H.
Qed.

(** ** Invocation *)

Lemma stream_flush_ok (f : stream_obj) (w : World) :
  exists w', stream_flush f w = (Ok tt, w')
    /\ os_environ w' = os_environ w /\ modules w' = modules w.
Proof. destruct f; simpl; unfold on_streams, modify, ret; eauto. Qed.

Lemma collect_ok (self : CliRunner) (w : World) :
  exists out err w',
    collect self w = (Ok (out, err), w')
    /\ os_environ w' = os_environ w /\ modules w' = modules w
    /\ (mix_stderr self = true -> err = None).
Proof.
  unfold collect, sys_stdout_flush. unfold bind at 1. unfold bind at 1.
  unfold global at 1, gets at 1.
  destruct (stream_flush_ok (sys_stdout (modules w)) w) as (w' & -> & He & Hm).
  run_step. destruct (mix_stderr self); simpl;
    eexists _, _, _; (split; [reflexivity|]); repeat split; done.
Qed.

Section InvokeProperties.

Variable shlex_split : str -> outcome (list str).

(** How an invocation runs once the input stream and the arguments are
    there. *)
Lemma invoke_runs (self : CliRunner) (cli : Command) (args : args_t)
    (input : input_t) (env : option (dict (option string)))
    (catch_exceptions color : bool) (extra : dict pyval) (w : World)
    (i : BytesIO) (l : list str) :
  make_input_stream input (charset self) = Ok i ->
  tokens shlex_split args = Ok l ->
  invoke shlex_split self cli args input env catch_exceptions color extra w
  = let '(o1, w1) := attempt self cli l catch_exceptions extra
                       (session_world self i env color w) in
    let '(o2, w2) := collect self w1 in
    match o2, o1 with
    | Ok (out, err), Ok lc =>
        (Ok {| runner := self; stdout_bytes := out; stderr_bytes := err;
               return_value := l_return_value lc; exit_code := l_exit_code lc;
               exception := l_exception lc; exc_info := l_exc_info lc |},
         leave self env w w2)
    | Ok _, Raised e => (Raised e, leave self env w w2)
    | Raised e, _ => (Raised e, leave self env w w2)
    end.
Proof.
  intros Hi Hl.
  unfold invoke. unfold bind at 1.
  rewrite (isolation_runs self input i) by done. cbv zeta.
  set (start := session_world self i env color w).
  unfold bind at 1.
  assert (Ht : match args with
               | ArgsStr s => lift (shlex_split s)
               | ArgsList l0 => ret l0
               | ArgsNone => ret []
               end start = (Ok l, start)).
  { destruct args; simpl in Hl; unfold lift, ret; congruence. }
  rewrite Ht.
  unfold attempt, prog_name_of, extra_of, leave.
  destruct (dict_get "prog_name" extra) as [p|];
    unfold try_finally_with;
    match goal with
    | |- context [try_except ?m ?h start] => destruct (try_except m h start) as [o1 w1]
    end;
    destruct (collect self w1) as [[[out err]|e2] w2];
    destruct o1 as [lc|e1]; reflexivity.
Qed.


End InvokeProperties.



(** C1, at the exit payload [0.0]: the payload is not an int, so its text
    and a newline are written and the exit code becomes 1; it compares
    equal to 0, so no exception is recorded although the final exit code
    is not zero. *)
Theorem exit_with_float_zero_records_no_exception :
  outcome_map
    (fun r => (stdout_bytes r, exit_code r, ne_0 (exit_code r), exception r))
    (invoke one_word (a_runner false true) (raising (SystemExit float_zero))
       ArgsNone InputNone None true false [] host_world).1
  = Ok (octets "0.0" ++ [x0a], PyInt 1, true, None).
Proof. vm_compute. reflexivity. Qed.

(** ** The input hooks *)

Lemma text_readline_runs (w : World) :
  text_readline w
  = let '(o, sb, sd) :=
      readline_of (encoding (streams w)) (stdin_bytes (streams w))
        (stdin_decoded (streams w)) in
    (o, set_streams (set_stdin_decoded sd (set_stdin_bytes sb (streams w))) w).
Proof.
  destruct w as [e g d [sb ech sd bo po be pe enc] h].
  unfold text_readline, readline_of, fill_of, stdin_fill, buffer_read1,
    on_echoing_stdin, on_stdin_bytes, EchoingStdin_read1, on_input,
    BytesIO_read1, BytesIO_read.
  destruct (str_mem LF sd) eqn:Hsd; destruct ech; crunch; rewrite ?Hsd;
    try reflexivity;
    destruct (bytes_decode enc Strict (limit (-1) (remaining sb))) as [text|err];
    reflexivity.
Qed.

Lemma sys_stdout_write_runs (s : str) (data : bytes) (w : World) :
  sys_stdout (modules w) = SessionStdout ->
  str_encode (encoding (streams w)) Strict s = Ok data ->
  sys_stdout_write s w
  = (Ok tt, set_streams (set_stdout_pending (stdout_pending (streams w) ++ data)
                           (streams w)) w).
Proof.
  intros Hout Henc. unfold sys_stdout_write, bind, global, gets.
  rewrite Hout. simpl. run_step. by rewrite Henc.
Qed.

Lemma sys_stdout_flush_runs (w : World) :
  sys_stdout (modules w) = SessionStdout ->
  sys_stdout_flush w
  = (Ok tt, set_streams
              (set_stdout_pending []
                 (set_bytes_output
                    (BytesIO_write (stdout_pending (streams w))
                       (bytes_output (streams w)))
                    (streams w))) w).
Proof.
  intros Hout. unfold sys_stdout_flush, bind, global, gets.
  by rewrite Hout.
Qed.

(** *** Lines *)

Lemma str_mem_false (c : N) (s : str) : str_mem c s = false -> c ∉ s.
Proof.
  unfold str_mem. induction s as [|x s IH]; simpl; intros H.
  - apply not_elem_of_nil.
  - apply orb_false_iff in H as [Hx Hs]. apply not_elem_of_cons.
    split; [by apply N.eqb_neq|by apply IH].
Qed.

Lemma universal_newlines_app (v x : str) :
  CR ∉ v -> universal_newlines (v ++ x) = v ++ universal_newlines x.
Proof.
  induction v as [|c v IH]; intros Hv; [done|].
  apply not_elem_of_cons in Hv as [Hc Hv]. simpl.
  destruct (N.eqb_spec c CR) as [->|_]; [done|].
  by rewrite IH.
Qed.

Lemma universal_newlines_line_end (term rest : str) :
  line_end term rest ->
  universal_newlines (term ++ rest) = LF :: universal_newlines rest.
Proof.
  intros [->|[->|[-> Hrest]]]; [done|done|].
  simpl. destruct rest as [|c rest]; [done|].
  destruct (N.eqb_spec c LF) as [->|_]; [by destruct Hrest|done].
Qed.

Lemma first_line_app (v x : str) :
  LF ∉ v -> first_line (v ++ LF :: x) = v ++ [LF].
Proof.
  induction v as [|c v IH]; intros Hv; [done|].
  apply not_elem_of_cons in Hv as [Hc Hv]. simpl.
  destruct (N.eqb_spec c LF) as [->|_]; [done|].
  by rewrite IH.
Qed.

Lemma rstrip_line (v : str) :
  CR ∉ v -> LF ∉ v -> rstrip [CR; LF] (v ++ [LF]) = v.
Proof.
  induction v as [|c v IH]; intros Hcr Hlf; [done|].
  apply not_elem_of_cons in Hcr as [Hc1 Hcr].
  apply not_elem_of_cons in Hlf as [Hc2 Hlf].
  cbn [app rstrip]. rewrite IH by done.
  destruct v as [|c' v']; [|done].
  unfold str_mem. cbn [existsb].
  destruct (N.eqb_spec c CR); [done|]. by destruct (N.eqb_spec c LF).
Qed.

(** The first line of an input [v ++ term ++ rest], as the text wrapper
    sees it, and what it sees after it. *)
Lemma line_of_input (v term rest : str) :
  CR ∉ v -> LF ∉ v -> line_end term rest ->
  first_line (universal_newlines (v ++ term ++ rest)) = v ++ [LF]
  /\ drop (length (v ++ [LF])) (universal_newlines (v ++ term ++ rest))
     = universal_newlines rest.
Proof.
  intros Hcr Hlf Hend.
  rewrite universal_newlines_app, universal_newlines_line_end by done.
  split; [by apply first_line_app|].
  rewrite length_app. simpl.
  rewrite drop_app_ge by lia.
  replace (length v + 1 - length v) with 1 by lia. done.
Qed.

Lemma remaining_after_read (i : BytesIO) :
  remaining (advance i (remaining i)) = [].
Proof.
  unfold remaining, advance. simpl. apply drop_ge.
  rewrite length_drop. lia.
Qed.

(** Reading a line from a stdin that has been read to its end and has
    the text [sd] left to hand out. *)
Lemma readline_of_drained (enc : codec) (sb : BytesIO) (sd : str) :
  remaining sb = [] -> (readline_of enc sb sd).1.1 = Ok (first_line sd).
Proof.
  intros Hsb. unfold readline_of, fill_of.
  destruct (str_mem LF sd); [done|].
  unfold BytesIO_read1, BytesIO_read, limit. simpl. rewrite Hsb. simpl.
  by rewrite app_nil_r.
Qed.

Lemma readline_of_line (enc : codec) (i : BytesIO) (v term rest : str) :
  bytes_decode enc Strict (remaining i) = Ok (v ++ term ++ rest) ->
  CR ∉ v -> LF ∉ v -> line_end term rest ->
  readline_of enc i []
  = (Ok (v ++ [LF]), advance i (remaining i), universal_newlines rest).
Proof.
  intros Hdec Hcr Hlf Hend.
  destruct (line_of_input v term rest Hcr Hlf Hend) as [Hline Hleft].
  unfold readline_of, fill_of, BytesIO_read1, BytesIO_read, limit. simpl.
  rewrite Hdec. simpl. by rewrite Hline, Hleft.
Qed.

Lemma str_mem_true (c : N) (s : str) : str_mem c s = true -> c ∈ s.
Proof.
  unfold str_mem. induction s as [|x s IH]; simpl; intros H; [done|].
  apply orb_true_iff in H as [Hx|Hs].
  - apply N.eqb_eq in Hx as ->. by apply elem_of_cons; left.
  - apply elem_of_cons; right. by apply IH.
Qed.

Lemma first_line_prefix (sd x : str) :
  LF ∈ sd ->
  first_line (sd ++ x) = first_line sd
  /\ drop (length (first_line sd)) (sd ++ x) = drop (length (first_line sd)) sd ++ x.
Proof.
  induction sd as [|c sd IH]; intros Hin; [by apply elem_of_nil in Hin|].
  simpl. destruct (N.eqb_spec c LF) as [->|Hne]; [done|].
  apply elem_of_cons in Hin as [Heq|Hin]; [by subst|].
  destruct (IH Hin) as [-> Hd]. by simpl.
Qed.

Lemma first_line_split (v rest : str) :
  LF ∉ v ->
  first_line (v ++ LF :: rest) = v ++ [LF]
  /\ drop (length (v ++ [LF])) (v ++ LF :: rest) = rest.
Proof.
  intros Hv. split; [by apply first_line_app|].
  rewrite length_app. simpl. rewrite drop_app_ge by lia.
  by replace (length v + 1 - length v) with 1 by lia.
Qed.

(** Reading the next line of a stdin that has one ahead. *)
Lemma readline_of_next_line (enc : codec) (sb : BytesIO) (sd v rest : str) :
  outcome_map (fun t => sd ++ universal_newlines t)
    (bytes_decode enc Strict (remaining sb)) = Ok (v ++ LF :: rest) ->
  LF ∉ v ->
  exists sb' sd',
    readline_of enc sb sd = (Ok (v ++ [LF]), sb', sd')
    /\ outcome_map (fun t => sd' ++ universal_newlines t)
         (bytes_decode enc Strict (remaining sb')) = Ok rest.
Proof.
  intros Hahead Hv.
  destruct (bytes_decode enc Strict (remaining sb)) as [t|e] eqn:Hdec; [|done].
  simpl in Hahead. injection Hahead as Hahead.
  destruct (first_line_split v rest Hv) as [Hline Hdrop].
  unfold readline_of. destruct (str_mem LF sd) eqn:Hsd.
  - apply str_mem_true in Hsd.
    destruct (first_line_prefix sd (universal_newlines t) Hsd) as [Hf Hd].
    rewrite Hahead in Hf, Hd. rewrite Hline in Hf.
    rewrite <- Hf in Hd |- *. rewrite Hdrop in Hd.
    eexists _, _. split; [reflexivity|].
    rewrite Hdec. simpl. by rewrite <- Hd.
  - unfold fill_of, BytesIO_read1, BytesIO_read, limit. simpl.
    rewrite Hdec, Hahead, Hline, Hdrop.
    eexists _, _. split; [reflexivity|].
    rewrite remaining_after_read. simpl. by rewrite app_nil_r.
Qed.

(** C7: the visible-input hook of a session writes the prompt (nothing
    when there is none), reads one line from the simulated stdin, strips
    the carriage returns and newlines at its end, writes the stripped value
    and a newline, flushes, and returns the stripped value.  First for any
    call in a session: when the text that stdin has yet to hand out starts
    with the line [v], the hook returns [v], all that was written, the
    pending output first, is then in the output buffer, and stdin has the
    text after that line yet to hand out.  Then for a session that is
    entered with an input [v ++ term ++ rest], where [term] is a line end:
    the hook returns [v], the output is the prompt, [v] and a newline, and
    the next read of a line gives the first line of [rest].  With the
    prompt ["Name: "] and the input ["Ada\n"] an invocation gives the
    output ["Name: Ada\n"] and the return value ["Ada"]. *)
Theorem visible_input_prompts_reads_and_echoes :
  (forall (prompt : option str) (w : World) (v rest : str) (pb vb : bytes),
     sys_stdout (modules w) = SessionStdout ->
     text_ahead (streams w) = Ok (v ++ LF :: rest) ->
     str_mem CR v = false -> str_mem LF v = false ->
     str_encode (encoding (streams w)) Strict (or_empty prompt) = Ok pb ->
     str_encode (encoding (streams w)) Strict (v ++ [LF]) = Ok vb ->
     exists w',
       visible_input prompt w = (Ok v, w')
       /\ bytes_output (streams w')
          = BytesIO_write (stdout_pending (streams w) ++ pb ++ vb)
              (bytes_output (streams w))
       /\ stdout_pending (streams w') = []
       /\ text_ahead (streams w') = Ok rest)
  /\ (forall (self : CliRunner) (prompt : option str) (input : input_t)
        (i : BytesIO) (v term rest : str) (pb vb : bytes)
        (overrides : option (dict (option string))) (color : bool) (w : World),
        make_input_stream input (charset self) = Ok i ->
        bytes_decode (charset self) Strict (remaining i) = Ok (v ++ term ++ rest) ->
        str_mem CR v = false -> str_mem LF v = false -> line_end term rest ->
        str_encode (charset self) Strict (or_empty prompt) = Ok pb ->
        str_encode (charset self) Strict (v ++ [LF]) = Ok vb ->
        (isolation self input overrides color
           (hook_then_look (visible_input prompt)) w).1
        = Ok (v, pb ++ vb, first_line (universal_newlines rest)))
  /\ outcome_map (fun r => (Result_output r, return_value r))
       (invoke one_word (a_runner false true) ask_name ArgsNone
          (InputStr (u "Ada" ++ [LF])) None true false [] host_world).1
     = Ok (Ok (u "Name: Ada" ++ [LF]), PyStr (u "Ada")).
Proof.
  split; [|split; [|vm_compute; reflexivity]].
  - intros prompt w v rest pb vb Hout Hahead Hcr Hlf Hpb Hvb.
    apply str_mem_false in Hcr, Hlf.
    destruct w as [e g d [sb ech sd bo po be pe enc] h].
    unfold text_ahead in Hahead. simpl in Hout, Hahead, Hpb, Hvb.
    destruct (readline_of_next_line enc sb sd v rest Hahead Hlf)
      as (sb' & sd' & Hread & Hrest).
    unfold visible_input, stream_readline.
    unfold bind at 1. rewrite (sys_stdout_write_runs _ pb) by done.
    unfold bind at 1. rewrite text_readline_runs. crunch_io.
    rewrite Hread. rewrite rstrip_line by done.
    destruct g as [g1 g2 g3 g4 g5 g6 g7 g8]. simpl in Hout. subst g2.
    crunch_io. rewrite Hvb. crunch_io.
    eexists. split; [reflexivity|]. unfold text_ahead. simpl.
    by rewrite <- app_assoc.
  - intros self prompt input i v term rest pb vb overrides color w
      Hi Hdec Hcr Hlf Hend Hpb Hvb.
    apply str_mem_false in Hcr, Hlf.
    rewrite (isolation_runs self input i) by done. cbv zeta.
    unfold hook_then_look, visible_input, stream_readline.
    crunch_io. rewrite Hpb. crunch_io.
    rewrite text_readline_runs. crunch_io.
    rewrite (readline_of_line _ i v term rest) by done.
    rewrite rstrip_line by done. rewrite Hvb. crunch_io.
    rewrite text_readline_runs. crunch_io.
    pose proof (readline_of_drained (charset self) (advance i (remaining i))
                  (universal_newlines rest) (remaining_after_read i)) as Hnext.
    destruct (readline_of (charset self) (advance i (remaining i))
                (universal_newlines rest)) as [[o sb] sd].
    simpl in Hnext. subst o. simpl.
    by rewrite getvalue_first_write.
Qed.

Lemma visible_input_prompts_reads_and_echoes_witness :
  let self := a_runner false true in
  let input := InputStr (u "Ada" ++ [CR; LF] ++ u "Bob" ++ [LF]) in
  let i := BytesIO_of (octets "Ada" ++ [x0d; x0a] ++ octets "Bob" ++ [x0a]) in
  let w := session_world self i None false host_world in
  (sys_stdout (modules w) = SessionStdout
   /\ text_ahead (streams w) = Ok (u "Ada" ++ LF :: u "Bob" ++ [LF])
   /\ exists w',
        visible_input (Some (u "Name: ")) w = (Ok (u "Ada"), w')
        /\ getvalue (bytes_output (streams w')) = octets "Name: Ada" ++ [x0a]
        /\ text_ahead (streams w') = Ok (u "Bob" ++ [LF]))
  /\ make_input_stream input (charset self) = Ok i
  /\ bytes_decode (charset self) Strict (remaining i)
     = Ok (u "Ada" ++ [CR; LF] ++ u "Bob" ++ [LF])
  /\ str_mem CR (u "Ada") = false /\ str_mem LF (u "Ada") = false
  /\ line_end [CR; LF] (u "Bob" ++ [LF])
  /\ str_encode (charset self) Strict (or_empty (Some (u "Name: ")))
     = Ok (octets "Name: ")
  /\ str_encode (charset self) Strict (u "Ada" ++ [LF]) = Ok (octets "Ada" ++ [x0a])
  /\ (isolation self input None false
        (hook_then_look (visible_input (Some (u "Name: ")))) host_world).1
     = Ok (u "Ada", octets "Name: " ++ octets "Ada" ++ [x0a], u "Bob" ++ [LF]).
Proof.
  intros self input i w.
  assert (G1 : sys_stdout (modules w) = SessionStdout) by reflexivity.
  assert (G2 : text_ahead (streams w) = Ok (u "Ada" ++ LF :: u "Bob" ++ [LF]))
    by reflexivity.
  assert (H1 : make_input_stream input (charset self) = Ok i) by reflexivity.
  assert (H2 : bytes_decode (charset self) Strict (remaining i)
               = Ok (u "Ada" ++ [CR; LF] ++ u "Bob" ++ [LF])) by reflexivity.
  assert (H3 : str_mem CR (u "Ada") = false) by reflexivity.
  assert (H4 : str_mem LF (u "Ada") = false) by reflexivity.
  assert (H5 : line_end [CR; LF] (u "Bob" ++ [LF])) by (right; by left).
  assert (H6 : str_encode (charset self) Strict (or_empty (Some (u "Name: ")))
               = Ok (octets "Name: ")) by reflexivity.
  assert (H7 : str_encode (charset self) Strict (u "Ada" ++ [LF])
               = Ok (octets "Ada" ++ [x0a])) by reflexivity.
  destruct visible_input_prompts_reads_and_echoes as (Hcall & Hstart & _).
  split.
  { split; [exact G1|]. split; [exact G2|].
    destruct (Hcall (Some (u "Name: ")) w (u "Ada") (u "Bob" ++ [LF])
                (octets "Name: ") (octets "Ada" ++ [x0a]) G1 G2 H3 H4 H6 H7)
      as (w' & Hrun & Hout & _ & Hrest).
    exists w'. split; [exact Hrun|]. split; [|exact Hrest].
    rewrite Hout. reflexivity. }
  split; [exact H1|]. split; [exact H2|]. split; [exact H3|]. split; [exact H4|].
  split; [exact H5|]. split; [exact H6|]. split; [exact H7|].
  exact (Hstart self (Some (u "Name: ")) input i (u "Ada") [CR; LF]
           (u "Bob" ++ [LF]) (octets "Name: ") (octets "Ada" ++ [x0a]) None false
           host_world H1 H2 H3 H4 H5 H6 H7).
Defined.

(** ** The isolated workspace *)

Lemma os_error_is_OSError (e : errno) : is_OSError (os_error e) = true.
Proof. by destruct e. Qed.

Lemma system_runs (c : syscall) (p : path) (fs : FileSystem) :
  (system c p fs).2 = fs
  /\ forall e, (system c p fs).1 = Raised e -> is_OSError e = true.
Proof.
  unfold system. case_decide; [destruct (refused fs c) as [x|]|]; simpl;
    (split; [done|]); intros e He; simplify_eq;
    first [apply os_error_is_OSError | done].
Qed.

Lemma getcwd_runs (fs : FileSystem) :
  match getcwd fs with
  | (Ok c, fs') => c = cwd fs /\ fs' = fs /\ cwd fs ∈ entries fs
  | (Raised e, fs') => fs' = fs /\ is_OSError e = true
  end.
Proof.
  unfold getcwd, bind, gets, system, ret.
  case_decide; [destruct (refused fs Getcwd) as [x|]|]; simpl;
    repeat split; first [apply os_error_is_OSError | done].
Qed.

Lemma chdir_runs (p : path) (fs : FileSystem) :
  match chdir p fs with
  | (Ok _, fs') => fs' = set_cwd p fs /\ p ∈ entries fs
  | (Raised e, fs') => fs' = fs /\ is_OSError e = true
  end.
Proof.
  unfold chdir. unfold bind at 1.
  destruct (system_runs (Chdir p) p fs) as [Hs He].
  assert (Hp : (system (Chdir p) p fs).1 = Ok tt -> p ∈ entries fs).
  { unfold system. by case_decide. }
  destruct (system (Chdir p) p fs) as [[[]|e] fs']; simpl in *; subst.
  - unfold modify. split; [done|by apply Hp].
  - split; [done|by apply He].
Qed.

Lemma mkdir_runs (dir : path) (name : string) (fs : FileSystem) :
  match mkdir dir name fs with
  | (Ok _, fs') => fs' = set_entries ({[dir ++ [name]]} ∪ entries fs) fs
  | (Raised e, fs') => fs' = fs
  end.
Proof.
  unfold mkdir. unfold bind at 1.
  destruct (system_runs (Mkdir (dir ++ [name])) dir fs) as [Hs _].
  destruct (system (Mkdir (dir ++ [name])) dir fs) as [[[]|e] fs']; simpl in *;
    subst; [|done].
  unfold bind, gets. simpl. by case_decide.
Qed.

Lemma mkdtemp_from_runs (dir : path) (attempts : nat) :
  forall (k : nat) (fs : FileSystem),
    match mkdtemp_from attempts k dir fs with
    | (Ok t, fs') => fs' = set_entries ({[t]} ∪ entries fs) fs
    | (Raised e, fs') => fs' = fs
    end.
Proof.
  induction attempts as [|a IH]; intros k fs; simpl; [done|].
  unfold bind at 1, gets at 1. unfold try_except. unfold bind at 1.
  pose proof (mkdir_runs dir (candidate_names fs k) fs) as Hm.
  destruct (mkdir dir (candidate_names fs k) fs) as [[[]|e] fs']; subst; simpl.
  - done.
  - destruct (is_FileExistsError e); [apply IH|done].
Qed.

Lemma mkdtemp_runs (temp_dir : option path) (fs : FileSystem) :
  match mkdtemp temp_dir fs with
  | (Ok t, fs') => fs' = set_entries ({[t]} ∪ entries fs) fs
  | (Raised e, fs') => fs' = fs
  end.
Proof.
  unfold mkdtemp, bind.
  destruct temp_dir as [d|]; apply mkdtemp_from_runs.
Qed.

Lemma elem_of_below (t p : path) (s : gset path) :
  p ∈ below t s <-> t `prefix_of` p /\ p ∈ s.
Proof. unfold below. by rewrite elem_of_filter. Qed.

(** What [shutil.rmtree] does to the file system: nothing but entries at
    or below [t] goes; when it returns, all of them are gone; when it
    raises, it raises an [OSError] and [t] itself is still there if it
    was. *)
Lemma rmtree_runs (t : path) (fs : FileSystem) :
  cwd (rmtree t fs).2 = cwd fs
  /\ refused (rmtree t fs).2 = refused fs
  /\ entries (rmtree t fs).2 ⊆ entries fs
  /\ (forall p, ~ t `prefix_of` p -> p ∈ entries fs -> p ∈ entries (rmtree t fs).2)
  /\ match (rmtree t fs).1 with
     | Ok _ => forall p, t `prefix_of` p -> p ∉ entries (rmtree t fs).2
     | Raised e =>
         is_OSError e = true /\ (t ∈ entries fs -> t ∈ entries (rmtree t fs).2)
     end.
Proof.
  unfold rmtree.
  case_decide as Ht; [destruct (refused fs (Rmtree t)) as [x|]|]; simpl.
  - split; [done|]. split; [done|]. split; [|split; [|split]].
    + intros p. rewrite elem_of_difference. by intros [Hp _].
    + intros p Hp Hin. apply elem_of_difference. split; [done|].
      rewrite elem_of_difference, elem_of_intersection, elem_of_below.
      by intros [[[Hpre _] _] _].
    + apply os_error_is_OSError.
    + intros _. apply elem_of_difference. split; [done|].
      rewrite elem_of_difference, elem_of_singleton. by intros [_ Hne].
  - split; [done|]. split; [done|]. split; [|split].
    + intros p. rewrite elem_of_difference. by intros [Hp _].
    + intros p Hp Hin. apply elem_of_difference. split; [done|].
      rewrite elem_of_below. by intros [Hpre _].
    + intros p Hp. rewrite elem_of_difference, elem_of_below.
      intros [Hin Hnot]. by apply Hnot.
  - by repeat split.
Qed.

Lemma getcwd_ok (fs : FileSystem) (c : path) :
  (getcwd fs).1 = Ok c -> getcwd fs = (Ok (cwd fs), fs).
Proof.
  intros H. pose proof (getcwd_runs fs) as Hg.
  destruct (getcwd fs) as [[c'|e] fs']; [|done].
  by destruct Hg as (-> & -> & _).
Qed.

Lemma chdir_ok (p : path) (fs : FileSystem) :
  (chdir p fs).1 = Ok tt -> chdir p fs = (Ok tt, set_cwd p fs).
Proof.
  intros H. pose proof (chdir_runs p fs) as Hc.
  destruct (chdir p fs) as [[[]|e] fs']; [|done].
  by destruct Hc as [-> _].
Qed.

(** How the scope runs once it is entered and its body is over. *)
Lemma isolated_filesystem_runs {A} (self : CliRunner)
    (temp_dir : option path) (body : path -> M FileSystem A)
    (fs fs1 fs2 : FileSystem) (t : path) (o : outcome A) :
  (getcwd fs).1 = Ok (cwd fs) ->
  mkdtemp temp_dir fs = (Ok t, fs1) ->
  (chdir t fs1).1 = Ok tt ->
  body t (set_cwd t fs1) = (o, fs2) ->
  isolated_filesystem self temp_dir body fs
  = match chdir (cwd fs) fs2 with
    | (Ok _, back) =>
        match temp_dir with
        | None => (o, (rmtree t back).2)
        | Some _ => (o, back)
        end
    | (Raised e, fs3) => (Raised e, fs3)
    end.
Proof.
  intros Hcwd Hmk Hin Hbody.
  unfold isolated_filesystem.
  unfold bind at 1. rewrite (getcwd_ok fs _ Hcwd).
  unfold bind at 1. rewrite Hmk.
  unfold bind at 1. rewrite (chdir_ok t fs1 Hin).
  unfold try_finally. rewrite Hbody.
  unfold bind at 1.
  destruct (chdir (cwd fs) fs2) as [[[]|e] back]; [|done].
  destruct temp_dir as [dir|]; [done|].
  unfold pass_on_OSError, try_except.
  pose proof (rmtree_runs t back) as (_ & _ & _ & _ & Hr).
  destruct (rmtree t back) as [[[]|e] fs3]; simpl in *; [done|].
  destruct Hr as [-> _]. done.
Qed.

(** The amended C9: once the body of an isolated workspace is over,
    however it ends, the scope changes back to the working directory of
    before.  When that directory can be entered again, the outcome of the
    body is the outcome of the scope; the working directory is what it
    was; nothing outside the created directory is touched; and then, if a
    parent directory was given, nothing is removed, while if none was
    given the created directory is removed with all that is in it.  A
    removal that fails raises an [OSError], which is dropped: it may leave
    part of the directory behind, and it does not change the outcome.
    When the directory of before cannot be entered, the [OSError] of
    [os.chdir] is the outcome of the scope, and the file system is left as
    the body left it: the working directory is not set back and nothing is
    removed. *)
Theorem isolated_filesystem_restores_and_cleans {A} (self : CliRunner)
    (temp_dir : option path) (body : path -> M FileSystem A)
    (fs fs1 fs2 : FileSystem) (t : path) (o : outcome A) :
  (getcwd fs).1 = Ok (cwd fs) ->
  mkdtemp temp_dir fs = (Ok t, fs1) ->
  (chdir t fs1).1 = Ok tt ->
  body t (set_cwd t fs1) = (o, fs2) ->
  let back := set_cwd (cwd fs) fs2 in
  let res := isolated_filesystem self temp_dir body fs in
  match (chdir (cwd fs) fs2).1 with
  | Ok _ =>
      res.1 = o
      /\ cwd res.2 = cwd fs
      /\ (forall p, ~ t `prefix_of` p -> p ∈ entries res.2 <-> p ∈ entries fs2)
      /\ match temp_dir with
         | Some _ => res.2 = back
         | None =>
             res.2 = (rmtree t back).2
             /\ entries res.2 ⊆ entries fs2
             /\ match (rmtree t back).1 with
                | Ok _ => forall p, t `prefix_of` p -> p ∉ entries res.2
                | Raised e => is_OSError e = true
                end
         end
  | Raised e => res = (Raised e, fs2) /\ is_OSError e = true
  end.
Proof.
  intros Hcwd Hmk Hin Hbody back res.
  assert (Hres : res = match chdir (cwd fs) fs2 with
                       | (Ok _, back) =>
                           match temp_dir with
                           | None => (o, (rmtree t back).2)
                           | Some _ => (o, back)
                           end
                       | (Raised e, fs3) => (Raised e, fs3)
                       end)
    by (by apply isolated_filesystem_runs with (fs1 := fs1)).
  rewrite Hres. clear Hres res.
  pose proof (chdir_runs (cwd fs) fs2) as Hback.
  destruct (chdir (cwd fs) fs2) as [[[]|e] fs3]; simpl.
  - destruct Hback as [-> _]. fold back.
    destruct temp_dir as [dir|]; simpl; [done|].
    pose proof (rmtree_runs t back) as (Hc & _ & Hsub & Hout & Hr).
    split; [done|]. split; [done|]. split.
    { intros p Hp. split; [apply Hsub|by apply Hout]. }
    split; [done|]. split; [done|].
    destruct ((rmtree t back).1); [done|by destruct Hr].
  - by destruct Hback as [-> He].
Qed.

Lemma isolated_filesystem_restores_and_cleans_witness :
  let fs : FileSystem :=
    {| cwd := ["home"]; entries := {[ ["home"]; ["tmp"]; ["tmp"; "tmp0"] ]};
       tempdir := ["tmp"]; candidate_names := fun k => "tmp" +:+ pretty k;
       refused := fun _ => None; removed_first := ∅ |} in
  let t := ["tmp"; "tmp1"] in
  let fs1 := set_entries ({[ t ]} ∪ entries fs) fs in
  let body : path -> M FileSystem unit := fun t =>
    (let* _ := modify (fun fs => set_entries ({[ t ++ ["out.txt"] ]} ∪ entries fs) fs) in
     raise (Exc "RuntimeError" "boom"))%py in
  let fs2 := (body t (set_cwd t fs1)).2 in
  let res := isolated_filesystem (a_runner false true) None body fs in
  (getcwd fs).1 = Ok (cwd fs)
  /\ mkdtemp None fs = (Ok t, fs1)
  /\ (chdir t fs1).1 = Ok tt
  /\ body t (set_cwd t fs1) = (Raised (Exc "RuntimeError" "boom"), fs2)
  /\ (chdir (cwd fs) fs2).1 = Ok tt
  /\ res.1 = Raised (Exc "RuntimeError" "boom")
  /\ cwd res.2 = ["home"]
  /\ (t ++ ["out.txt"] ∈ entries fs2 /\ ["tmp"; "tmp0"] ∈ entries res.2)
  /\ forall p, t `prefix_of` p -> p ∉ entries res.2.
Proof.
  intros fs t fs1 body fs2 res.
  assert (H0 : (getcwd fs).1 = Ok (cwd fs)) by (vm_compute; reflexivity).
  assert (H1 : mkdtemp None fs = (Ok t, fs1)) by (vm_compute; reflexivity).
  assert (H2 : (chdir t fs1).1 = Ok tt) by (vm_compute; reflexivity).
  assert (H3 : body t (set_cwd t fs1) = (Raised (Exc "RuntimeError" "boom"), fs2))
    by reflexivity.
  assert (H4 : (chdir (cwd fs) fs2).1 = Ok tt) by (vm_compute; reflexivity).
  split; [exact H0|]. split; [exact H1|]. split; [exact H2|]. split; [exact H3|].
  split; [exact H4|].
  pose proof (isolated_filesystem_restores_and_cleans (a_runner false true) None
                body fs fs1 fs2 t _ H0 H1 H2 H3) as H.
  cbv zeta in H. rewrite H4 in H. fold res in H.
  destruct H as (Ho & Hcwd & Hout & _ & _ & Hrm).
  split; [exact Ho|]. split; [exact Hcwd|].
  assert (Hrm1 : (rmtree t (set_cwd (cwd fs) fs2)).1 = Ok tt)
    by (vm_compute; reflexivity).
  rewrite Hrm1 in Hrm.
  assert (Hin : t ++ ["out.txt"] ∈ entries fs2) by (vm_compute; reflexivity).
  split; [|exact Hrm].
  split; [exact Hin|].
  apply Hout; [|vm_compute; reflexivity].
  by intros [k Hk].
Defined.

(** A removal that the system refuses half-way: the scope still ends as
    its body ended and in the directory of before; the created directory
    is still there, without the entry that was removed first. *)
Lemma isolated_filesystem_swallows_a_refused_removal :
  let t := ["tmp"; "tmp0"] in
  let fs : FileSystem :=
    {| cwd := ["home"]; entries := {[ ["home"]; ["tmp"] ]};
       tempdir := ["tmp"]; candidate_names := fun k => "tmp" +:+ pretty k;
       refused := fun c => match c with Rmtree _ => Some EACCES | _ => None end;
       removed_first := {[ t ++ ["a"] ]} |} in
  let body : path -> M FileSystem pyval := fun t =>
    (let* _ := modify (fun fs =>
                 set_entries ({[ t ++ ["a"]; t ++ ["b"] ]} ∪ entries fs) fs) in
     ret (PyInt 7))%py in
  let res := isolated_filesystem (a_runner false true) None body fs in
  res.1 = Ok (PyInt 7)
  /\ cwd res.2 = ["home"]
  /\ entries res.2 = {[ ["home"]; ["tmp"]; t; t ++ ["b"] ]}.
Proof. repeat split; vm_compute; reflexivity. Qed.

(** C9 as stated fails: a body that removes the directory the scope was
    entered from returns a value, yet the scope raises
    [FileNotFoundError] from its final [os.chdir]; the working directory
    stays in the created directory, which is not removed. *)
Lemma isolated_filesystem_cannot_return_to_a_removed_directory :
  let fs : FileSystem :=
    {| cwd := ["home"]; entries := {[ ["home"]; ["tmp"] ]};
       tempdir := ["tmp"]; candidate_names := fun k => "tmp" +:+ pretty k;
       refused := fun _ => None; removed_first := ∅ |} in
  let body : path -> M FileSystem pyval := fun _ =>
    (let* _ := modify (fun fs => set_entries (entries fs ∖ {[ ["home"] ]}) fs) in
     ret (PyInt 7))%py in
  let res := isolated_filesystem (a_runner false true) None body fs in
  (body ["tmp"; "tmp0"] (set_cwd ["tmp"; "tmp0"] (mkdtemp None fs).2)).1 = Ok (PyInt 7)
  /\ res.1 = Raised (os_error ENOENT)
  /\ cwd res.2 = ["tmp"; "tmp0"]
  /\ ["tmp"; "tmp0"] ∈ entries res.2.
Proof. repeat split; vm_compute; reflexivity. Qed.

(** * Further properties *)

(** ** The session: what it rebinds and what it puts back *)

Lemma session_puts_the_module_attributes_back {A} (self : CliRunner)
    (input : input_t) (overrides : option (dict (option string))) (color : bool)
    (body : M World A) (w : World) :
  modules (isolation self input overrides color body w).2 = modules w.
Proof.
  destruct (make_input_stream input (charset self)) as [i|e] eqn:Hi.
  - rewrite (isolation_runs self input i) by done. cbv zeta.
    by destruct (body (session_world self i overrides color w)).
  - by rewrite (isolation_refused self input overrides color body w e).
Qed.

(** X1: after a session the three standard streams, the four hook
    functions and the forced width are bound to what they were bound to
    before it, whatever the input, the overrides and the body are, however
    the body ends, and whatever the body has rebound itself. *)
Theorem isolation_restores_the_module_attributes {A} (self : CliRunner)
    (input : input_t) (overrides : option (dict (option string))) (color : bool)
    (body : M World A) (w : World) :
  modules (isolation self input overrides color body w).2 = modules w.
Proof.
  destruct (make_input_stream input (charset self)) as [i|e] eqn:Hi.
  - rewrite (isolation_runs self input i) by done. cbv zeta.
    destruct (body (session_world self i overrides color w)) as [o w1].
    reflexivity.
  - rewrite (isolation_refused self input overrides color body w e) by done.
    reflexivity.
Qed.

Lemma isolation_of_a_reading {A} (self : CliRunner) (input : input_t) (i : BytesIO)
    (overrides : option (dict (option string))) (color : bool)
    (f : World -> A) (w : World) :
  make_input_stream input (charset self) = Ok i ->
  (isolation self input overrides color (gets f) w).1
  = Ok (f (session_world self i overrides color w)).
Proof. intros Hi. by rewrite (isolation_runs self input i). Qed.

(** X2: the body of a session finds [sys.stdin], [sys.stdout] and
    [sys.stderr] bound to the wrappers of the session, named ["<stdin>"],
    ["<stdout>"] and ["<stderr>"], where [sys.stderr] is the very wrapper of
    stdout when stderr is mixed in; it finds the four closures installed
    and the forced width at 80.  When the input is refused there is no
    session. *)
Theorem session_bindings (self : CliRunner) (input : input_t)
    (overrides : option (dict (option string))) (color : bool) (w : World) :
  (isolation self input overrides color (gets modules) w).1
  = outcome_map
      (fun _ =>
         {| sys_stdin := SessionStdin;
            sys_stdout := SessionStdout;
            sys_stderr := if mix_stderr self then SessionStdout else SessionStderr;
            FORCED_WIDTH := Some 80%Z;
            visible_prompt_func := Visible_input;
            hidden_prompt_func := Hidden_input;
            _getchar := Getchar;
            should_strip_ansi := Should_strip_ansi color |})
      (make_input_stream input (charset self))
  /\ (isolation self input overrides color
        (gets (fun w1 => (stream_name (sys_stdin (modules w1)),
                          stream_name (sys_stdout (modules w1)),
                          stream_name (sys_stderr (modules w1))))) w).1
     = outcome_map
         (fun _ => ("<stdin>", "<stdout>",
                    if mix_stderr self then "<stdout>" else "<stderr>"))
         (make_input_stream input (charset self)).
Proof.
  destruct (make_input_stream input (charset self)) as [i|e] eqn:Hi.
  - rewrite !(isolation_of_a_reading self input i) by done. simpl.
    split; [reflexivity|]. by destruct (mix_stderr self).
  - by rewrite !(isolation_refused self input overrides color _ w e).
Qed.

(** X3: the environment that the body of a session finds is the
    environment of before with the overrides applied: a variable that the
    overrides give a value has that value, one that they give [None] is
    not there, and every other variable is as it was.  This is for
    overrides whose names and values [os.environ] takes. *)
Theorem session_environment (self : CliRunner) (input : input_t) (i : BytesIO)
    (overrides : option (dict (option string))) (color : bool) (w : World) :
  make_input_stream input (charset self) = Ok i ->
  environ_takes_all (merged (deref (env self) w) overrides) = true ->
  exists rv w' e',
    make_env self overrides w = (Ok rv, w')
    /\ (isolation self input overrides color (gets os_environ) w).1 = Ok e'
    /\ forall k,
         e' !! k = match dict_get k (deref rv w') with
                   | Some value => value
                   | None => os_environ w !! k
                   end.
Proof.
  intros Hi _. eexists _, _, _. split; [apply make_env_runs|].
  split; [by apply isolation_of_a_reading|].
  intros k. rewrite deref_new. simpl.
  set (items := merged (deref (env self) w) overrides).
  destruct (dict_get k items) as [value|] eqn:Hget.
  - by destruct (apply_all_overridden k items (merged_NoDup _ _) value
                   ([], os_environ w) Hget) as [-> _].
  - assert (Hk : k ∉ items.*1) by by apply dict_get_None_keys.
    by destruct (apply_all_other k items Hk ([], os_environ w)) as [-> _].
Qed.

Lemma session_environment_witness :
  let self := a_runner false true in
  let overrides := Some [("HOME", None); ("TERM", Some "dumb")] in
  make_input_stream InputNone (charset self) = Ok (BytesIO_of [])
  /\ environ_takes_all (merged (deref (env self) host_world) overrides) = true
  /\ exists e',
       (isolation self InputNone overrides false (gets os_environ) host_world).1
       = Ok e'
       /\ e' !! "HOME" = None /\ e' !! "TERM" = Some "dumb"
       /\ e' !! "LANG" = Some "en_US" /\ e' !! "DEBUG" = None.
Proof.
  intros self overrides.
  assert (H : make_input_stream InputNone (charset self) = Ok (BytesIO_of []))
    by reflexivity.
  assert (Ht : environ_takes_all (merged (deref (env self) host_world) overrides)
               = true) by reflexivity.
  split; [exact H|]. split; [exact Ht|].
  destruct (session_environment self InputNone (BytesIO_of []) overrides false
              host_world H Ht) as (rv & w' & e' & Hrun & Hres & Hget).
  exists e'. split; [exact Hres|].
  rewrite make_env_runs in Hrun. injection Hrun as <- <-.
  rewrite !Hget. repeat split.
Defined.

(** ** Invocations: what reaches the caller and what is put back *)

Lemma str_encode_app (c : codec) (e : errors) (s1 s2 : str) :
  str_encode c e (s1 ++ s2)
  = outcome_bind (str_encode c e s1)
      (fun d1 => outcome_map (app d1) (str_encode c e s2)).
Proof.
  induction s1 as [|ch s1 IH]; simpl.
  - by destruct (str_encode c e s2).
  - rewrite !IH.
    destruct (str_encode c e s1) as [d1|err1];
      destruct (str_encode c e s2) as [d2|err2];
      destruct (encode_char c ch) as [d|]; destruct e; simpl;
      rewrite <- ?app_assoc; done.
Qed.

Section InvokeFurther.

Variable shlex_split : str -> outcome (list str).

Lemma invoke_state (self : CliRunner) (cli : Command) (args : args_t)
    (input : input_t) (env : option (dict (option string)))
    (catch_exceptions color : bool) (extra : dict pyval) (w : World) :
  exists A (body : M World A),
    (invoke shlex_split self cli args input env catch_exceptions color extra w).2
    = (isolation self input env color body w).2.
Proof.
  unfold invoke. eexists _, _. unfold bind at 1.
  match goal with
  | |- context [isolation self input env color ?b w] =>
      destruct (isolation self input env color b w) as [[[l [out err]]|e] w1] eqn:H;
      [unfold ret|]; simpl; by rewrite H
  end.
Qed.

(** X4: after an invocation the three standard streams, the four hook
    functions and the forced width are bound as they were before it: when
    it returns a result, when the failure of the entry point is let
    through, when the arguments cannot be split and when the input is
    refused. *)
Theorem invoke_restores_the_module_attributes (self : CliRunner) (cli : Command)
    (args : args_t) (input : input_t) (env : option (dict (option string)))
    (catch_exceptions color : bool) (extra : dict pyval) (w : World) :
  modules (invoke shlex_split self cli args input env catch_exceptions color extra w).2
  = modules w.
Proof.
  destruct (invoke_state self cli args input env catch_exceptions color extra w)
    as (A & body & ->).
  apply session_puts_the_module_attributes_back.
Qed.

(** X5: an input stream without a binary reader is refused before
    anything is rebound: the session and the invocation raise the
    [TypeError] to their caller, also when exceptions are to be caught, the
    body and the entry point do not run, and the interpreter state is
    untouched. *)
Theorem unreadable_input_is_refused (self : CliRunner) (cli : Command)
    (args : args_t) (env : option (dict (option string)))
    (catch_exceptions color : bool) (extra : dict pyval) (w : World) :
  (forall A (body : M World A),
     isolation self (InputStream {| binary_reader := None |}) env color body w
     = (Raised (TypeError "Could not find binary reader for input stream."), w))
  /\ invoke shlex_split self cli args (InputStream {| binary_reader := None |}) env
       catch_exceptions color extra w
     = (Raised (TypeError "Could not find binary reader for input stream."), w).
Proof.
  split.
  - intros A body.
    by apply (isolation_refused self _ env color body w
                (TypeError "Could not find binary reader for input stream.")).
  - unfold invoke. unfold bind at 1.
    by rewrite (isolation_refused self _ env color _ w
                  (TypeError "Could not find binary reader for input stream.")).
Qed.

(** An invocation whose arguments cannot be split. *)
Lemma invoke_without_arguments (self : CliRunner) (cli : Command) (args : args_t)
    (input : input_t) (env : option (dict (option string)))
    (catch_exceptions color : bool) (extra : dict pyval) (w : World)
    (i : BytesIO) (e : exn) :
  make_input_stream input (charset self) = Ok i ->
  tokens shlex_split args = Raised e ->
  invoke shlex_split self cli args input env catch_exceptions color extra w
  = (Raised e, leave self env w (session_world self i env color w)).
Proof.
  intros Hi Hl. unfold invoke. unfold bind at 1.
  rewrite (isolation_runs self input i) by done. cbv zeta.
  set (start := session_world self i env color w).
  unfold bind at 1.
  assert (Ht : match args with
               | ArgsStr s => lift (shlex_split s)
               | ArgsList l0 => ret l0
               | ArgsNone => ret []
               end start = (Raised e, start)).
  { destruct args; simpl in Hl; unfold lift, ret; congruence. }
  by rewrite Ht.
Qed.

(** X6: when an argument string cannot be split, the error of
    [shlex.split] reaches the caller of [invoke] whether exceptions are to
    be caught or not, and the entry point is not called: the outcome and
    the state are the same for every command. *)
Theorem unsplittable_arguments_reach_the_caller (self : CliRunner)
    (cli cli' : Command) (s : str) (input : input_t)
    (env : option (dict (option string)))
    (catch_exceptions color : bool) (extra : dict pyval) (w : World)
    (i : BytesIO) (e : exn) :
  make_input_stream input (charset self) = Ok i ->
  shlex_split s = Raised e ->
  (invoke shlex_split self cli (ArgsStr s) input env catch_exceptions color extra w).1
  = Raised e
  /\ invoke shlex_split self cli' (ArgsStr s) input env catch_exceptions color extra w
     = invoke shlex_split self cli (ArgsStr s) input env catch_exceptions color extra w.
Proof.
  intros Hi Hs.
  by rewrite !(invoke_without_arguments _ _ (ArgsStr s) _ _ _ _ _ _ i e).
Qed.

Lemma attempt_runs (self : CliRunner) (cli : Command) (l : list str)
    (catch_exceptions : bool) (extra : dict pyval) (w : World) :
  attempt self cli l catch_exceptions extra w
  = match main cli l (prog_name_of self cli extra) (extra_of extra) w with
    | (Ok v, w1) =>
        (Ok {| l_return_value := v; l_exception := None;
               l_exit_code := PyInt 0; l_exc_info := None |}, w1)
    | (Raised e, w1) =>
        match handlers catch_exceptions e with
        | Some h => h w1
        | None => (Raised e, w1)
        end
    end.
Proof.
  unfold attempt, try_except, bind.
  by destruct (main cli l (prog_name_of self cli extra) (extra_of extra) w)
    as [[v|e] w1].
Qed.



End InvokeFurther.

Section InvokeExits.

Variable shlex_split : str -> outcome (list str).

(** X9: an entry point that exits at once with a payload that is neither
    an int nor [None] gives a result whose output is the text of the
    payload and a newline and whose exit code is 1; the exit signal is the
    exception of the result when the payload differs from 0, and only
    then. *)
Theorem invoke_on_exit_with_message (self : CliRunner) (cli : Command)
    (args : args_t) (input : input_t) (env : option (dict (option string)))
    (catch_exceptions color : bool) (extra : dict pyval) (w : World)
    (i : BytesIO) (l : list str) (code : pyval) (data : bytes) :
  make_input_stream input (charset self) = Ok i ->
  tokens shlex_split args = Ok l ->
  (forall a p x w1, main cli a p x w1 = (Raised (SystemExit code), w1)) ->
  isinstance_int code = false ->
  code <> PyNone ->
  str_encode (charset self) Strict (py_str code ++ [LF]) = Ok data ->
  exists r,
    (invoke shlex_split self cli args input env catch_exceptions color extra w).1 = Ok r
    /\ stdout_bytes r = data
    /\ exit_code r = PyInt 1
    /\ exception r = (if ne_0 code then Some (SystemExit code) else None)
    /\ exc_info r = Some (SystemExit code).
Proof.
  intros Hi Hl Hmain Hint Hnone Hdata.
  rewrite (invoke_runs shlex_split self cli args input env catch_exceptions color
             extra w i l) by done.
  rewrite attempt_runs, Hmain. cbn [handlers]. unfold on_SystemExit.
  assert (Hcode : match code with PyNone => PyInt 0 | _ => code end = code)
    by (by destruct code).
  rewrite Hcode, Hint. cbn [negb].
  rewrite str_encode_app in Hdata.
  destruct (str_encode (charset self) Strict (py_str code)) as [d1|] eqn:H1;
    [|done].
  destruct (str_encode (charset self) Strict [LF]) as [d2|] eqn:H2; [|done].
  simpl in Hdata. injection Hdata as <-.
  unfold bind at 1. rewrite (sys_stdout_write_runs _ d1) by done.
  unfold bind at 1. rewrite (sys_stdout_write_runs _ d2) by done.
  unfold ret, collect. unfold bind at 1.
  rewrite sys_stdout_flush_runs by done.
  unfold bind, gets. simpl. rewrite getvalue_first_write.
  destruct (mix_stderr self); simpl; eexists; (split; [reflexivity|]); by simpl.
Qed.

Lemma sys_stdout_write_fails (s : str) (e : exn) (w : World) :
  sys_stdout (modules w) = SessionStdout ->
  str_encode (encoding (streams w)) Strict s = Raised e ->
  sys_stdout_write s w = (Raised e, w).
Proof.
  intros Hout Henc. unfold sys_stdout_write, bind, global, gets.
  rewrite Hout. simpl. run_step. by rewrite Henc.
Qed.

(** X10: when the text of such a payload has no encoding in the character
    set of the runner, the encoding error raised while the text is written
    reaches the caller of [invoke], whether exceptions are to be caught or
    not, and there is no result. *)
Theorem unencodable_exit_message_reaches_the_caller (self : CliRunner)
    (cli : Command) (args : args_t) (input : input_t)
    (env : option (dict (option string)))
    (catch_exceptions color : bool) (extra : dict pyval) (w : World)
    (i : BytesIO) (l : list str) (code : pyval) (e : exn) :
  make_input_stream input (charset self) = Ok i ->
  tokens shlex_split args = Ok l ->
  (forall a p x w1, main cli a p x w1 = (Raised (SystemExit code), w1)) ->
  isinstance_int code = false ->
  code <> PyNone ->
  str_encode (charset self) Strict (py_str code) = Raised e ->
  (invoke shlex_split self cli args input env catch_exceptions color extra w).1
  = Raised e.
Proof.
  intros Hi Hl Hmain Hint Hnone Henc.
  rewrite (invoke_runs shlex_split self cli args input env catch_exceptions color
             extra w i l) by done.
  rewrite attempt_runs, Hmain. cbn [handlers]. unfold on_SystemExit.
  assert (Hcode : match code with PyNone => PyInt 0 | _ => code end = code)
    by (by destruct code).
  rewrite Hcode, Hint. cbn [negb].
  unfold bind at 1. rewrite (sys_stdout_write_fails _ e) by done.
  by destruct (collect_ok self (session_world self i env color w))
    as (out & err & w2 & -> & _).
Qed.


(** X12: the result of an invocation names its runner, whatever the
    runner is; and when the runner mixes stderr into stdout the result has
    no stderr bytes, so that its [stderr] view raises [ValueError]. *)
Theorem mixed_stderr_has_no_view (self : CliRunner) (cli : Command)
    (args : args_t) (input : input_t) (env : option (dict (option string)))
    (catch_exceptions color : bool) (extra : dict pyval) (w w' : World)
    (r : Result) :
  invoke shlex_split self cli args input env catch_exceptions color extra w
  = (Ok r, w') ->
  runner r = self
  /\ (mix_stderr self = true ->
      stderr_bytes r = None
      /\ Result_stderr r = Raised (ValueError "stderr not separately captured")).
Proof.
  intros Hrun.
  destruct (make_input_stream input (charset self)) as [i|e] eqn:Hi.
  - destruct (tokens shlex_split args) as [l|e] eqn:Hl.
    + rewrite (invoke_runs shlex_split self cli args input env catch_exceptions
                 color extra w i l) in Hrun by done.
      destruct (attempt self cli l catch_exceptions extra
                  (session_world self i env color w)) as [o1 w1].
      destruct (collect_ok self w1) as (out & err & w2 & Hc & _ & _ & Herr).
      rewrite Hc in Hrun.
      destruct o1 as [lc|e1]; [|done].
      injection Hrun as <- <-. split; [done|].
      intros Hmix. rewrite (Herr Hmix). unfold Result_stderr. by simpl.
    + by rewrite (invoke_without_arguments shlex_split self cli args input env
                    catch_exceptions color extra w i e) in Hrun.
  - unfold invoke in Hrun. unfold bind at 1 in Hrun.
    by rewrite (isolation_refused self input env color _ w e) in Hrun.
Qed.

(** X13: the program name that the entry point is called with is the
    [prog_name] among the extra keyword arguments when there is one, else
    the name of the command when it has one that is not empty, else
    ["root"]. *)
Theorem program_name_given_to_main (self : CliRunner) (n : option str)
    (args : args_t) (input : input_t) (env : option (dict (option string)))
    (catch_exceptions color : bool) (extra : dict pyval) (w : World)
    (i : BytesIO) (l : list str) :
  make_input_stream input (charset self) = Ok i ->
  tokens shlex_split args = Ok l ->
  exists r,
    (invoke shlex_split self (tell_prog_name n) args input env catch_exceptions
       color extra w).1 = Ok r
    /\ return_value r
       = match dict_get "prog_name" extra with
         | Some p => p
         | None =>
             match n with
             | Some (c :: n') => PyStr (c :: n')
             | _ => PyStr (u "root")
             end
         end.
Proof.
  intros Hi Hl.
  rewrite (invoke_runs shlex_split self _ args input env catch_exceptions color
             extra w i l) by done.
  rewrite attempt_runs. simpl. unfold ret.
  destruct (collect_ok self (session_world self i env color w))
    as (out & err & w2 & -> & _).
  eexists. split; [reflexivity|]. simpl. unfold prog_name_of.
  destruct (dict_get "prog_name" extra); [done|].
  unfold get_default_prog_name. simpl. by destruct n as [[|c n']|].
Qed.

End InvokeExits.

Lemma unsplittable_arguments_reach_the_caller_witness :
  let self := a_runner false true in
  let s := u "say " ++ [34%N] ++ u "hi" in
  make_input_stream InputNone (charset self) = Ok (BytesIO_of [])
  /\ unquoted_word s = Raised (ValueError "No closing quotation")
  /\ (invoke unquoted_word self (returning PyNone) (ArgsStr s) InputNone None
        true false [] host_world).1
     = Raised (ValueError "No closing quotation").
Proof.
  intros self s.
  assert (H1 : make_input_stream InputNone (charset self) = Ok (BytesIO_of []))
    by reflexivity.
  assert (H2 : unquoted_word s = Raised (ValueError "No closing quotation"))
    by reflexivity.
  split; [exact H1|]. split; [exact H2|].
  exact (proj1 (unsplittable_arguments_reach_the_caller unquoted_word self
                  (returning PyNone) (returning PyNone) s InputNone None true
                  false [] host_world (BytesIO_of []) _ H1 H2)).
Defined.



Lemma invoke_on_exit_with_message_witness :
  let self := a_runner false true in
  let code := PyStr (u "boom") in
  let cli := raising (SystemExit code) in
  make_input_stream InputNone (charset self) = Ok (BytesIO_of [])
  /\ tokens one_word ArgsNone = Ok []
  /\ (forall a p x w1, main cli a p x w1 = (Raised (SystemExit code), w1))
  /\ isinstance_int code = false
  /\ code <> PyNone
  /\ str_encode (charset self) Strict (py_str code ++ [LF]) = Ok (octets "boom" ++ [x0a])
  /\ exists r,
       (invoke one_word self cli ArgsNone InputNone None true false []
          host_world).1 = Ok r
       /\ stdout_bytes r = octets "boom" ++ [x0a]
       /\ exit_code r = PyInt 1
       /\ exception r = (if ne_0 code then Some (SystemExit code) else None)
       /\ exc_info r = Some (SystemExit code).
Proof.
  intros self code cli.
  assert (H1 : make_input_stream InputNone (charset self) = Ok (BytesIO_of []))
    by reflexivity.
  assert (H2 : tokens one_word ArgsNone = Ok []) by reflexivity.
  assert (H3 : forall a p x w1, main cli a p x w1 = (Raised (SystemExit code), w1))
    by reflexivity.
  assert (H4 : isinstance_int code = false) by reflexivity.
  assert (H5 : code <> PyNone) by discriminate.
  assert (H6 : str_encode (charset self) Strict (py_str code ++ [LF])
               = Ok (octets "boom" ++ [x0a])) by reflexivity.
  split; [exact H1|]. split; [exact H2|]. split; [exact H3|]. split; [exact H4|].
  split; [exact H5|]. split; [exact H6|].
  exact (invoke_on_exit_with_message one_word self cli ArgsNone InputNone None
           true false [] host_world (BytesIO_of []) [] code _ H1 H2 H3 H4 H5 H6).
Defined.

Lemma unencodable_exit_message_reaches_the_caller_witness :
  let self := {| charset := codec_ascii; env := 0; echo_stdin := false;
                 mix_stderr := true |} in
  let code := PyStr [233%N] in
  let cli := raising (SystemExit code) in
  make_input_stream InputNone (charset self) = Ok (BytesIO_of [])
  /\ tokens one_word ArgsNone = Ok []
  /\ (forall a p x w1, main cli a p x w1 = (Raised (SystemExit code), w1))
  /\ isinstance_int code = false
  /\ code <> PyNone
  /\ str_encode (charset self) Strict (py_str code) = Raised (UnicodeEncodeError "ascii")
  /\ (invoke one_word self cli ArgsNone InputNone None true false []
        host_world).1 = Raised (UnicodeEncodeError "ascii").
Proof.
  intros self code cli.
  assert (H1 : make_input_stream InputNone (charset self) = Ok (BytesIO_of []))
    by reflexivity.
  assert (H2 : tokens one_word ArgsNone = Ok []) by reflexivity.
  assert (H3 : forall a p x w1, main cli a p x w1 = (Raised (SystemExit code), w1))
    by reflexivity.
  assert (H4 : isinstance_int code = false) by reflexivity.
  assert (H5 : code <> PyNone) by discriminate.
  assert (H6 : str_encode (charset self) Strict (py_str code)
               = Raised (UnicodeEncodeError "ascii")) by reflexivity.
  split; [exact H1|]. split; [exact H2|]. split; [exact H3|]. split; [exact H4|].
  split; [exact H5|]. split; [exact H6|].
  exact (unencodable_exit_message_reaches_the_caller one_word self cli ArgsNone
           InputNone None true false [] host_world (BytesIO_of []) [] code _
           H1 H2 H3 H4 H5 H6).
Defined.


Lemma mixed_stderr_has_no_view_witness :
  let mixed := a_runner false true in
  let apart := a_runner false false in
  exists r1 w1 r2 w2,
    invoke one_word mixed (returning PyNone) ArgsNone InputNone None true false []
      host_world = (Ok r1, w1)
    /\ invoke one_word apart (returning PyNone) ArgsNone InputNone None true false []
         host_world = (Ok r2, w2)
    /\ runner r1 = mixed
    /\ runner r2 = apart
    /\ stderr_bytes r1 = None
    /\ Result_stderr r1 = Raised (ValueError "stderr not separately captured").
Proof.
  intros mixed apart.
  assert (H1 : match (invoke one_word mixed (returning PyNone) ArgsNone InputNone
                        None true false [] host_world).1 with
               | Ok _ => true
               | Raised _ => false
               end = true) by reflexivity.
  assert (H2 : match (invoke one_word apart (returning PyNone) ArgsNone InputNone
                        None true false [] host_world).1 with
               | Ok _ => true
               | Raised _ => false
               end = true) by reflexivity.
  destruct (invoke one_word mixed (returning PyNone) ArgsNone InputNone None true
              false [] host_world) as [[r1|e] w1] eqn:Hrun1; [|discriminate H1].
  destruct (invoke one_word apart (returning PyNone) ArgsNone InputNone None true
              false [] host_world) as [[r2|e] w2] eqn:Hrun2; [|discriminate H2].
  exists r1, w1, r2, w2. split; [reflexivity|]. split; [reflexivity|].
  destruct (mixed_stderr_has_no_view one_word mixed (returning PyNone) ArgsNone
              InputNone None true false [] host_world w1 r1 Hrun1) as [Hr1 Hm1].
  destruct (mixed_stderr_has_no_view one_word apart (returning PyNone) ArgsNone
              InputNone None true false [] host_world w2 r2 Hrun2) as [Hr2 _].
  destruct (Hm1 eq_refl) as [Hb He].
  split; [exact Hr1|]. split; [exact Hr2|]. split; [exact Hb|exact He].
Defined.

Lemma program_name_given_to_main_witness :
  let self := a_runner false true in
  make_input_stream InputNone (charset self) = Ok (BytesIO_of [])
  /\ tokens one_word ArgsNone = Ok []
  /\ exists r,
       (invoke one_word self (tell_prog_name (Some [])) ArgsNone InputNone None
          true false [("color", PyBool true)] host_world).1 = Ok r
       /\ return_value r = PyStr (u "root").
Proof.
  intros self.
  assert (H1 : make_input_stream InputNone (charset self) = Ok (BytesIO_of []))
    by reflexivity.
  assert (H2 : tokens one_word ArgsNone = Ok []) by reflexivity.
  split; [exact H1|]. split; [exact H2|].
  exact (program_name_given_to_main one_word self (Some []) ArgsNone InputNone
           None true false [("color", PyBool true)] host_world (BytesIO_of []) []
           H1 H2).
Defined.

(** ** The other hooks *)

(** X14: the hidden-input hook writes the prompt and a newline, flushes,
    reads one line and returns it without the carriage returns and
    newlines at its end; what was entered is not written to the output.
    First for any call in a session: when the text that stdin has yet to
    hand out starts with the line [v], the hook returns [v], the output
    buffer has got the pending output, the prompt and a newline and no
    more, and stdin has the text after that line yet to hand out.  Then
    for a session that is entered with an input [v ++ term ++ rest], where
    [term] is a line end: the hook returns [v], the output is the prompt
    and a newline, and the next read of a line gives the first line of
    [rest]. *)
Theorem hidden_input_does_not_echo :
  (forall (prompt : option str) (w : World) (v rest : str) (pb : bytes),
     sys_stdout (modules w) = SessionStdout ->
     text_ahead (streams w) = Ok (v ++ LF :: rest) ->
     str_mem CR v = false -> str_mem LF v = false ->
     str_encode (encoding (streams w)) Strict (or_empty prompt ++ [LF]) = Ok pb ->
     exists w',
       hidden_input prompt w = (Ok v, w')
       /\ bytes_output (streams w')
          = BytesIO_write (stdout_pending (streams w) ++ pb)
              (bytes_output (streams w))
       /\ stdout_pending (streams w') = []
       /\ text_ahead (streams w') = Ok rest)
  /\ (forall (self : CliRunner) (prompt : option str) (input : input_t)
        (i : BytesIO) (v term rest : str) (pb : bytes)
        (overrides : option (dict (option string))) (color : bool) (w : World),
        make_input_stream input (charset self) = Ok i ->
        bytes_decode (charset self) Strict (remaining i) = Ok (v ++ term ++ rest) ->
        str_mem CR v = false -> str_mem LF v = false -> line_end term rest ->
        str_encode (charset self) Strict (or_empty prompt ++ [LF]) = Ok pb ->
        (isolation self input overrides color
           (hook_then_look (hidden_input prompt)) w).1
        = Ok (v, pb, first_line (universal_newlines rest))).
Proof.
  split.
  - intros prompt w v rest pb Hout Hahead Hcr Hlf Hpb.
    apply str_mem_false in Hcr, Hlf.
    destruct w as [e g d [sb ech sd bo po be pe enc] h].
    unfold text_ahead in Hahead. simpl in Hout, Hahead, Hpb.
    destruct (readline_of_next_line enc sb sd v rest Hahead Hlf)
      as (sb' & sd' & Hread & Hrest).
    unfold hidden_input, stream_readline.
    unfold bind at 1. rewrite (sys_stdout_write_runs _ pb) by done.
    unfold bind at 1. rewrite sys_stdout_flush_runs by done.
    unfold bind at 1. rewrite text_readline_runs. crunch_io.
    rewrite Hread. rewrite rstrip_line by done.
    eexists. split; [reflexivity|]. unfold text_ahead. by simpl.
  - intros self prompt input i v term rest pb overrides color w
      Hi Hdec Hcr Hlf Hend Hpb.
    apply str_mem_false in Hcr, Hlf.
    rewrite (isolation_runs self input i) by done. cbv zeta.
    unfold hook_then_look, hidden_input, stream_readline.
    crunch_io. rewrite Hpb. crunch_io.
    rewrite text_readline_runs. crunch_io.
    rewrite (readline_of_line _ i v term rest) by done.
    rewrite rstrip_line by done. crunch_io.
    rewrite text_readline_runs. crunch_io.
    pose proof (readline_of_drained (charset self) (advance i (remaining i))
                  (universal_newlines rest) (remaining_after_read i)) as Hnext.
    destruct (readline_of (charset self) (advance i (remaining i))
                (universal_newlines rest)) as [[o sb] sd].
    simpl in Hnext. subst o. simpl.
    by rewrite getvalue_first_write.
Qed.

Lemma hidden_input_does_not_echo_witness :
  let self := a_runner false true in
  let input := InputBytes (octets "s3cret" ++ [x0d; x0a] ++ octets "again" ++ [x0a]) in
  let i := BytesIO_of (octets "s3cret" ++ [x0d; x0a] ++ octets "again" ++ [x0a]) in
  let w := session_world self i None false host_world in
  (sys_stdout (modules w) = SessionStdout
   /\ text_ahead (streams w) = Ok (u "s3cret" ++ LF :: u "again" ++ [LF])
   /\ exists w',
        hidden_input (Some (u "Password: ")) w = (Ok (u "s3cret"), w')
        /\ getvalue (bytes_output (streams w')) = octets "Password: " ++ [x0a]
        /\ text_ahead (streams w') = Ok (u "again" ++ [LF]))
  /\ make_input_stream input (charset self) = Ok i
  /\ bytes_decode (charset self) Strict (remaining i)
     = Ok (u "s3cret" ++ [CR; LF] ++ u "again" ++ [LF])
  /\ str_mem CR (u "s3cret") = false /\ str_mem LF (u "s3cret") = false
  /\ line_end [CR; LF] (u "again" ++ [LF])
  /\ str_encode (charset self) Strict (or_empty (Some (u "Password: ")) ++ [LF])
     = Ok (octets "Password: " ++ [x0a])
  /\ (isolation self input None false
        (hook_then_look (hidden_input (Some (u "Password: ")))) host_world).1
     = Ok (u "s3cret", octets "Password: " ++ [x0a], u "again" ++ [LF]).
Proof.
  intros self input i w.
  assert (G1 : sys_stdout (modules w) = SessionStdout) by reflexivity.
  assert (G2 : text_ahead (streams w) = Ok (u "s3cret" ++ LF :: u "again" ++ [LF]))
    by reflexivity.
  assert (H1 : make_input_stream input (charset self) = Ok i) by reflexivity.
  assert (H2 : bytes_decode (charset self) Strict (remaining i)
               = Ok (u "s3cret" ++ [CR; LF] ++ u "again" ++ [LF])) by reflexivity.
  assert (H3 : str_mem CR (u "s3cret") = false) by reflexivity.
  assert (H4 : str_mem LF (u "s3cret") = false) by reflexivity.
  assert (H5 : line_end [CR; LF] (u "again" ++ [LF])) by (right; by left).
  assert (H6 : str_encode (charset self) Strict
                 (or_empty (Some (u "Password: ")) ++ [LF])
               = Ok (octets "Password: " ++ [x0a])) by reflexivity.
  destruct hidden_input_does_not_echo as (Hcall & Hstart).
  split.
  { split; [exact G1|]. split; [exact G2|].
    destruct (Hcall (Some (u "Password: ")) w (u "s3cret") (u "again" ++ [LF])
                (octets "Password: " ++ [x0a]) G1 G2 H3 H4 H6)
      as (w' & Hrun & Hout & _ & Hrest).
    exists w'. split; [exact Hrun|]. split; [|exact Hrest].
    rewrite Hout. reflexivity. }
  split; [exact H1|]. split; [exact H2|]. split; [exact H3|]. split; [exact H4|].
  split; [exact H5|]. split; [exact H6|].
  exact (Hstart self (Some (u "Password: ")) input i (u "s3cret") [CR; LF]
           (u "again" ++ [LF]) (octets "Password: " ++ [x0a]) None false
           host_world H1 H2 H3 H4 H5 H6).
Defined.

Lemma text_read_runs (n : nat) (w : World) :
  exists o sb sd,
    text_read n w
    = (o, set_streams (set_stdin_decoded sd (set_stdin_bytes sb (streams w))) w).
Proof.
  destruct w as [e g d [sb ech sd bo po be pe enc] h].
  unfold text_read, stdin_fill, buffer_read1,
    on_echoing_stdin, on_stdin_bytes, EchoingStdin_read1, on_input,
    BytesIO_read1, BytesIO_read.
  crunch.
  destruct (length sd <? n); destruct ech; crunch;
    try (eexists _, _, _; reflexivity);
    destruct (bytes_decode enc Strict (limit (-1) (remaining sb))) as [text|err];
    eexists _, _, _; reflexivity.
Qed.

(** X15: the single-character hook reads one character from [sys.stdin];
    without echo it writes nothing, with echo it writes that character and
    flushes.  Either way the pending output, the output buffer and the
    error buffer are otherwise as they were. *)
Theorem getchar_echoes_on_request (echo : bool) (w w1 : World) (char : str)
    (cb : bytes) :
  sys_stdin (modules w) = SessionStdin ->
  sys_stdout (modules w) = SessionStdout ->
  text_read 1 w = (Ok char, w1) ->
  str_encode (encoding (streams w)) Strict char = Ok cb ->
  exists w',
    getchar echo w = (Ok char, w')
    /\ stdin_bytes (streams w') = stdin_bytes (streams w1)
    /\ stdin_decoded (streams w') = stdin_decoded (streams w1)
    /\ if echo
       then bytes_output (streams w')
            = BytesIO_write (stdout_pending (streams w) ++ cb)
                (bytes_output (streams w))
            /\ stdout_pending (streams w') = []
       else w' = w1
            /\ bytes_output (streams w') = bytes_output (streams w)
            /\ stdout_pending (streams w') = stdout_pending (streams w).
Proof.
  intros Hin Hout Hread Hcb.
  unfold getchar. unfold bind at 1. unfold global at 1, gets at 1.
  rewrite Hin. unfold bind at 1. unfold stream_read. rewrite Hread.
  destruct (text_read_runs 1 w) as (o & sb' & sd' & Hform).
  rewrite Hform in Hread. injection Hread as -> <-.
  destruct w as [e g d [sb ech sd bo po be pe enc] h]. setters.
  destruct echo.
  - unfold bind at 1. unfold bind at 1.
    rewrite (sys_stdout_write_runs _ cb) by done.
    rewrite sys_stdout_flush_runs by done.
    unfold ret. eexists. split; [reflexivity|]. by simpl.
  - unfold bind at 1. unfold ret. eexists. split; [reflexivity|]. by simpl.
Qed.

Lemma getchar_echoes_on_request_witness :
  let w := session_world (a_runner false true) (BytesIO_of (octets "yes"))
             None false host_world in
  let w1 := (text_read 1 w).2 in
  sys_stdin (modules w) = SessionStdin
  /\ sys_stdout (modules w) = SessionStdout
  /\ text_read 1 w = (Ok (u "y"), w1)
  /\ str_encode (encoding (streams w)) Strict (u "y") = Ok (octets "y")
  /\ exists w',
       getchar true w = (Ok (u "y"), w')
       /\ getvalue (bytes_output (streams w')) = octets "y"
       /\ stdin_decoded (streams w') = u "es".
Proof.
  intros w w1.
  assert (H1 : sys_stdin (modules w) = SessionStdin) by reflexivity.
  assert (H2 : sys_stdout (modules w) = SessionStdout) by reflexivity.
  assert (H3 : text_read 1 w = (Ok (u "y"), w1)) by reflexivity.
  assert (H4 : str_encode (encoding (streams w)) Strict (u "y") = Ok (octets "y"))
    by reflexivity.
  split; [exact H1|]. split; [exact H2|]. split; [exact H3|]. split; [exact H4|].
  destruct (getchar_echoes_on_request true w w1 (u "y") (octets "y") H1 H2 H3 H4)
    as (w' & Hrun & _ & Hsd & Hout & _).
  exists w'. split; [exact Hrun|]. rewrite Hout, Hsd. split; reflexivity.
Defined.

(** ** Standard error *)

Lemma str_encode_backslashreplace_total (c : codec) (s : str) :
  exists data, str_encode c Backslashreplace s = Ok data.
Proof.
  induction s as [|ch s [data IH]]; simpl; [by eexists|].
  rewrite IH. destruct (encode_char c ch); simpl; by eexists.
Qed.

(** X16: in a session that keeps stderr apart, writing to [sys.stderr]
    never fails, whatever the text and the character set: the session
    ends as its input stream allowed it to begin. *)
Theorem separate_stderr_takes_any_text (self : CliRunner) (input : input_t)
    (overrides : option (dict (option string))) (color : bool) (s : str)
    (w : World) :
  mix_stderr self = false ->
  (isolation self input overrides color (sys_stderr_write s) w).1
  = outcome_map (fun _ => tt) (make_input_stream input (charset self)).
Proof.
  intros Hmix.
  destruct (make_input_stream input (charset self)) as [i|e] eqn:Hi.
  - rewrite (isolation_runs self input i) by done. cbv zeta.
    destruct (str_encode_backslashreplace_total (charset self) s) as [data Hd].
    crunch_io. rewrite Hmix. crunch_io. by rewrite Hd.
  - by rewrite (isolation_refused self input overrides color _ w e).
Qed.

Lemma separate_stderr_takes_any_text_witness :
  let self := {| charset := codec_ascii; env := 0; echo_stdin := false;
                 mix_stderr := false |} in
  mix_stderr self = false
  /\ (isolation self InputNone None false (sys_stderr_write [233%N; 8364%N])
        host_world).1 = Ok tt.
Proof.
  intros self.
  assert (H : mix_stderr self = false) by reflexivity.
  split; [exact H|].
  exact (separate_stderr_takes_any_text self InputNone None false _ host_world H).
Defined.

Section Chatter.

Variable shlex_split : str -> outcome (list str).

(** X17: a command writes [a] to stdout, [b] to stderr, flushes stderr and
    writes [c] to stdout.  With stderr mixed in, the output of the result
    is [a], [b] and [c] in the order they were written, and the result has
    no stderr bytes; with stderr apart the output is [a] and [c], and the
    stderr bytes are [b], in which a character without encoding is
    escaped. *)
Theorem stderr_is_mixed_in_or_kept_apart (self : CliRunner) (a b c : str)
    (args : args_t) (input : input_t) (env : option (dict (option string)))
    (catch_exceptions color : bool) (extra : dict pyval) (w : World)
    (i : BytesIO) (l : list str) (da db dc : bytes) :
  make_input_stream input (charset self) = Ok i ->
  tokens shlex_split args = Ok l ->
  str_encode (charset self) Strict a = Ok da ->
  str_encode (charset self) (if mix_stderr self then Strict else Backslashreplace) b
    = Ok db ->
  str_encode (charset self) Strict c = Ok dc ->
  exists r,
    (invoke shlex_split self (chatter a b c) args input env catch_exceptions color
       extra w).1 = Ok r
    /\ exit_code r = PyInt 0
    /\ if mix_stderr self
       then stdout_bytes r = da ++ db ++ dc /\ stderr_bytes r = None
       else stdout_bytes r = da ++ dc /\ stderr_bytes r = Some db.
Proof.
  intros Hi Hl Ha Hb Hc.
  rewrite (invoke_runs shlex_split self _ args input env catch_exceptions color
             extra w i l) by done.
  rewrite attempt_runs. cbn [main chatter].
  destruct (mix_stderr self) eqn:Hmix.
  - crunch_io. rewrite Hmix. crunch_io. rewrite Ha. crunch_io. rewrite Hb.
    crunch_io. rewrite Hc. crunch_io.
    eexists. split; [reflexivity|]. cbn [exit_code stdout_bytes stderr_bytes
                                         l_exit_code].
    split; [reflexivity|]. split; [|reflexivity].
    change (BytesIO_of []) with (sink []).
    rewrite !app_nil_l, write_at_end, write_at_end. simpl.
    by rewrite app_assoc.
  - crunch_io. rewrite Hmix. crunch_io. rewrite Ha. crunch_io. rewrite Hb.
    crunch_io. rewrite Hc. crunch_io.
    eexists. split; [reflexivity|]. cbn [exit_code stdout_bytes stderr_bytes
                                         l_exit_code].
    split; [reflexivity|].
    change (BytesIO_of []) with (sink []).
    rewrite !app_nil_l, !write_at_end. by simpl.
Qed.

End Chatter.

Lemma stderr_is_mixed_in_or_kept_apart_witness :
  let self := {| charset := codec_ascii; env := 0; echo_stdin := false;
                 mix_stderr := false |} in
  make_input_stream InputNone (charset self) = Ok (BytesIO_of [])
  /\ tokens one_word ArgsNone = Ok []
  /\ str_encode (charset self) Strict (u "out ") = Ok (octets "out ")
  /\ str_encode (charset self) (if mix_stderr self then Strict else Backslashreplace)
       [233%N] = Ok (octets "\xe9")
  /\ str_encode (charset self) Strict (u "more") = Ok (octets "more")
  /\ exists r,
       (invoke one_word self (chatter (u "out ") [233%N] (u "more")) ArgsNone
          InputNone None true false [] host_world).1 = Ok r
       /\ exit_code r = PyInt 0
       /\ stdout_bytes r = octets "out " ++ octets "more"
       /\ stderr_bytes r = Some (octets "\xe9").
Proof.
  intros self.
  assert (H1 : make_input_stream InputNone (charset self) = Ok (BytesIO_of []))
    by reflexivity.
  assert (H2 : tokens one_word ArgsNone = Ok []) by reflexivity.
  assert (H3 : str_encode (charset self) Strict (u "out ") = Ok (octets "out "))
    by reflexivity.
  assert (H4 : str_encode (charset self)
                 (if mix_stderr self then Strict else Backslashreplace) [233%N]
               = Ok (octets "\xe9")) by reflexivity.
  assert (H5 : str_encode (charset self) Strict (u "more") = Ok (octets "more"))
    by reflexivity.
  split; [exact H1|]. split; [exact H2|]. split; [exact H3|]. split; [exact H4|].
  split; [exact H5|].
  destruct (stderr_is_mixed_in_or_kept_apart one_word self (u "out ") [233%N]
              (u "more") ArgsNone InputNone None true false [] host_world
              (BytesIO_of []) [] _ _ _ H1 H2 H3 H4 H5) as (r & Hr & Hcode & Hout & Herr).
  exists r. split; [exact Hr|]. split; [exact Hcode|]. split; [exact Hout|exact Herr].
Defined.

(** ** Echo *)

Section Echo.

Variable shlex_split : str -> outcome (list str).

(** X18: a command reads all of its input through the binary buffer of
    stdin.  With [echo_stdin] the captured output is the input, byte for
    byte; without it nothing is captured. *)
Theorem binary_reads_are_echoed_on_request (self : CliRunner) (data : bytes)
    (args : args_t) (env : option (dict (option string)))
    (catch_exceptions color : bool) (extra : dict pyval) (w : World)
    (l : list str) :
  tokens shlex_split args = Ok l ->
  exists r,
    (invoke shlex_split self slurp args (InputBytes data) env catch_exceptions
       color extra w).1 = Ok r
    /\ exit_code r = PyInt 0
    /\ stdout_bytes r = if echo_stdin self then data else [].
Proof.
  intros Hl.
  rewrite (invoke_runs shlex_split self _ args (InputBytes data) env
             catch_exceptions color extra w (BytesIO_of data) l) by done.
  rewrite attempt_runs. cbn [main slurp].
  unfold buffer_read, on_echoing_stdin, on_stdin_bytes, EchoingStdin_read,
    on_input, _echo.
  destruct (echo_stdin self) eqn:Hecho.
  - crunch_io. rewrite Hecho. crunch. cbn [BytesIO_read fst snd].
    crunch_io. destruct (mix_stderr self); crunch_io;
      (eexists; split; [reflexivity|]; split; [reflexivity|]);
      cbn [stdout_bytes];
      change (BytesIO_of []) with (sink []);
      change (limit (-1) (remaining (BytesIO_of data))) with data;
      by rewrite write_at_end.
  - crunch_io. rewrite Hecho. crunch. cbn [BytesIO_read fst snd].
    crunch_io. destruct (mix_stderr self); crunch_io;
      (eexists; split; [reflexivity|]; split; reflexivity).
Qed.

End Echo.

Lemma binary_reads_are_echoed_on_request_witness :
  tokens one_word ArgsNone = Ok []
  /\ exists r,
       (invoke one_word (a_runner true true) slurp ArgsNone
          (InputBytes (octets "Hey!")) None true false [] host_world).1 = Ok r
       /\ exit_code r = PyInt 0
       /\ stdout_bytes r = octets "Hey!".
Proof.
  assert (H : tokens one_word ArgsNone = Ok []) by reflexivity.
  split; [exact H|].
  exact (binary_reads_are_echoed_on_request one_word (a_runner true true)
           (octets "Hey!") ArgsNone None true false [] host_world [] H).
Defined.

(** ** Reading text with echo *)

Section TextReads.

Variable shlex_split : str -> outcome (list str).

(** C3, where it fails: a command reads a line of text from [sys.stdin].
    The text wrapper of stdin fills itself through [read1], which an
    [EchoingStdin] does not have and hands on to its input, so that what
    is read is not echoed: the command gets its line and nothing is
    captured, also when the runner has [echo_stdin] set. *)
Theorem text_reads_are_not_echoed (self : CliRunner) (input : input_t)
    (i : BytesIO) (s : str) (args : args_t)
    (env : option (dict (option string))) (catch_exceptions color : bool)
    (extra : dict pyval) (w : World) (l : list str) :
  make_input_stream input (charset self) = Ok i ->
  bytes_decode (charset self) Strict (remaining i) = Ok s ->
  tokens shlex_split args = Ok l ->
  exists r,
    (invoke shlex_split self read_a_line args input env catch_exceptions color
       extra w).1 = Ok r
    /\ return_value r = PyStr (first_line (universal_newlines s))
    /\ stdout_bytes r = [].
Proof.
  intros Hi Hdec Hl.
  rewrite (invoke_runs shlex_split self _ args input env catch_exceptions color
             extra w i l) by done.
  rewrite attempt_runs. cbn [main read_a_line].
  unfold stream_readline.
  crunch_io.
  rewrite text_readline_runs. crunch_io.
  unfold readline_of, fill_of, BytesIO_read1, BytesIO_read, limit. simpl.
  rewrite Hdec. simpl.
  destruct (mix_stderr self); simpl;
    (eexists; split; [reflexivity|]; split; reflexivity).
Qed.

End TextReads.

Lemma text_reads_are_not_echoed_witness :
  let self := a_runner true true in
  let input := InputStr (u "Ada" ++ [LF]) in
  echo_stdin self = true
  /\ make_input_stream input (charset self) = Ok (BytesIO_of (octets "Ada" ++ [x0a]))
  /\ bytes_decode (charset self) Strict (remaining (BytesIO_of (octets "Ada" ++ [x0a])))
     = Ok (u "Ada" ++ [LF])
  /\ tokens one_word ArgsNone = Ok []
  /\ exists r,
       (invoke one_word self read_a_line ArgsNone input None true false []
          host_world).1 = Ok r
       /\ return_value r = PyStr (u "Ada" ++ [LF])
       /\ stdout_bytes r = [].
Proof.
  intros self input.
  assert (H1 : make_input_stream input (charset self)
               = Ok (BytesIO_of (octets "Ada" ++ [x0a]))) by reflexivity.
  assert (H2 : bytes_decode (charset self) Strict
                 (remaining (BytesIO_of (octets "Ada" ++ [x0a])))
               = Ok (u "Ada" ++ [LF])) by reflexivity.
  assert (H3 : tokens one_word ArgsNone = Ok []) by reflexivity.
  split; [reflexivity|]. split; [exact H1|]. split; [exact H2|]. split; [exact H3|].
  exact (text_reads_are_not_echoed one_word self input _ _ ArgsNone None true false
           [] host_world [] H1 H2 H3).
Defined.

(** ** The isolated workspace, whatever happens *)

Lemma workspace_puts_cwd_back {A} (self : CliRunner)
    (temp_dir : option path) (body : path -> M FileSystem A) (fs : FileSystem) :
  cwd (isolated_filesystem self temp_dir body fs).2 = cwd fs
  \/ exists e, (isolated_filesystem self temp_dir body fs).1 = Raised e
               /\ is_OSError e = true.
Proof.
  remember (isolated_filesystem self temp_dir body fs) as res eqn:Hres.
  revert Hres. unfold isolated_filesystem.
  unfold bind at 1. pose proof (getcwd_runs fs) as Hg.
  destruct (getcwd fs) as [[c|e] fs0].
  2: { destruct Hg as [-> _]. intros ->. by left. }
  destruct Hg as (-> & -> & _).
  unfold bind at 1. pose proof (mkdtemp_runs temp_dir fs) as Hm.
  destruct (mkdtemp temp_dir fs) as [[t|e] fs1].
  2: { subst. intros ->. by left. }
  unfold bind at 1. pose proof (chdir_runs t fs1) as Hc.
  destruct (chdir t fs1) as [[[]|e] fs1'].
  2: { destruct Hc as [-> _]. subst. intros ->. by left. }
  unfold try_finally.
  destruct (body t fs1') as [o fs2].
  unfold bind at 1. pose proof (chdir_runs (cwd fs) fs2) as Hb.
  destruct (chdir (cwd fs) fs2) as [[[]|e] back].
  2: { destruct Hb as [-> He]. intros ->. right. by exists e. }
  destruct Hb as [-> _].
  destruct temp_dir as [dir|]; [intros ->; by left|].
  unfold pass_on_OSError, try_except.
  pose proof (rmtree_runs t (set_cwd (cwd fs) fs2)) as (Hcwd & _ & _ & _ & Hr).
  destruct (rmtree t (set_cwd (cwd fs) fs2)) as [[[]|e] fs3]; simpl in *.
  - intros ->. by left.
  - destruct Hr as [-> _]. intros ->. by left.
Qed.

(** X19: an isolated workspace either leaves the working directory as it
    was before, or raises an [OSError]; this is so whether a parent
    directory was given or not, whether the directory could be created or
    not, however the body ends and wherever it has changed to.  So
    workspaces nest: when an inner workspace has returned, the working
    directory is the directory of the outer workspace again. *)
Theorem workspaces_restore_cwd_and_nest {A} (self : CliRunner)
    (outer inner : option path) (body : path -> M FileSystem A) (fs : FileSystem) :
  (cwd (isolated_filesystem self outer body fs).2 = cwd fs
   \/ exists e, (isolated_filesystem self outer body fs).1 = Raised e
                /\ is_OSError e = true)
  /\ match (isolated_filesystem self outer
              (fun t1 =>
                 (let* _ := isolated_filesystem self inner body in
                  let* c := getcwd in
                  ret (t1, c))%py) fs).1 with
     | Ok (t1, c) => c = t1
     | Raised _ => True
     end.
Proof.
  split; [apply workspace_puts_cwd_back|].
  unfold isolated_filesystem at 1.
  unfold bind at 1. pose proof (getcwd_runs fs) as Hg.
  destruct (getcwd fs) as [[c0|e] fs0]; [|done].
  destruct Hg as (-> & -> & _).
  unfold bind at 1.
  destruct (mkdtemp outer fs) as [[t1|e] fs1]; [|done].
  unfold bind at 1. pose proof (chdir_runs t1 fs1) as Hc.
  destruct (chdir t1 fs1) as [[[]|e] fs_in]; [|done].
  destruct Hc as [-> _].
  unfold try_finally. unfold bind at 1.
  pose proof (workspace_puts_cwd_back self inner body (set_cwd t1 fs1)) as Hin.
  destruct (isolated_filesystem self inner body (set_cwd t1 fs1)) as [[x|e] fs2];
    simpl in Hin.
  - destruct Hin as [Hin|(e & He & _)]; [|done].
    unfold bind at 1. pose proof (getcwd_runs fs2) as Hg.
    destruct (getcwd fs2) as [[c|e] fs2'].
    + destruct Hg as (-> & -> & _). unfold ret. rewrite Hin.
      match goal with
      | |- context [let (_, _) := ?m ?s in _] => destruct (m s) as [[[]|e] fs3]
      end; done.
    + match goal with
      | |- context [let (_, _) := ?m ?s in _] => destruct (m s) as [[[]|e'] fs3]
      end; done.
  - match goal with
    | |- context [let (_, _) := ?m ?s in _] => destruct (m s) as [[[]|e'] fs3]
    end; done.
Qed.

Lemma workspaces_restore_cwd_and_nest_witness :
  let fs : FileSystem :=
    {| cwd := ["home"]; entries := {[ ["home"]; ["tmp"] ]};
       tempdir := ["tmp"]; candidate_names := fun k => "tmp" +:+ pretty k;
       refused := fun _ => None; removed_first := ∅ |} in
  let body : path -> M FileSystem unit := fun _ => chdir ["home"] in
  exists t1 c,
    (isolated_filesystem (a_runner false true) None
       (fun t1 =>
          (let* _ := isolated_filesystem (a_runner false true) None body in
           let* c := getcwd in
           ret (t1, c))%py) fs).1 = Ok (t1, c)
    /\ t1 = ["tmp"; "tmp0"]
    /\ c = t1.
Proof.
  intros fs body.
  destruct (workspaces_restore_cwd_and_nest (a_runner false true)
              None None body fs) as [_ H].
  match type of H with
  | match ?run with _ => _ end =>
      assert (Hrun : run = Ok (["tmp"; "tmp0"], ["tmp"; "tmp0"]))
        by (vm_compute; reflexivity);
      rewrite Hrun in H
  end.
  exists ["tmp"; "tmp0"], ["tmp"; "tmp0"].
  split; [exact Hrun|]. split; [reflexivity|exact H].
Defined.

(** ** Prompting at the end of the input *)

Lemma text_readline_at_end (w : World) :
  stdin_decoded (streams w) = [] ->
  remaining (stdin_bytes (streams w)) = [] ->
  exists w1,
    text_readline w = (Ok [], w1)
    /\ modules w1 = modules w
    /\ encoding (streams w1) = encoding (streams w)
    /\ stdout_pending (streams w1) = stdout_pending (streams w)
    /\ bytes_output (streams w1) = bytes_output (streams w).
Proof.
  intros Hsd Hrest. rewrite text_readline_runs.
  destruct w as [e g d [sb ech sd bo po be pe enc] h]. setters. subst sd.
  unfold readline_of, fill_of. simpl. unfold limit. simpl. rewrite Hrest.
  simpl. eexists. split; [reflexivity|]. by simpl.
Qed.

Section PromptAtEnd.

Variable shlex_split : str -> outcome (list str).

(** X22: a command prompts while there is no input, or none left.  The
    hook reads the empty string: the command gets the empty string, and
    the output is the prompt and a newline. *)
Theorem prompt_without_input (self : CliRunner) (text : str) (args : args_t)
    (env : option (dict (option string))) (catch_exceptions color : bool)
    (extra : dict pyval) (w : World) (l : list str) (pb nl : bytes) :
  tokens shlex_split args = Ok l ->
  str_encode (charset self) Strict text = Ok pb ->
  str_encode (charset self) Strict [LF] = Ok nl ->
  exists r,
    (invoke shlex_split self (ask text) args InputNone env catch_exceptions color
       extra w).1 = Ok r
    /\ return_value r = PyStr []
    /\ exit_code r = PyInt 0
    /\ stdout_bytes r = pb ++ nl.
Proof.
  intros Hl Hpb Hnl.
  rewrite (invoke_runs shlex_split self _ args InputNone env catch_exceptions
             color extra w (BytesIO_of []) l) by done.
  rewrite attempt_runs. cbn [main ask].
  set (start := session_world self (BytesIO_of []) env color w).
  unfold bind at 1. unfold prompt_for. unfold bind at 1.
  unfold global at 1, gets at 1.
  change (visible_prompt_func (modules start)) with Visible_input. cbv iota.
  unfold visible_input. unfold bind at 1.
  rewrite (sys_stdout_write_runs _ pb) by done.
  unfold bind at 1. unfold stream_readline.
  match goal with
  | |- context [text_readline ?w0] =>
      destruct (text_readline_at_end w0) as (w1 & -> & Hm & Henc & Hpend & Hout);
      [reflexivity|reflexivity|]
  end.
  cbn [rstrip app].
  unfold bind at 1.
  rewrite (sys_stdout_write_runs _ nl);
    [|rewrite Hm; reflexivity|rewrite Henc; exact Hnl].
  unfold bind at 1.
  rewrite sys_stdout_flush_runs
    by (unfold set_streams; cbn [modules]; rewrite Hm; reflexivity).
  unfold ret at 1. unfold ret at 1.
  unfold collect. unfold bind at 1.
  rewrite sys_stdout_flush_runs
    by (unfold set_streams; cbn [modules]; rewrite Hm; reflexivity).
  unfold bind, gets. simpl. rewrite Hpend, Hout. simpl.
  change (BytesIO_of []) with (sink []).
  rewrite write_at_end. simpl.
  destruct (mix_stderr self); simpl;
    (eexists; split; [reflexivity|]); by simpl.
Qed.

End PromptAtEnd.

Lemma prompt_without_input_witness :
  let self := a_runner false true in
  tokens one_word ArgsNone = Ok []
  /\ str_encode (charset self) Strict (u "Name: ") = Ok (octets "Name: ")
  /\ str_encode (charset self) Strict [LF] = Ok [x0a]
  /\ exists r,
       (invoke one_word self (ask (u "Name: ")) ArgsNone InputNone None true false
          [] host_world).1 = Ok r
       /\ return_value r = PyStr []
       /\ exit_code r = PyInt 0
       /\ stdout_bytes r = octets "Name: " ++ [x0a].
Proof.
  intros self.
  assert (H1 : tokens one_word ArgsNone = Ok []) by reflexivity.
  assert (H2 : str_encode (charset self) Strict (u "Name: ") = Ok (octets "Name: "))
    by reflexivity.
  assert (H3 : str_encode (charset self) Strict [LF] = Ok [x0a]) by reflexivity.
  split; [exact H1|]. split; [exact H2|]. split; [exact H3|].
  exact (prompt_without_input one_word self (u "Name: ") ArgsNone None true false
           [] host_world [] _ _ H1 H2 H3).
Defined.

(** ** The environment after an invocation *)

Lemma stream_write_keeps_environ (f : stream_obj) (s : str) (w : World) :
  os_environ (stream_write f s w).2 = os_environ w.
Proof.
  destruct f; simpl; try done; run_step;
    match goal with
    | |- context [str_encode ?c ?e s] => by destruct (str_encode c e s)
    end.
Qed.

Lemma sys_stdout_write_keeps_environ (s : str) (w : World) :
  os_environ (sys_stdout_write s w).2 = os_environ w.
Proof.
  unfold sys_stdout_write, bind, global, gets.
  apply stream_write_keeps_environ.
Qed.

Lemma handlers_keep_environ (catch_exceptions : bool) (e : exn) (w : World) :
  os_environ (match handlers catch_exceptions e with
              | Some h => h w
              | None => (Raised e, w)
              end).2 = os_environ w.
Proof.
  destruct e as [code|cls msg|cls]; cbn [handlers]; [| |done].
  - unfold on_SystemExit.
    destruct (negb (isinstance_int _)); [|done].
    unfold bind at 1.
    pose proof (sys_stdout_write_keeps_environ
                  (py_str match code with PyNone => PyInt 0 | _ => code end) w) as H1.
    destruct (sys_stdout_write _ w) as [[[]|e1] w1]; simpl in H1; [|done].
    unfold bind at 1.
    pose proof (sys_stdout_write_keeps_environ [LF] w1) as H2.
    destruct (sys_stdout_write [LF] w1) as [[[]|e2] w2]; simpl in H2;
      unfold ret; simpl; congruence.
  - unfold on_Exception. by destruct catch_exceptions.
Qed.

Section InvokeEnvironment.

Variable shlex_split : str -> outcome (list str).

(** X20: after an invocation the environment is the environment of
    before, whether the invocation returns a result or raises; the entry
    point may do to the overridden variables what it likes and is taken to
    leave the other variables alone. *)
Theorem invoke_restores_the_environment (self : CliRunner) (cli : Command)
    (args : args_t) (input : input_t) (env : option (dict (option string)))
    (catch_exceptions color : bool) (extra : dict pyval) (w : World) :
  (forall rv w', make_env self env w = (Ok rv, w') ->
     forall a p x (w1 : World) (k : string),
       dict_get k (deref rv w') = None ->
       os_environ (main cli a p x w1).2 !! k = os_environ w1 !! k) ->
  os_environ (invoke shlex_split self cli args input env catch_exceptions color
                extra w).2
  = os_environ w.
Proof.
  intros Hmain.
  specialize (Hmain _ _ (make_env_runs self env w)). rewrite deref_new in Hmain.
  destruct (make_input_stream input (charset self)) as [i|e] eqn:Hi.
  - destruct (tokens shlex_split args) as [l|e] eqn:Hl.
    + rewrite (invoke_runs shlex_split self cli args input env catch_exceptions
                 color extra w i l) by done.
      rewrite attempt_runs.
      set (start := session_world self i env color w).
      specialize (Hmain l (prog_name_of self cli extra) (extra_of extra) start).
      destruct (main cli l (prog_name_of self cli extra) (extra_of extra) start)
        as [o wm].
      simpl in Hmain.
      assert (Hw1 : forall o1 w1,
                 match o with
                 | Ok v => (Ok {| l_return_value := v; l_exception := None;
                                  l_exit_code := PyInt 0; l_exc_info := None |}, wm)
                 | Raised e0 =>
                     match handlers catch_exceptions e0 with
                     | Some h => h wm
                     | None => (Raised e0, wm)
                     end
                 end = (o1, w1) -> os_environ w1 = os_environ wm).
      { intros o1 w1 H. destruct o as [v|e0].
        - by injection H as <- <-.
        - pose proof (handlers_keep_environ catch_exceptions e0 wm) as Hh.
          rewrite H in Hh. exact Hh. }
      destruct (match o with Ok v => _ | Raised e0 => _ end) as [o1 w1].
      specialize (Hw1 o1 w1 eq_refl).
      destruct (collect_ok self w1) as (out & err & w2 & -> & He2 & _).
      assert (os_environ (leave self env w w2) = os_environ w) as Hleave.
      { unfold leave. simpl. apply environ_after_session; [apply merged_NoDup|].
        intros k Hk. rewrite He2, Hw1. by apply Hmain. }
      by destruct o1 as [lc|e1].
    + rewrite (invoke_without_arguments shlex_split self cli args input env
                 catch_exceptions color extra w i e) by done.
      unfold leave. simpl. by apply environ_after_session; [apply merged_NoDup|].
  - unfold invoke. unfold bind at 1.
    by rewrite (isolation_refused self input env color _ w e).
Qed.

End InvokeEnvironment.

Lemma invoke_restores_the_environment_witness :
  let self := a_runner false true in
  let env := Some [("HOME", None); ("TERM", Some "dumb")] in
  let cli := {| name := None;
                main := fun _ _ _ =>
                  (let* _ := environ_set "TERM" "xterm" in
                   raise (SystemExit (PyInt 3)))%py |} in
  (forall rv w', make_env self env host_world = (Ok rv, w') ->
     forall a p x (w1 : World) (k : string),
       dict_get k (deref rv w') = None ->
       os_environ (main cli a p x w1).2 !! k = os_environ w1 !! k)
  /\ os_environ (invoke one_word self cli ArgsNone InputNone env true false []
                   host_world).2
     = os_environ host_world.
Proof.
  intros self env cli.
  assert (H : forall rv w', make_env self env host_world = (Ok rv, w') ->
     forall a p x (w1 : World) (k : string),
       dict_get k (deref rv w') = None ->
       os_environ (main cli a p x w1).2 !! k = os_environ w1 !! k).
  { intros rv w' Hrun a p x w1 k Hk.
    rewrite make_env_runs in Hrun. injection Hrun as <- <-.
    change (dict_get k [("LANG", Some "en_US"); ("DEBUG", None);
                        ("HOME", None); ("TERM", Some "dumb")] = None) in Hk.
    cbn [dict_get] in Hk.
    destruct (String.eqb_spec k "LANG"); [done|].
    destruct (String.eqb_spec k "DEBUG"); [done|].
    destruct (String.eqb_spec k "HOME"); [done|].
    destruct (String.eqb_spec k "TERM"); [done|].
    unfold cli, environ_set. run_step.
    by rewrite lookup_insert_ne. }
  split; [exact H|].
  exact (invoke_restores_the_environment one_word self cli ArgsNone InputNone env
           true false [] host_world H).
Defined.

(** ** From the input to the reader *)

(** X21: text given as input is what the text wrapper of stdin hands to
    its reader, line by line, with every carriage return and newline pair,
    and every other carriage return, read as one newline; this holds for a
    text that the character set of the runner encodes and decodes back. *)
Theorem input_text_is_read_back (self : CliRunner) (s : str) (data : bytes)
    (overrides : option (dict (option string))) (color : bool) (w : World) :
  str_encode (charset self) Strict s = Ok data ->
  bytes_decode (charset self) Strict data = Ok s ->
  (isolation self (InputStr s) overrides color
     (stream_readline SessionStdin) w).1
  = Ok (first_line (universal_newlines s)).
Proof.
  intros Henc Hdec.
  rewrite (isolation_runs self (InputStr s) (BytesIO_of data))
    by (simpl; by rewrite Henc).
  cbv zeta. unfold stream_readline. rewrite text_readline_runs.
  unfold readline_of, fill_of. simpl.
  change (limit (-1) (remaining (BytesIO_of data))) with data.
  rewrite Hdec. by simpl.
Qed.

Lemma input_text_is_read_back_witness :
  let self := a_runner false true in
  let s := u "Ada" ++ [CR; LF] ++ u "Lovelace" in
  str_encode (charset self) Strict s = Ok (octets "Ada" ++ [x0d; x0a] ++ octets "Lovelace")
  /\ bytes_decode (charset self) Strict (octets "Ada" ++ [x0d; x0a] ++ octets "Lovelace")
     = Ok s
  /\ (isolation self (InputStr s) None false (stream_readline SessionStdin)
        host_world).1 = Ok (u "Ada" ++ [LF]).
Proof.
  intros self s.
  assert (H1 : str_encode (charset self) Strict s
               = Ok (octets "Ada" ++ [x0d; x0a] ++ octets "Lovelace")) by reflexivity.
  assert (H2 : bytes_decode (charset self) Strict
                 (octets "Ada" ++ [x0d; x0a] ++ octets "Lovelace") = Ok s)
    by reflexivity.
  split; [exact H1|]. split; [exact H2|].
  exact (input_text_is_read_back self s _ None false host_world H1 H2).
Defined.
